(** * filaswitch: the KISSlicer front end (slicer_kisslicer.py)

    A shallow embedding of [KISSlicerGCodeFile]: the layer segmenter
    ([parse_layers], [check_layer_change]), the header interpreter
    ([parse_header]), the first-layer clean-up ([parse_print_settings]),
    the tower slot allocator ([filter_layers]) and the orchestrator
    ([process]).

    Conventions.
    - Python [bytes] are Stdlib strings (a character is one byte).
    - Python exceptions are the constructors of [exn]; code that may
      raise returns a [res].
    - A Python [int] is a [Z]. A Python [float] is a [pyfloat]: the exact
      rational denoted by the literal, or an infinity, or a NaN (rounding
      to binary64 is not modelled).
    - Layer objects live in a store (the list [self.layers]); a bucket of
      [filter_layers] holds references into it, as positions. *)

From Stdlib Require Import ZArith QArith List String Ascii Bool Lia Permutation Sorted.
From stdpp Require Import base option list gmap.

Import ListNotations.
Local Open Scope string_scope.
Local Open Scope Z_scope.

(** ** Exceptions *)

Inductive exn : Type :=
| ValueError
| IndexError
| KeyError
| AttributeError
| TypeError.

Inductive res (A : Type) : Type :=
| Ok (a : A)
| Raise (e : exn).
Arguments Ok {A} a.
Arguments Raise {A} e.

Definition rbind {A B} (m : res A) (k : A -> res B) : res B :=
  match m with
  | Ok a => k a
  | Raise e => Raise e
  end.

Notation "'let*' x ':=' m 'in' k" := (rbind m (fun x => k))
  (at level 10, x pattern, m at level 100, k at level 200).

Definition raises {A} (m : res A) : Prop := exists e, m = Raise e.

(** ** Bytes *)

Module Bytes.

Definition bytes := string.

Definition chars (s : bytes) : list ascii := list_ascii_of_string s.
Definition of_chars (l : list ascii) : bytes := string_of_list_ascii l.

(** truthiness of an optional bytes value: [None] and [b""] are false *)
Definition truthy (o : option bytes) : bool :=
  match o with
  | Some (String _ _) => true
  | _ => false
  end.

(** [sub in s] *)
Fixpoint contains (sub s : bytes) : bool :=
  String.prefix sub s ||
  match s with
  | EmptyString => false
  | String _ s' => contains sub s'
  end.

(** [s.split(sep)] for a non-empty separator: [skip] counts the bytes of
    the separator occurrence still to be dropped, [cur] is the current
    piece, reversed. *)
Fixpoint split_aux (sep : bytes) (skip : nat) (cur : list ascii) (s : bytes)
  : list bytes :=
  match s with
  | EmptyString => [of_chars (rev cur)]
  | String c s' =>
      match skip with
      | S k => split_aux sep k cur s'
      | O =>
          if String.prefix sep s
          then of_chars (rev cur) :: split_aux sep (String.length sep - 1) [] s'
          else split_aux sep O (c :: cur) s'
      end
  end.

Definition split (sep s : bytes) : list bytes := split_aux sep O [] s.

(** [l[i]] on a Python list *)
Definition index {A} (l : list A) (i : nat) : res A :=
  match nth_error l i with
  | Some x => Ok x
  | None => Raise IndexError
  end.

Definition is_digit (c : ascii) : bool :=
  let n := N_of_ascii c in (48 <=? n)%N && (n <=? 57)%N.

Definition digit_val (c : ascii) : Z := Z.of_N (N_of_ascii c) - 48.

(** the bytes Python's [int] and [float] strip: space, \t, \n, \v, \f, \r *)
Definition is_space (c : ascii) : bool :=
  let n := N_of_ascii c in (n =? 32)%N || ((9 <=? n)%N && (n <=? 13)%N).

Fixpoint lstrip (l : list ascii) : list ascii :=
  match l with
  | c :: l' => if is_space c then lstrip l' else l
  | [] => []
  end.

Definition strip (l : list ascii) : list ascii := rev (lstrip (rev (lstrip l))).

(** longest prefix of [l] made of bytes satisfying [p], and the rest *)
Fixpoint span (p : ascii -> bool) (l : list ascii) : list ascii * list ascii :=
  match l with
  | c :: l' =>
      if p c then let (a, b) := span p l' in (c :: a, b) else ([], l)
  | [] => ([], [])
  end.

Fixpoint strip_prefix (p l : list ascii) : option (list ascii) :=
  match p, l with
  | [], _ => Some l
  | a :: p', b :: l' => if Ascii.eqb a b then strip_prefix p' l' else None
  | _ :: _, [] => None
  end.

Definition lower (c : ascii) : ascii :=
  let n := N_of_ascii c in
  if (65 <=? n)%N && (n <=? 90)%N then ascii_of_N (n + 32) else c.

End Bytes.
Import Bytes.

(** ** Python's [int(bytes)] and [float(bytes)] *)

Module PyNum.

Inductive pyfloat : Type :=
| Fin (q : Q)
| Inf (negative : bool)
| NaN.

Definition fmul (x : pyfloat) (k : Z) : pyfloat :=
  match x with
  | Fin q => Fin (Qred (q * inject_Z k))
  | other => other
  end.

(** digitpart ::= digit (["_"] digit)*, read to the end of [l];
    returns the value and the number of digits *)
Fixpoint digitpart_from (acc : Z) (n : nat) (after_us : bool) (l : list ascii)
  : option (Z * nat) :=
  match l with
  | [] => if after_us then None else Some (acc, n)
  | c :: l' =>
      if is_digit c then digitpart_from (10 * acc + digit_val c) (S n) false l'
      else if Ascii.eqb c "_" && negb after_us then digitpart_from acc n true l'
      else None
  end.

Definition digitpart (l : list ascii) : option (Z * nat) :=
  match l with
  | c :: _ => if is_digit c then digitpart_from 0 O false l else None
  | [] => None
  end.

Definition signed (l : list ascii) : bool * list ascii :=
  match l with
  | c :: l' =>
      if Ascii.eqb c "-" then (true, l')
      else if Ascii.eqb c "+" then (false, l')
      else (false, l)
  | [] => (false, [])
  end.

(** [int(s)] in base 10: optional surrounding whitespace, optional sign,
    digits with single underscores between them. (The limit on the
    number of digits of recent CPython versions is not modelled.) *)
Definition py_int (s : bytes) : res Z :=
  let (neg, body) := signed (strip (chars s)) in
  match digitpart body with
  | Some (v, _) => Ok (if neg then - v else v)
  | None => Raise ValueError
  end.

Definition is_exp_mark (c : ascii) : bool := Ascii.eqb (lower c) "e".
Definition not_exp_mark (c : ascii) : bool := negb (is_exp_mark c).
Definition not_dot (c : ascii) : bool := negb (Ascii.eqb c ".").

(** an optional digitpart: the empty list stands for zero digits *)
Definition opt_digitpart (l : list ascii) : option (Z * nat) :=
  match l with
  | [] => Some (0, O)
  | _ => digitpart l
  end.

Definition pow10 (e : Z) : Q :=
  if 0 <=? e then inject_Z (10 ^ e) else / inject_Z (10 ^ (- e)).

(** floatnumber ::= ([digitpart] "." digitpart | digitpart ["."]) [exponent] *)
Definition float_number (l : list ascii) : option Q :=
  let (mant, rest) := span not_exp_mark l in
  let (ipart, frest) := span not_dot mant in
  let fpart := match frest with _ :: f => f | [] => [] end in
  let exp :=
    match rest with
    | [] => Some 0
    | _ :: e =>
        let (eneg, ebody) := signed e in
        match digitpart ebody with
        | Some (v, _) => Some (if eneg then - v else v)
        | None => None
        end
    end in
  match opt_digitpart ipart, opt_digitpart fpart, exp with
  | Some (iv, inum), Some (fv, fnum), Some e =>
      if (Nat.eqb inum 0 && Nat.eqb fnum 0)%bool then None
      else Some (Qred ((inject_Z iv + inject_Z fv * pow10 (- Z.of_nat fnum)) * pow10 e))
  | _, _, _ => None
  end.

Definition lowered (l : list ascii) : bytes := of_chars (map lower l).

(** [float(s)]: optional surrounding whitespace, optional sign, then a
    floatnumber, or "inf", "infinity" or "nan" in any case *)
Definition py_float (s : bytes) : res pyfloat :=
  let (neg, body) := signed (strip (chars s)) in
  let w := lowered body in
  if String.eqb w "inf" || String.eqb w "infinity" then Ok (Inf neg)
  else if String.eqb w "nan" then Ok NaN
  else match float_number body with
       | Some q => Ok (Fin (if neg then Qred (- q) else q))
       | None => Raise ValueError
       end.

End PyNum.
Import PyNum.

(** ** Layers (layer.py) *)

(** Modelled from the spec: layer.py is missing. The action constants
    [ACT_PASS], [ACT_INFILL], [ACT_SWITCH] are the three values of the
    spec's action enumeration. *)
Inductive Action : Type :=
| ACT_PASS
| ACT_INFILL
| ACT_SWITCH.

Definition Action_eqb (a b : Action) : bool :=
  match a, b with
  | ACT_PASS, ACT_PASS | ACT_INFILL, ACT_INFILL | ACT_SWITCH, ACT_SWITCH => true
  | _, _ => false
  end.

(** a classified line: the optional command and the optional comment *)
Definition gline : Type := option bytes * option bytes.

Module Layer.

(** Modelled from the spec: the classes [Layer] and [FirstLayer] of
    layer.py are missing. A layer has a number, a height [z], a
    thickness [height], its lines in file order, and the fields the
    allocator assigns ([action], [tower_slots]), which start as
    [ACT_PASS] and zero. [first] tells a [FirstLayer] from a [Layer].
    [z] is a Python number, the [int] of [check_layer_change] or the
    float 0.2 of the first layer: it is kept as its exact value, and
    heights are compared by value, as Python compares numbers. *)
Record t : Type := mk {
  first : bool;
  num : Z;
  z : Q;
  height : pyfloat;
  lines : list gline;
  action : Action;
  tower_slots : Z;
  start_gcode_end : option Z;
  outer_perimeter_speed : option pyfloat;
  outer_perimeter_feedrate : option pyfloat
}.

Definition new (first : bool) (num : Z) (z : Q) (height : pyfloat) : t :=
  mk first num z height [] ACT_PASS 0 None None None.

Definition set_z (l : t) (v : Q) : t :=
  mk (first l) (num l) v (height l) (lines l) (action l) (tower_slots l)
     (start_gcode_end l) (outer_perimeter_speed l) (outer_perimeter_feedrate l).

Definition set_height (l : t) (v : pyfloat) : t :=
  mk (first l) (num l) (z l) v (lines l) (action l) (tower_slots l)
     (start_gcode_end l) (outer_perimeter_speed l) (outer_perimeter_feedrate l).

Definition set_lines (l : t) (v : list gline) : t :=
  mk (first l) (num l) (z l) (height l) v (action l) (tower_slots l)
     (start_gcode_end l) (outer_perimeter_speed l) (outer_perimeter_feedrate l).

Definition set_action (l : t) (v : Action) : t :=
  mk (first l) (num l) (z l) (height l) (lines l) v (tower_slots l)
     (start_gcode_end l) (outer_perimeter_speed l) (outer_perimeter_feedrate l).

Definition set_tower_slots (l : t) (v : Z) : t :=
  mk (first l) (num l) (z l) (height l) (lines l) (action l) v
     (start_gcode_end l) (outer_perimeter_speed l) (outer_perimeter_feedrate l).

Definition set_perimeter (l : t) (speed feedrate : option pyfloat) : t :=
  mk (first l) (num l) (z l) (height l) (lines l) (action l) (tower_slots l)
     (start_gcode_end l) speed feedrate.

(** Modelled from the spec: [add_line] appends the classified line
    ("appending is the only mutation during segmentation"). *)
Definition add_line (l : t) (cmd comment : option bytes) : t :=
  set_lines l ((lines l ++ [(cmd, comment)])%list).

(** Modelled from the spec: [read_lines] yields each line with its
    position, counted from zero. *)
Definition read_lines (l : t) : list (option bytes * option bytes * Z) :=
  imap (fun i '(cmd, comment) => (cmd, comment, Z.of_nat i)) (lines l).

(** Modelled from the spec: [delete_line] removes the line at that
    position. *)
Definition delete_line (l : t) (line_index : Z) : t :=
  set_lines l (delete (Z.to_nat line_index) (lines l)).

End Layer.

(** The float literal 0.2 of the source. *)
Definition f0_2 : pyfloat := Fin (2 # 10).

Definition FirstLayer (num : Z) (z : Q) (height : pyfloat) : Layer.t :=
  Layer.new true num z height.
Definition Layer (num : Z) (z : Q) (height : pyfloat) : Layer.t :=
  Layer.new false num z height.

(** ** The patterns of the class *)

(** a run [\d+\.*\d*] at the head of [l]: the three parts are greedy, and
    since each of the patterns below continues with a byte that is
    neither a digit nor a dot (or ends), backtracking finds nothing the
    greedy run does not. *)
Definition number_group (l : list ascii) : option (list ascii * list ascii) :=
  let (d1, r1) := span is_digit l in
  match d1 with
  | [] => None
  | _ =>
      let (dots, r2) := span (fun c => Ascii.eqb c ".") r1 in
      let (d2, r3) := span is_digit r2 in
      Some ((d1 ++ dots ++ d2)%list, r3)
  end.

(** [LAYER_START_RE.match(line)]: the two groups *)
Definition LAYER_START_RE (line : bytes) : option (bytes * bytes) :=
  match strip_prefix (chars "BEGIN_LAYER_OBJECT z=") (chars line) with
  | None => None
  | Some r0 =>
      match number_group r0 with
      | None => None
      | Some (g0, r1) =>
          match strip_prefix (chars " z_thickness=") r1 with
          | None => None
          | Some r2 =>
              match number_group r2 with
              | None => None
              | Some (g1, _) => Some (of_chars g0, of_chars g1)
              end
          end
      end
  end.

(** [VERSION_RE.match(comment)]: " version (\d+)\.(\d+).*" *)
Definition VERSION_RE (comment : bytes) : option (bytes * bytes) :=
  match strip_prefix (chars " version ") (chars comment) with
  | None => None
  | Some r0 =>
      let (g0, r1) := span is_digit r0 in
      match g0, r1 with
      | _ :: _, c :: r2 =>
          if Ascii.eqb c "." then
            let (g1, _) := span is_digit r2 in
            match g1 with
            | [] => None
            | _ => Some (of_chars g0, of_chars g1)
            end
          else None
      | _, _ => None
      end
  end.

(** [ext_re.match(comment)]: "Material Settings for Extruder (\d+)" *)
Definition ext_re (comment : bytes) : option bytes :=
  match strip_prefix (chars "Material Settings for Extruder ") (chars comment) with
  | None => None
  | Some r0 =>
      let (g0, _) := span is_digit r0 in
      match g0 with
      | [] => None
      | _ => Some (of_chars g0)
      end
  end.

(** ** check_layer_change *)

Definition check_layer_change (line : bytes) (current_layer : option (Z * pyfloat))
  : res (option (Z * pyfloat)) :=
  match LAYER_START_RE line with
  | Some (g0, g1) =>
      let* a := py_int g0 in
      let* b := py_float g1 in
      Ok (Some (a, b))
  | None => Ok current_layer
  end.

(** ** Extruders and the state of a run *)

Module Extruder.

(** Modelled from the spec: extruder.py is missing. The per-tool record
    of the spec; a setting reads [None] until the header pass assigns
    it (the constructor's own defaults are not part of this model). *)
Record t : Type := mk {
  tool : Z;
  retract : option pyfloat;
  retract_speed : option pyfloat;
  z_hop : option pyfloat;
  wipe : option pyfloat;
  feed_rate_multiplier : option pyfloat;
  filament_type : option bytes;
  z_offset : option pyfloat
}.

Definition set_tool (v : Z) (s : t) : t :=
  mk v (retract s) (retract_speed s) (z_hop s) (wipe s)
     (feed_rate_multiplier s) (filament_type s) (z_offset s).

Definition set_retract (v : option pyfloat) (s : t) : t :=
  mk (tool s) v (retract_speed s) (z_hop s) (wipe s) (feed_rate_multiplier s)
     (filament_type s) (z_offset s).

Definition set_retract_speed (v : option pyfloat) (s : t) : t :=
  mk (tool s) (retract s) v (z_hop s) (wipe s) (feed_rate_multiplier s)
     (filament_type s) (z_offset s).

Definition set_z_hop (v : option pyfloat) (s : t) : t :=
  mk (tool s) (retract s) (retract_speed s) v (wipe s)
     (feed_rate_multiplier s) (filament_type s) (z_offset s).

Definition set_wipe (v : option pyfloat) (s : t) : t :=
  mk (tool s) (retract s) (retract_speed s) (z_hop s) v
     (feed_rate_multiplier s) (filament_type s) (z_offset s).

Definition set_feed_rate_multiplier (v : option pyfloat) (s : t) : t :=
  mk (tool s) (retract s) (retract_speed s) (z_hop s) (wipe s) v
     (filament_type s) (z_offset s).

Definition set_filament_type (v : option bytes) (s : t) : t :=
  mk (tool s) (retract s) (retract_speed s) (z_hop s) (wipe s)
     (feed_rate_multiplier s) v (z_offset s).

Definition set_z_offset (v : option pyfloat) (s : t) : t :=
  mk (tool s) (retract s) (retract_speed s) (z_hop s) (wipe s)
     (feed_rate_multiplier s) (filament_type s) v.

Definition new (n : Z) : t := mk n None None None None None None None.

End Extruder.

Module GCodeFile.

(** The attributes of [self] the class reads and writes. [layers] is the
    store of layer objects; [filtered_layers] refers to them by
    position. [tools], [extruders], [max_slots] and the speeds come
    from the base class [GCodeFile] (gcode_file.py, missing). *)
Record t : Type := mk {
  layers : list Layer.t;
  filtered_layers : list nat;
  max_slots : option Z;
  tools : list Z;
  extruders : gmap Z Extruder.t;
  version : option (Z * Z);
  stroke_x : option pyfloat;
  stroke_y : option pyfloat;
  origin_offset_x : option pyfloat;
  origin_offset_y : option pyfloat;
  machine_type : option Z;
  travel_xy_speed : option pyfloat;
  travel_z_speed : option pyfloat;
  first_layer_speed : option pyfloat;
  outer_perimeter_speed : option pyfloat
}.

Definition set_layers (v : list Layer.t) (s : t) : t :=
  mk v (filtered_layers s) (max_slots s) (tools s) (extruders s) (version s)
     (stroke_x s) (stroke_y s) (origin_offset_x s) (origin_offset_y s)
     (machine_type s) (travel_xy_speed s) (travel_z_speed s)
     (first_layer_speed s) (outer_perimeter_speed s).

Definition set_filtered_layers (v : list nat) (s : t) : t :=
  mk (layers s) v (max_slots s) (tools s) (extruders s) (version s)
     (stroke_x s) (stroke_y s) (origin_offset_x s) (origin_offset_y s)
     (machine_type s) (travel_xy_speed s) (travel_z_speed s)
     (first_layer_speed s) (outer_perimeter_speed s).

Definition set_max_slots (v : option Z) (s : t) : t :=
  mk (layers s) (filtered_layers s) v (tools s) (extruders s) (version s)
     (stroke_x s) (stroke_y s) (origin_offset_x s) (origin_offset_y s)
     (machine_type s) (travel_xy_speed s) (travel_z_speed s)
     (first_layer_speed s) (outer_perimeter_speed s).

Definition set_tools (v : list Z) (s : t) : t :=
  mk (layers s) (filtered_layers s) (max_slots s) v (extruders s) (version s)
     (stroke_x s) (stroke_y s) (origin_offset_x s) (origin_offset_y s)
     (machine_type s) (travel_xy_speed s) (travel_z_speed s)
     (first_layer_speed s) (outer_perimeter_speed s).

Definition set_extruders (v : gmap Z Extruder.t) (s : t) : t :=
  mk (layers s) (filtered_layers s) (max_slots s) (tools s) v (version s)
     (stroke_x s) (stroke_y s) (origin_offset_x s) (origin_offset_y s)
     (machine_type s) (travel_xy_speed s) (travel_z_speed s)
     (first_layer_speed s) (outer_perimeter_speed s).

Definition set_version (v : option (Z * Z)) (s : t) : t :=
  mk (layers s) (filtered_layers s) (max_slots s) (tools s) (extruders s) v
     (stroke_x s) (stroke_y s) (origin_offset_x s) (origin_offset_y s)
     (machine_type s) (travel_xy_speed s) (travel_z_speed s)
     (first_layer_speed s) (outer_perimeter_speed s).

Definition set_stroke_x (v : option pyfloat) (s : t) : t :=
  mk (layers s) (filtered_layers s) (max_slots s) (tools s) (extruders s)
     (version s) v (stroke_y s) (origin_offset_x s) (origin_offset_y s)
     (machine_type s) (travel_xy_speed s) (travel_z_speed s)
     (first_layer_speed s) (outer_perimeter_speed s).

Definition set_stroke_y (v : option pyfloat) (s : t) : t :=
  mk (layers s) (filtered_layers s) (max_slots s) (tools s) (extruders s)
     (version s) (stroke_x s) v (origin_offset_x s) (origin_offset_y s)
     (machine_type s) (travel_xy_speed s) (travel_z_speed s)
     (first_layer_speed s) (outer_perimeter_speed s).

Definition set_origin_offset_x (v : option pyfloat) (s : t) : t :=
  mk (layers s) (filtered_layers s) (max_slots s) (tools s) (extruders s)
     (version s) (stroke_x s) (stroke_y s) v (origin_offset_y s)
     (machine_type s) (travel_xy_speed s) (travel_z_speed s)
     (first_layer_speed s) (outer_perimeter_speed s).

Definition set_origin_offset_y (v : option pyfloat) (s : t) : t :=
  mk (layers s) (filtered_layers s) (max_slots s) (tools s) (extruders s)
     (version s) (stroke_x s) (stroke_y s) (origin_offset_x s) v
     (machine_type s) (travel_xy_speed s) (travel_z_speed s)
     (first_layer_speed s) (outer_perimeter_speed s).

Definition set_machine_type (v : option Z) (s : t) : t :=
  mk (layers s) (filtered_layers s) (max_slots s) (tools s) (extruders s)
     (version s) (stroke_x s) (stroke_y s) (origin_offset_x s)
     (origin_offset_y s) v (travel_xy_speed s) (travel_z_speed s)
     (first_layer_speed s) (outer_perimeter_speed s).

Definition set_travel_xy_speed (v : option pyfloat) (s : t) : t :=
  mk (layers s) (filtered_layers s) (max_slots s) (tools s) (extruders s)
     (version s) (stroke_x s) (stroke_y s) (origin_offset_x s)
     (origin_offset_y s) (machine_type s) v (travel_z_speed s)
     (first_layer_speed s) (outer_perimeter_speed s).

Definition set_travel_z_speed (v : option pyfloat) (s : t) : t :=
  mk (layers s) (filtered_layers s) (max_slots s) (tools s) (extruders s)
     (version s) (stroke_x s) (stroke_y s) (origin_offset_x s)
     (origin_offset_y s) (machine_type s) (travel_xy_speed s) v
     (first_layer_speed s) (outer_perimeter_speed s).

Definition set_first_layer_speed (v : option pyfloat) (s : t) : t :=
  mk (layers s) (filtered_layers s) (max_slots s) (tools s) (extruders s)
     (version s) (stroke_x s) (stroke_y s) (origin_offset_x s)
     (origin_offset_y s) (machine_type s) (travel_xy_speed s)
     (travel_z_speed s) v (outer_perimeter_speed s).

Definition set_outer_perimeter_speed (v : option pyfloat) (s : t) : t :=
  mk (layers s) (filtered_layers s) (max_slots s) (tools s) (extruders s)
     (version s) (stroke_x s) (stroke_y s) (origin_offset_x s)
     (origin_offset_y s) (machine_type s) (travel_xy_speed s)
     (travel_z_speed s) (first_layer_speed s) v.

(** an object at the start of a run: the configured tools, nothing read *)
Definition init (tools : list Z) : t :=
  mk [] [] None tools ∅ None None None None None None None None None None.

End GCodeFile.

(** ** A line classifier and a tool-change recogniser *)

Module GCode.

(** Modelled from the spec: gcode.py is missing. A line that starts with
    the comment byte is a comment (the rest of the line); otherwise the
    part before the first comment byte is the command and the part
    after it, if there is one, the comment; an empty line has
    neither. *)
Fixpoint cut (l : list ascii) : list ascii * option (list ascii) :=
  match l with
  | [] => ([], None)
  | c :: l' =>
      if Ascii.eqb c ";" then ([], Some l')
      else let (a, b) := cut l' in (c :: a, b)
  end.

Definition read_gcode_line (line : bytes) : gline :=
  match cut (chars line) with
  | ([], None) => (None, None)
  | ([], Some c) => (None, Some (of_chars c))
  | (cmd, c) => (Some (of_chars cmd), option_map of_chars c)
  end.

(** Modelled from the spec: a tool-change command is the letter T
    followed by the decimal index of the tool. *)
Definition is_tool_change (cmd : bytes) : option Z :=
  match chars cmd with
  | t :: d =>
      if Ascii.eqb t "T" then
        let (ds, _) := span is_digit d in
        match ds with
        | [] => None
        | _ => match py_int (of_chars ds) with Ok n => Some n | Raise _ => None end
        end
      else None
  | [] => None
  end.

End GCode.

(** ** Methods run on [self]: state and exceptions

    A method maps the object to a result and the object as the method
    left it; after a [Raise] that is the object at the point of the
    raise. *)

Definition M (A : Type) : Type := GCodeFile.t -> res A * GCodeFile.t.

Definition mret {A} (a : A) : M A := fun s => (Ok a, s).

Definition mbind {A B} (m : M A) (k : A -> M B) : M B :=
  fun s =>
    match m s with
    | (Ok a, s') => k a s'
    | (Raise e, s') => (Raise e, s')
    end.

Definition mraise {A} (e : exn) : M A := fun s => (Raise e, s).
Definition mget : M GCodeFile.t := fun s => (Ok s, s).
Definition modify (f : GCodeFile.t -> GCodeFile.t) : M unit := fun s => (Ok tt, f s).
Definition lift {A} (r : res A) : M A := fun s => (r, s).

Notation "'do' x <- m ; k" := (mbind m (fun x => k))
  (at level 10, x pattern, m at level 100, k at level 200).
Notation "'run' m ; k" := (mbind m (fun _ => k))
  (at level 10, m at level 100, k at level 200).

Fixpoint foldM {A B} (f : A -> B -> M A) (l : list B) (a : A) : M A :=
  match l with
  | [] => mret a
  | x :: l' => do a' <- f a x; foldM f l' a'
  end.

Section KISSlicerGCodeFile.

(** gcode.py is missing: the line classifier and the tool-change
    recogniser ([None], or the index of the tool selected) are taken as
    they come. *)
Variable read_gcode_line : bytes -> gline.
Variable is_tool_change : bytes -> option Z.

(** Modelled from the spec: [Layer.has_tool_changes] (layer.py is
    missing) is true iff a command of the layer is a tool change. *)
Definition has_tool_changes (l : Layer.t) : bool :=
  existsb (fun ln : gline =>
             match fst ln with
             | Some cmd => bool_decide (is_Some (is_tool_change cmd))
             | None => false
             end) (Layer.lines l).

(** *** parse_layers *)

Definition parse_layers_line (loc : Layer.t * Z) (line : bytes) : M (Layer.t * Z) :=
  let '(current_layer, layer_num) := loc in
  let '(cmd, comment) := read_gcode_line line in
  do loc' <-
          match comment with
          | Some (String _ _ as c) =>
              do ret <- lift (check_layer_change c None);
              match ret with
              | Some (layer_z, layer_height) =>
                  if (Layer.num current_layer =? 1) && (layer_num =? 0) then
                    mret (Layer.set_height
                            (Layer.set_z current_layer (inject_Z layer_z))
                            layer_height,
                          layer_num + 1)
                  else
                    run modify (fun s => GCodeFile.set_layers
                                       ((GCodeFile.layers s ++ [current_layer])%list) s);
                    mret (Layer (layer_num + 1) (inject_Z layer_z) layer_height,
                          layer_num + 1)
              | None => mret loc
              end
          | _ => mret loc
          end;
  let '(current_layer, layer_num) := loc' in
  mret (Layer.add_line current_layer cmd comment, layer_num).

Definition parse_layers (lines : list bytes) : M unit :=
  do loc <- foldM parse_layers_line lines (FirstLayer 1 (2 # 10) f0_2, 0);
  modify (fun s => GCodeFile.set_layers
                     ((GCodeFile.layers s ++ [fst loc])%list) s).

(** *** parse_header *)

(** [comment.split(b' = ')[1]] *)
Definition value (comment : bytes) : res bytes := index (split " = " comment) 1.

Definition float_value (comment : bytes) : res pyfloat :=
  let* v := value comment in py_float v.

Definition int_value (comment : bytes) : res Z :=
  let* v := value comment in py_int v.

(** truthiness of [current_tool]: [None] and [0] are false *)
Definition tool_truthy (current_tool : option Z) : bool :=
  match current_tool with
  | Some n => negb (n =? 0)
  | None => false
  end.

(** [self.extruders[current_tool].<field> = v] *)
Definition set_extruder_field (current_tool : option Z)
    (f : Extruder.t -> Extruder.t) : M unit :=
  do s <- mget;
  match current_tool with
  | Some n =>
      match GCodeFile.extruders s !! n with
      | Some e => modify (GCodeFile.set_extruders (<[n := f e]> (GCodeFile.extruders s)))
      | None => mraise KeyError
      end
  | None => mraise KeyError
  end.

(** [for t in range(n): if not t in self.extruders: self.extruders[t] = Extruder(t)] *)
Definition add_extruders (n : Z) (m : gmap Z Extruder.t) : gmap Z Extruder.t :=
  fold_left (fun m t => match m !! t with
                        | Some _ => m
                        | None => <[t := Extruder.new t]> m
                        end) (seqZ 0 n) m.

(** the [try] block of the version line: any exception is caught *)
Definition parse_version (comment : bytes) : M unit :=
  match VERSION_RE comment with
  | Some (a, b) =>
      match py_int a, py_int b with
      | Ok x, Ok y => modify (GCodeFile.set_version (Some (x, y)))
      | _, _ => mret tt
      end
  | None => mret tt
  end.

(** one annotation-only line; the locals are [z_offset] and
    [current_tool] *)
Definition header_comment (loc : pyfloat * option Z) (comment : bytes)
  : M (pyfloat * option Z) :=
  let '(z_offset, current_tool) := loc in
  if contains " version" comment then
    run parse_version comment; mret loc
  else if contains "bed_size_x_mm =" comment then
    do v <- lift (float_value comment);
    run modify (GCodeFile.set_stroke_x (Some v)); mret loc
  else if contains "bed_size_y_mm =" comment then
    do v <- lift (float_value comment);
    run modify (GCodeFile.set_stroke_y (Some v)); mret loc
  else if contains "bed_offset_x_mm =" comment then
    do v <- lift (float_value comment);
    run modify (GCodeFile.set_origin_offset_x (Some v)); mret loc
  else if contains "bed_offset_y_mm =" comment then
    do v <- lift (float_value comment);
    run modify (GCodeFile.set_origin_offset_y (Some v)); mret loc
  else if contains "bed_offset_z_mm =" comment then
    do v <- lift (float_value comment);
    mret (v, current_tool)
  else if contains "round_bed =" comment then
    do v <- lift (int_value comment);
    run modify (GCodeFile.set_machine_type (Some v)); mret loc
  else if contains "travel_speed_mm_per_s =" comment then
    do v <- lift (float_value comment);
    let speed := fmul v 60 in
    run modify (GCodeFile.set_travel_xy_speed (Some speed));
    run modify (GCodeFile.set_travel_z_speed (Some speed)); mret loc
  else if contains "num_extruders = " comment then
    do n <- lift (int_value comment);
    run modify (fun s => GCodeFile.set_extruders (add_extruders n (GCodeFile.extruders s)) s);
    mret loc
  else if contains "first_layer_speed_mm_per_s =" comment then
    do v <- lift (float_value comment);
    run modify (GCodeFile.set_first_layer_speed (Some (fmul v 60))); mret loc
  else if contains "Perimeter Speed =" comment then
    do v <- lift (float_value comment);
    run modify (GCodeFile.set_outer_perimeter_speed (Some (fmul v 60))); mret loc
  else if contains "*** Material Settings for Extruder" comment then
    match ext_re comment with
    | None => mraise AttributeError
    | Some g =>
        do n <- lift (py_int g);
        mret (z_offset, Some (n - 1))
    end
  else if tool_truthy current_tool && contains "destring_length =" comment then
    do v <- lift (float_value comment);
    run set_extruder_field current_tool (Extruder.set_retract (Some v)); mret loc
  else if tool_truthy current_tool && contains "destring_speed_mm_per_s =" comment then
    do v <- lift (float_value comment);
    run set_extruder_field current_tool (Extruder.set_retract_speed (Some (fmul v 60)));
    mret loc
  else if tool_truthy current_tool && contains "Z_lift_mm =" comment then
    do v <- lift (float_value comment);
    run set_extruder_field current_tool (Extruder.set_z_hop (Some v)); mret loc
  else if tool_truthy current_tool && contains "wipe_mm =" comment then
    do v <- lift (float_value comment);
    run set_extruder_field current_tool (Extruder.set_wipe (Some v)); mret loc
  else if tool_truthy current_tool && contains "flowrate_tweak =" comment then
    do v <- lift (float_value comment);
    run set_extruder_field current_tool (Extruder.set_feed_rate_multiplier (Some v));
    mret loc
  else if tool_truthy current_tool && contains "g_code_matl =" comment then
    do v <- lift (value comment);
    run set_extruder_field current_tool (Extruder.set_filament_type (Some v)); mret loc
  else if contains "firmware_type =" comment then
    do v <- lift (value comment);
    if String.eqb v "1" then mret loc else mraise ValueError
  else mret loc.

(** a line of a layer: a line with a command is skipped ([cmd] is
    tested for a tool change first, which only sets the unused local
    [current_extruder]); [b" version" in None] is a TypeError *)
Definition header_line (loc : pyfloat * option Z) (ln : gline)
  : M (pyfloat * option Z) :=
  let '(cmd, comment) := ln in
  if truthy cmd then mret loc
  else match comment with
       | None => mraise TypeError
       | Some c => header_comment loc c
       end.

Definition parse_header : M unit :=
  do s <- mget;
  do loc <- foldM (fun loc layer => foldM header_line (Layer.lines layer) loc)
                  (GCodeFile.layers s) (Fin 0, None);
  modify (fun s => GCodeFile.set_extruders
                     (Extruder.set_z_offset (Some (fst loc)) <$> GCodeFile.extruders s) s).

(** *** parse_print_settings *)

(** the base class's [parse_print_settings] (gcode_file.py, missing) *)
Variable base_parse_print_settings : M unit.

(** the loop over [self.layers[0].read_lines()]: the position of the
    first line after [start_gcode_end] whose command selects tool 0 *)
Fixpoint find_first_T0 (start_gcode_end : option Z)
    (ls : list (option bytes * option bytes * Z)) : res (option Z) :=
  match ls with
  | [] => Ok None
  | (cmd, _, line_index) :: ls' =>
      match start_gcode_end with
      | None => Raise TypeError
      | Some e =>
          if (e <? line_index) && truthy cmd &&
             bool_decide (is_tool_change (default "" cmd) = Some 0)
          then Ok (Some line_index)
          else find_first_T0 start_gcode_end ls'
      end
  end.

(** the line at position [j] is one the loop stops at *)
Definition selects_T0 (start_gcode_end : Z) (j : nat) (ln : gline) : Prop :=
  start_gcode_end < Z.of_nat j /\ truthy (fst ln) = true /\
  is_tool_change (default "" (fst ln)) = Some 0.

Definition remove_first_T0 : M unit :=
  do s <- mget;
  match GCodeFile.layers s with
  | [] => mraise IndexError
  | layer0 :: rest =>
      do found <- lift (find_first_T0 (Layer.start_gcode_end layer0)
                                      (Layer.read_lines layer0));
      match found with
      | Some line_index =>
          modify (GCodeFile.set_layers (Layer.delete_line layer0 line_index :: rest))
      | None => mret tt
      end
  end.

Definition parse_print_settings : M unit :=
  run base_parse_print_settings; remove_first_T0.

(** *** filter_layers *)

(** [layer_data]: a dict from a height to its bucket, in insertion
    order; keys are compared by value. A bucket holds the layers of the
    height, as references into the store, and, once the scan has
    visited it, its slots. *)
Record bucket : Type := Bucket {
  b_layers : list nat;
  b_slots : option Z
}.

Definition layer_data : Type := list (Q * bucket).

Fixpoint ld_lookup (z : Q) (d : layer_data) : option bucket :=
  match d with
  | [] => None
  | (k, b) :: d' => if Qeq_bool k z then Some b else ld_lookup z d'
  end.

Fixpoint ld_alter (f : bucket -> bucket) (z : Q) (d : layer_data) : layer_data :=
  match d with
  | [] => []
  | (k, b) :: d' => if Qeq_bool k z then (k, f b) :: d' else (k, b) :: ld_alter f z d'
  end.

(** [layer_data[z]] *)
Definition ld_get (d : layer_data) (z : Q) : res bucket :=
  match ld_lookup z d with
  | Some b => Ok b
  | None => Raise KeyError
  end.

Fixpoint foldR {A B} (f : A -> B -> res A) (l : list B) (a : A) : res A :=
  match l with
  | [] => Ok a
  | x :: l' => let* a' := f a x in foldR f l' a'
  end.

(** [sorted]: a stable sort for the order [le] *)
Fixpoint insert_by {A} (le : A -> A -> bool) (x : A) (l : list A) : list A :=
  match l with
  | [] => [x]
  | y :: l' => if le x y then x :: l else y :: insert_by le x l'
  end.

Definition sorted_by {A} (le : A -> A -> bool) (l : list A) : list A :=
  fold_right (insert_by le) [] l.

(** step 1: one layer of [self.layers], met at position [i] *)
Definition group_layer (d : layer_data) (il : nat * Layer.t) : layer_data :=
  let (i, layer) := il in
  let d := match ld_lookup (Layer.z layer) d with
           | None => (d ++ [(Layer.z layer, Bucket [] None)])%list
           | Some _ => d
           end in
  ld_alter (fun b => Bucket (b_layers b ++ [i])%list (b_slots b)) (Layer.z layer) d.

Definition group_layers (layers : list Layer.t) : layer_data :=
  fold_left group_layer (imap pair layers) [].

(** [l.has_tool_changes()] through a reference *)
Definition has_tool_changes_at (store : list Layer.t) (i : nat) : bool :=
  from_option has_tool_changes false (store !! i).

(** [lrs] of a bucket *)
Definition count_tool_changes (store : list Layer.t) (refs : list nat) : Z :=
  fold_left (fun lrs i => lrs + (if has_tool_changes_at store i then 1 else 0)) refs 0.

(** the two tests of the scan on [slots] and [count] *)
Definition slot_step (sc : Z * Z) (lrs : Z) : Z * Z :=
  let (slots, count) := sc in
  let count := if slots <? lrs then count + 1 else count in
  if 3 <=? count then (lrs, 0) else (slots, count).

Definition scan_height (store : list Layer.t) (st : Z * Z * layer_data) (z : Q)
  : res (Z * Z * layer_data) :=
  let '(slots, count, d) := st in
  let* b := ld_get d z in
  let lrs := count_tool_changes store (b_layers b) in
  let '(slots, count) := slot_step (slots, count) lrs in
  Ok (slots, count, ld_alter (fun b => Bucket (b_layers b) (Some slots)) z d).

(** steps 1 and 2: the heights in the order of the scan (descending),
    the final [slots] and [layer_data] *)
Definition allocate_slots (store : list Layer.t) : res (list Q * Z * layer_data) :=
  let d := group_layers store in
  let zs := rev (sorted_by Qle_bool (map fst d)) in
  let* (slots, _, d) := foldR (scan_height store) zs (1, 0, d) in
  Ok (zs, slots, d).

Definition tag_switch (slots : Z) (st : list Layer.t * Z) (i : nat) : list Layer.t * Z :=
  let (store, slots_filled) := st in
  let store := alter (fun l => Layer.set_tower_slots l slots) i store in
  if has_tool_changes_at store i
  then (alter (fun l => Layer.set_action l ACT_SWITCH) i store, slots_filled + 1)
  else (store, slots_filled).

Definition tag_other (slots : Z) (st : list Layer.t * Z) (i : nat) : list Layer.t * Z :=
  let (store, slots_filled) := st in
  if has_tool_changes_at store i then st
  else if slots_filled <? slots
       then (alter (fun l => Layer.set_action l ACT_INFILL) i store, slots_filled + 1)
       else (alter (fun l => Layer.set_action l ACT_PASS) i store, slots_filled).

Definition tag_height (d : layer_data) (store : list Layer.t) (z : Q)
  : res (list Layer.t) :=
  let* b := ld_get d z in
  match b_slots b with
  | None => Raise KeyError
  | Some slots =>
      if slots =? 0 then Ok store
      else
        let st1 := fold_left (tag_switch slots) (b_layers b) (store, 0) in
        let st2 := fold_left (tag_other slots) (b_layers b) st1 in
        Ok (fst st2)
  end.

(** step 3 *)
Definition pack (d : layer_data) (acc : list nat) (z : Q) : res (list nat) :=
  let* b := ld_get d z in Ok (acc ++ b_layers b)%list.

Definition num_at (store : list Layer.t) (i : nat) : Z :=
  from_option Layer.num 0 (store !! i).

Definition filter_layers_on (s : GCodeFile.t) : res GCodeFile.t :=
  let* (zs, slots, d) := allocate_slots (GCodeFile.layers s) in
  let s := GCodeFile.set_max_slots (Some slots) s in
  let zs := rev zs in
  let* store := foldR (tag_height d) zs (GCodeFile.layers s) in
  let* layers := foldR (pack d) zs [] in
  Ok (GCodeFile.set_filtered_layers
        (sorted_by (fun i j => num_at store i <=? num_at store j) layers)
        (GCodeFile.set_layers store s)).

(** as a method; no raise of [filter_layers_on] is reachable
    (see [filter_layers_total]) *)
Definition filter_layers : M unit :=
  fun s => match filter_layers_on s with
           | Ok s' => (Ok tt, s')
           | Raise e => (Raise e, s)
           end.

(** *** parse_perimeter_rates *)

Definition parse_perimeter_rates : M unit :=
  modify (fun s =>
    GCodeFile.set_layers
      (map (fun layer => Layer.set_perimeter layer (GCodeFile.outer_perimeter_speed s)
                                             (Some (Fin (5 # 100))))
           (GCodeFile.layers s)) s).

(** *** process *)

(** the other methods of the base class and of the tower writer
    (gcode_file.py, missing) *)
Variable open_file : bytes -> M unit.
Variable find_tower_position add_switch_raft add_tool_change_gcode : M unit.
Variable save_new_file : M bytes.

Definition process (gcode_file : bytes) : M bytes :=
  run open_file gcode_file;
  run parse_header;
  run parse_print_settings;
  run filter_layers;
  run parse_perimeter_rates;
  do s <- mget;
  run (if (1 <? length (GCodeFile.tools s))%nat then
         run find_tower_position;
         run add_switch_raft;
         add_tool_change_gcode
       else mret tt);
  save_new_file.

End KISSlicerGCodeFile.

(** ** What the allocator establishes *)

Section AllocatorInvariants.

Variable is_tool_change : bytes -> option Z.

Local Abbreviation has_tc := (has_tool_changes is_tool_change).

(** every slot count recorded so far is at least one *)
Definition slots_good (d : layer_data) : Prop :=
  forall z b n, ld_lookup z d = Some b -> b_slots b = Some n -> 1 <= n.

(** the height has been visited: its bucket has its slots *)
Definition visited (d : layer_data) (z : Q) : Prop :=
  exists b n, ld_lookup z d = Some b /\ b_slots b = Some n.

(** what the first loop over a bucket does to a layer of it *)
Definition switch_tag (slots : Z) (l : Layer.t) : Layer.t :=
  if has_tc l
  then Layer.set_action (Layer.set_tower_slots l slots) ACT_SWITCH
  else Layer.set_tower_slots l slots.

(** what the second loop does to it, [a] being the action it gives *)
Definition other_tag (a : Action) (l : Layer.t) : Layer.t :=
  if has_tc l then l else Layer.set_action l a.

(** a layer as the allocator leaves it *)
Definition tagged (l : Layer.t) : Prop :=
  1 <= Layer.tower_slots l /\
  if has_tc l then Layer.action l = ACT_SWITCH
  else Layer.action l = ACT_INFILL \/ Layer.action l = ACT_PASS.

Fixpoint distinct (ks : list Q) : Prop :=
  match ks with
  | [] => True
  | k :: ks' => (forall k', In k' ks' -> ~ (k == k')%Q) /\ distinct ks'
  end.

End AllocatorInvariants.

(** ** The scan of [filter_layers], height by height *)

(** what the scan sees at one height: the tool-change count of the
    bucket, and [slots] before and after the two tests *)
Record visit : Type := Visit {
  v_required : Z;
  v_before : Z;
  v_after : Z
}.

Fixpoint slot_trace (sc : Z * Z) (reqs : list Z) : list visit :=
  match reqs with
  | [] => []
  | lrs :: reqs' =>
      let sc' := slot_step sc lrs in
      Visit lrs (fst sc) (fst sc') :: slot_trace sc' reqs'
  end.

(** the tool-change counts of the heights, top of the print first *)
Definition required_counts (is_tool_change : bytes -> option Z)
    (store : list Layer.t) : list Z :=
  let d := group_layers store in
  map (fun z => count_tool_changes is_tool_change store
                  (from_option b_layers [] (ld_lookup z d)))
      (rev (sorted_by Qle_bool (map fst d))).

Definition scan_trace (is_tool_change : bytes -> option Z)
    (store : list Layer.t) : list visit :=
  slot_trace (1, 0) (required_counts is_tool_change store).

(** a height in deficit: it needs more slots than there are *)
Definition deficit (v : visit) : bool := v_before v <? v_required v.

(** a height at which [slots] changes *)
Definition raised (v : visit) : bool := negb (v_after v =? v_before v).

(** the number of heights in deficit since [slots] last changed *)
Definition stalls_from (c : Z) (vs : list visit) : Z :=
  fold_left (fun c v => if raised v then 0 else if deficit v then c + 1 else c) vs c.

Definition stalls (vs : list visit) : Z := stalls_from 0 vs.

(** the reading of the hysteresis as three heights in a row: [slots]
    changes at a height only if that height and the two visited just
    before it are in deficit *)
Definition raised_only_after_three_in_a_row (vs : list visit) : Prop :=
  forall k v, vs !! k = Some v -> raised v = true ->
    exists v1 v2, (2 <= k)%nat /\ vs !! (k - 2)%nat = Some v1 /\ vs !! (k - 1)%nat = Some v2 /\
                  deficit v1 = true /\ deficit v2 = true /\ deficit v = true.

(** ** The allocator, said directly *)

(** the positions, in [self.layers], of the layers of height [z] *)
Definition layers_at (store : list Layer.t) (z : Q) : list nat :=
  map fst (List.filter (fun il : nat * Layer.t => Qeq_bool (Layer.z (snd il)) z)
                       (imap pair store)).

Section AllocatorRule.

Variable is_tool_change : bytes -> option Z.

(** how many layers without a tool change a bucket lists before layer [i] *)
Fixpoint plain_before (store : list Layer.t) (refs : list nat) (i : nat) : Z :=
  match refs with
  | [] => 0
  | j :: refs' =>
      if Nat.eqb j i then 0
      else (if has_tool_changes_at is_tool_change store j then 0 else 1)
           + plain_before store refs' i
  end.

(** the action of layer [i] in a bucket holding [refs] with [slots] slots:
    a switch if it has tool changes; otherwise infill while the tool-change
    layers and the plain layers before it leave a slot free *)
Definition expected_action (store : list Layer.t) (refs : list nat) (slots : Z)
    (i : nat) : Action :=
  if has_tool_changes_at is_tool_change store i then ACT_SWITCH
  else if count_tool_changes is_tool_change store refs + plain_before store refs i <? slots
       then ACT_INFILL
       else ACT_PASS.

End AllocatorRule.

(** ** Markers, as [parse_layers] sees them *)

(** the height and thickness a classified line announces, if its comment
    is a layer start whose values convert *)
Definition marker_values (ln : gline) : option (Z * pyfloat) :=
  match snd ln with
  | Some (String _ _ as c) =>
      match check_layer_change c None with
      | Ok r => r
      | Raise _ => None
      end
  | _ => None
  end.

Definition is_marker (ln : gline) : bool :=
  match marker_values ln with
  | Some _ => true
  | None => false
  end.

(** the line does not make [check_layer_change] raise *)
Definition converts (ln : gline) : bool :=
  match snd ln with
  | Some (String _ _ as c) =>
      match check_layer_change c None with
      | Ok _ => true
      | Raise _ => false
      end
  | _ => true
  end.

(** a method that keeps a relation between the object before and after,
    whether it returns or raises *)
Definition keeps (R : GCodeFile.t -> GCodeFile.t -> Prop) {A} (m : M A) : Prop :=
  forall s r s', m s = (r, s') -> R s s'.

(** no extruder is dropped, and none changes its tool number *)
Definition extruders_kept (s s' : GCodeFile.t) : Prop :=
  forall t e, GCodeFile.extruders s !! t = Some e ->
    exists e', GCodeFile.extruders s' !! t = Some e' /\
               Extruder.tool e' = Extruder.tool e.

(** ** Header keys *)

(** the keys tested before the firmware flag, in the order of the chain *)
Definition keys_before_firmware : list bytes :=
  [" version"; "bed_size_x_mm ="; "bed_size_y_mm ="; "bed_offset_x_mm =";
   "bed_offset_y_mm ="; "bed_offset_z_mm ="; "round_bed =";
   "travel_speed_mm_per_s ="; "num_extruders = "; "first_layer_speed_mm_per_s =";
   "Perimeter Speed ="; "*** Material Settings for Extruder";
   "destring_length ="; "destring_speed_mm_per_s ="; "Z_lift_mm ="; "wipe_mm =";
   "flowrate_tweak ="; "g_code_matl ="].

(** the line is taken as the firmware flag: it holds that key and none of
    the keys tested before it *)
Definition is_firmware_flag (comment : bytes) : bool :=
  contains "firmware_type =" comment &&
  forallb (fun k => negb (contains k comment)) keys_before_firmware.

(** the global settings read with [float] *)
Definition float_keys : list bytes :=
  ["bed_size_x_mm ="; "bed_size_y_mm ="; "bed_offset_x_mm ="; "bed_offset_y_mm =";
   "bed_offset_z_mm ="; "travel_speed_mm_per_s ="; "first_layer_speed_mm_per_s =";
   "Perimeter Speed ="].

(** the line is taken as one of the global float settings *)
Definition is_float_setting (comment : bytes) : bool :=
  negb (contains " version" comment) &&
  negb (contains "round_bed =" comment) &&
  negb (contains "num_extruders = " comment) &&
  existsb (fun k => contains k comment) float_keys.

(** what [parse_header] leaves alone: the layers and the allocator's
    outputs *)
Definition same_layers (s s' : GCodeFile.t) : Prop :=
  GCodeFile.layers s' = GCodeFile.layers s /\
  GCodeFile.filtered_layers s' = GCodeFile.filtered_layers s /\
  GCodeFile.max_slots s' = GCodeFile.max_slots s /\
  GCodeFile.tools s' = GCodeFile.tools s.

(** a method that leaves them alone, whether it returns or raises *)
Definition preserves {A} (m : M A) : Prop :=
  forall s r s', m s = (r, s') -> same_layers s s'.

(** ** A file system for the examples *)

(** Modelled from the spec: [GCodeFile.open_file] (gcode_file.py, missing)
    reads the lines of the file and hands them to [parse_layers]. *)
Definition open_file_of (fs : bytes -> list bytes) (gcode_file : bytes) : M unit :=
  parse_layers GCode.read_gcode_line (fs gcode_file).

(** ** Inputs of the examples *)

Module Examples.

(** the marker of the comment above [LAYER_START_RE] in the source *)
Definition decimal_marker : bytes := "BEGIN_LAYER_OBJECT z=0.294 z_thickness=0.294".

Definition tool_layer (num z : Z) : Layer.t :=
  Layer.add_line (Layer num (inject_Z z) f0_2) (Some "T1") None.

Definition plain_layer (num z : Z) : Layer.t :=
  Layer.add_line (Layer num (inject_Z z) f0_2) (Some "G1 X1") None.

(** five heights; from the top, the tool-change counts are 2, 0, 2, 0, 2 *)
Definition spiky_print : list Layer.t :=
  [tool_layer 1 1; tool_layer 2 1; plain_layer 3 2; tool_layer 4 3;
   tool_layer 5 3; plain_layer 6 4; tool_layer 7 5; tool_layer 8 5].

(** three heights; from the top, the tool-change counts are 2, 0, 2 *)
Definition two_spikes : list Layer.t :=
  [tool_layer 1 1; tool_layer 2 1; plain_layer 3 2; tool_layer 4 3; tool_layer 5 3].

Definition files (gcode_file : bytes) : list bytes :=
  if String.eqb gcode_file "absolute_e.gcode" then
    ["; firmware_type = 2"; "G1 X1"]
  else if String.eqb gcode_file "single.gcode" then
    ["G1 X1 Y1"]
  else if String.eqb gcode_file "malformed.gcode" then
    ["; bed_size_x_mm = abc"; "; bed_size_y_mm = 145"]
  else if String.eqb gcode_file "materials.gcode" then
    ["; num_extruders = 2"; "; *** Material Settings for Extruder 2 ***";
     "; destring_length = 3"]
  else if String.eqb gcode_file "extruder1.gcode" then
    [";num_extruders = 2";
     ";Material Settings for Extruder 1 *** Material Settings for Extruder 1 ***";
     "; destring_length = 3"]
  else if String.eqb gcode_file "extruder2.gcode" then
    [";num_extruders = 2";
     ";Material Settings for Extruder 2 *** Material Settings for Extruder 2 ***";
     "; destring_length = 3"]
  else if String.eqb gcode_file "start.gcode" then
    ["G28"; "T0"; "G1 X1"; "T0"]
  else [].

Definition open_file : bytes -> M unit := open_file_of files.

(** the lines of a file of two layers, with a line before the first
    layer start *)
Definition two_layers : list bytes :=
  ["G28"; ";BEGIN_LAYER_OBJECT z=1 z_thickness=0.3"; "T1";
   ";BEGIN_LAYER_OBJECT z=2 z_thickness=0.3"; "G1 X1"].

(** an object of one layer whose header sets the z offset before it
    declares two extruders *)
Definition offset_print : GCodeFile.t :=
  GCodeFile.set_layers
    [Layer.set_lines (FirstLayer 1 (2 # 10) f0_2)
       [(None, Some " bed_offset_z_mm = 0.5"); (None, Some " num_extruders = 2")]]
    (GCodeFile.init [0; 1]).

(** the object once [open_file] has read the file *)
Definition opened (gcode_file : bytes) (tools : list Z) : GCodeFile.t :=
  snd (open_file gcode_file (GCodeFile.init tools)).

(** Modelled from the spec: the base class's [parse_print_settings]
    (gcode_file.py) is missing and the spec leaves it out of scope; the
    examples use this stand-in, which only records that the start g-code
    ends at the first line of the first layer. *)
Definition base_parse_print_settings : M unit :=
  modify (fun s =>
    match GCodeFile.layers s with
    | l :: rest =>
        GCodeFile.set_layers
          (Layer.mk (Layer.first l) (Layer.num l) (Layer.z l) (Layer.height l)
             (Layer.lines l) (Layer.action l) (Layer.tower_slots l) (Some 0)
             (Layer.outer_perimeter_speed l) (Layer.outer_perimeter_feedrate l)
           :: rest) s
    | [] => s
    end).

(** the object once the header is read and the base class has parsed
    the print settings, and once the class has *)
Definition with_settings (gcode_file : bytes) (tools : list Z) : GCodeFile.t :=
  snd (base_parse_print_settings (snd (parse_header (opened gcode_file tools)))).

Definition parsed (gcode_file : bytes) (tools : list Z) : GCodeFile.t :=
  snd (remove_first_T0 GCode.is_tool_change (with_settings gcode_file tools)).

Definition first_layer (s : GCodeFile.t) : Layer.t :=
  hd (FirstLayer 1 0 f0_2) (GCodeFile.layers s).

(** Modelled from the spec: the tower writer and [save_new_file]
    (gcode_file.py) are missing and out of the spec's scope; the examples
    use stand-ins that do nothing and give the new file a fixed name. *)
Definition nothing : M unit := mret tt.
Definition save_new_file : M bytes := mret "out.gcode".

Definition process : bytes -> M bytes :=
  process GCode.is_tool_change base_parse_print_settings open_file
          nothing nothing nothing save_new_file.

End Examples.

(** * Properties *)

Local Open Scope list_scope.

(** ** The dictionary *)

Lemma Qeq_bool_true (a b : Q) : Qeq_bool a b = true <-> (a == b)%Q.
Proof. apply Qeq_bool_iff. Qed.

Lemma Qeq_bool_false (a b : Q) : Qeq_bool a b = false <-> ~ (a == b)%Q.
Proof.
  rewrite <- Qeq_bool_iff. destruct (Qeq_bool a b); split; intros; congruence.
Qed.

(** closes goals about [Qeq_bool] by reflexivity, symmetry and
    transitivity of the equality of rationals *)
Ltac qeq :=
  repeat match goal with
         | H : Qeq_bool _ _ = true |- _ => apply Qeq_bool_true in H
         | H : Qeq_bool _ _ = false |- _ => apply Qeq_bool_false in H
         end;
  try (exfalso;
       match goal with
       | H : ~ (_ == _)%Q |- _ =>
           apply H; eauto using Qeq_trans, Qeq_sym, Qeq_refl
       end);
  try (apply Qeq_bool_true; eauto using Qeq_trans, Qeq_sym, Qeq_refl).

Lemma ld_lookup_proper (z z' : Q) (d : layer_data) :
  (z == z')%Q -> ld_lookup z d = ld_lookup z' d.
Proof.
  intros E. induction d as [|[k b] d IH]; simpl; [reflexivity|].
  destruct (Qeq_bool k z) eqn:E1, (Qeq_bool k z') eqn:E2; auto; qeq.
Qed.

Lemma ld_lookup_alter (f : bucket -> bucket) (z z' : Q) (d : layer_data) :
  ld_lookup z (ld_alter f z' d) =
  if Qeq_bool z' z then f <$> ld_lookup z d else ld_lookup z d.
Proof.
  induction d as [|[k b] d IH]; simpl.
  - destruct (Qeq_bool z' z); reflexivity.
  - destruct (Qeq_bool k z') eqn:E1; simpl;
      destruct (Qeq_bool k z) eqn:E2; simpl;
      destruct (Qeq_bool z' z) eqn:E3; simpl; auto;
      try (rewrite IH, E3; reflexivity); qeq.
Qed.

Lemma ld_lookup_snoc (z k : Q) (b : bucket) (d : layer_data) :
  ld_lookup z (d ++ [(k, b)]) =
  match ld_lookup z d with
  | Some x => Some x
  | None => if Qeq_bool k z then Some b else None
  end.
Proof.
  induction d as [|[k' b'] d IH]; simpl; [reflexivity|].
  destruct (Qeq_bool k' z); auto.
Qed.

Lemma ld_alter_keys (f : bucket -> bucket) (z : Q) (d : layer_data) :
  map fst (ld_alter f z d) = map fst d.
Proof.
  induction d as [|[k b] d IH]; simpl; [reflexivity|].
  destruct (Qeq_bool k z); simpl; congruence.
Qed.

Lemma ld_lookup_key (k : Q) (d : layer_data) :
  In k (map fst d) -> is_Some (ld_lookup k d).
Proof.
  induction d as [|[k' b] d IH]; simpl; [tauto|].
  intros [->|H].
  - rewrite Qeq_bool_refl. eauto.
  - destruct (Qeq_bool k' k); eauto.
Qed.

Lemma ld_lookup_has_key (z : Q) (b : bucket) (d : layer_data) :
  ld_lookup z d = Some b -> exists k, In k (map fst d) /\ (k == z)%Q.
Proof.
  induction d as [|[k' b'] d IH]; simpl; [discriminate|].
  destruct (Qeq_bool k' z) eqn:E.
  - intros _. exists k'. split; [auto|]. now apply Qeq_bool_true.
  - intros H. destruct (IH H) as (k & ? & ?). eauto.
Qed.

(** ** Sorting keeps the elements *)

Lemma insert_by_In {A} (le : A -> A -> bool) (x y : A) (l : list A) :
  In y (insert_by le x l) <-> y = x \/ In y l.
Proof.
  induction l as [|a l IH]; simpl.
  - intuition.
  - destruct (le x a); simpl; rewrite ?IH; intuition.
Qed.

Lemma sorted_by_In {A} (le : A -> A -> bool) (y : A) (l : list A) :
  In y (sorted_by le l) <-> In y l.
Proof.
  induction l as [|a l IH]; simpl; [tauto|].
  rewrite insert_by_In, IH. intuition.
Qed.

(** ** Step 1: every layer is in the bucket of its height *)

Lemma group_layers_snoc (store : list Layer.t) (x : Layer.t) :
  group_layers (store ++ [x]) = group_layer (group_layers store) (length store, x).
Proof.
  unfold group_layers. rewrite imap_app, fold_left_app. simpl.
  now rewrite Nat.add_0_r.
Qed.

Lemma group_layers_covers (store : list Layer.t) (i : nat) (l : Layer.t) :
  store !! i = Some l ->
  exists b, ld_lookup (Layer.z l) (group_layers store) = Some b /\ In i (b_layers b).
Proof.
  revert i l. induction store as [|x store IH] using rev_ind; intros i l Hi.
  - discriminate.
  - rewrite group_layers_snoc. unfold group_layer.
    set (d := group_layers store) in *.
    set (d1 := match ld_lookup (Layer.z x) d with
               | Some _ => d
               | None => (d ++ [(Layer.z x, Bucket [] None)])%list
               end).
    assert (Hx : is_Some (ld_lookup (Layer.z x) d1)).
    { unfold d1. destruct (ld_lookup (Layer.z x) d) eqn:E; [rewrite E; eauto|].
      rewrite ld_lookup_snoc, E, Qeq_bool_refl. eauto. }
    assert (Hkeep : forall z b, ld_lookup z d = Some b -> ld_lookup z d1 = Some b).
    { intros z b Hz. unfold d1. destruct (ld_lookup (Layer.z x) d); [assumption|].
      now rewrite ld_lookup_snoc, Hz. }
    rewrite ld_lookup_alter.
    destruct (decide (i < length store)%nat) as [Hlt|Hge].
    + rewrite lookup_app_l in Hi by assumption.
      destruct (IH _ _ Hi) as (b & Hb & Hin).
      rewrite (Hkeep _ _ Hb).
      destruct (Qeq_bool (Layer.z x) (Layer.z l)); simpl; eexists; split; eauto.
      simpl. apply in_or_app. now left.
    + assert (i = length store) as ->.
      { apply lookup_lt_Some in Hi. rewrite length_app in Hi. simpl in Hi. lia. }
      rewrite list_lookup_middle in Hi by reflexivity. injection Hi as <-.
      rewrite Qeq_bool_refl. destruct Hx as [b Hb]. rewrite Hb. simpl.
      eexists; split; eauto. simpl. apply in_or_app. right. now left.
Qed.

Section Allocator.

Variable is_tool_change : bytes -> option Z.

Local Abbreviation has_tc := (has_tool_changes is_tool_change).

(** ** Step 2: the scan *)

Local Arguments slot_step : simpl never.

Lemma slot_step_bounds (slots count lrs : Z) :
  1 <= slots -> 0 <= count <= 2 ->
  1 <= fst (slot_step (slots, count) lrs) /\
  0 <= snd (slot_step (slots, count) lrs) <= 2.
Proof.
  intros Hs Hc. unfold slot_step.
  destruct (slots <? lrs) eqn:E1; [apply Z.ltb_lt in E1|apply Z.ltb_ge in E1].
  - destruct (3 <=? count + 1) eqn:E2;
      [apply Z.leb_le in E2|apply Z.leb_gt in E2]; simpl; lia.
  - destruct (3 <=? count) eqn:E2;
      [apply Z.leb_le in E2|apply Z.leb_gt in E2]; simpl; lia.
Qed.

Lemma scan_total (store : list Layer.t) (zs : list Q) :
  forall slots count d,
    1 <= slots -> 0 <= count <= 2 ->
    (forall z, In z zs -> is_Some (ld_lookup z d)) ->
    slots_good d ->
    exists slots' count' d',
      foldR (scan_height is_tool_change store) zs (slots, count, d)
        = Ok (slots', count', d') /\
      1 <= slots' /\
      map fst d' = map fst d /\
      (forall z, b_layers <$> ld_lookup z d' = b_layers <$> ld_lookup z d) /\
      slots_good d' /\
      (forall z, visited d z -> visited d' z) /\
      (forall z, In z zs -> visited d' z).
Proof.
  induction zs as [|z zs IH]; intros slots count d Hs Hc Hkeys Hgood.
  - exists slots, count, d. simpl. split_and!; auto. intros z [].
  - simpl. unfold ld_get.
    destruct (Hkeys z (or_introl eq_refl)) as [b Hb]. rewrite Hb. simpl.
    destruct (slot_step_bounds slots count
                (count_tool_changes is_tool_change store (b_layers b)) Hs Hc)
      as [Hs1 Hc1].
    destruct (slot_step (slots, count)
                (count_tool_changes is_tool_change store (b_layers b)))
      as [slots1 count1]. simpl in Hs1, Hc1.
    set (d1 := ld_alter (fun b0 => Bucket (b_layers b0) (Some slots1)) z d).
    assert (Hl1 : forall z', b_layers <$> ld_lookup z' d1 = b_layers <$> ld_lookup z' d).
    { intros z'. unfold d1. rewrite ld_lookup_alter.
      destruct (Qeq_bool z z'); [|reflexivity].
      destruct (ld_lookup z' d); reflexivity. }
    assert (Hk1 : forall z', In z' zs -> is_Some (ld_lookup z' d1)).
    { intros z' Hz'. specialize (Hl1 z').
      destruct (Hkeys z' (or_intror Hz')) as [b' Hb']. rewrite Hb' in Hl1.
      destruct (ld_lookup z' d1); [eauto|discriminate]. }
    assert (Hg1 : slots_good d1).
    { intros z' b' n. unfold d1. rewrite ld_lookup_alter.
      destruct (Qeq_bool z z'); [|apply Hgood].
      destruct (ld_lookup z' d); simpl; [|discriminate].
      intros [= <-]. simpl. intros [= <-]. assumption. }
    assert (Hv1 : forall z', visited d z' -> visited d1 z').
    { intros z' (b' & n & Hb' & Hn). unfold visited, d1. rewrite ld_lookup_alter, Hb'.
      destruct (Qeq_bool z z'); simpl; eauto. }
    assert (Hvz : visited d1 z).
    { unfold visited, d1. rewrite ld_lookup_alter, Qeq_bool_refl, Hb. simpl. eauto. }
    destruct (IH slots1 count1 d1 Hs1 Hc1 Hk1 Hg1)
      as (slots' & count' & d' & Hrun & Hs' & Hkeys' & Hl' & Hg' & Hv' & Hvis').
    exists slots', count', d'. split_and!; auto.
    + rewrite Hkeys'. apply ld_alter_keys.
    + intros z'. now rewrite Hl', Hl1.
    + intros z' [<-|Hz']; auto.
Qed.

(** steps 1 and 2 never raise; every height gets at least one slot and
    every layer is in the bucket of its height *)
Lemma allocate_slots_total (store : list Layer.t) :
  exists zs slots d,
    allocate_slots is_tool_change store = Ok (zs, slots, d) /\
    1 <= slots /\
    slots_good d /\
    (forall z, In z zs -> visited d z) /\
    (forall k, In k (map fst d) -> In k zs) /\
    (forall i l, store !! i = Some l ->
       exists b, ld_lookup (Layer.z l) d = Some b /\ In i (b_layers b)).
Proof.
  unfold allocate_slots.
  set (d0 := group_layers store).
  set (zs := rev (sorted_by Qle_bool (map fst d0))).
  assert (Hzs : forall z, In z zs <-> In z (map fst d0)).
  { intros z. unfold zs. rewrite <- in_rev. apply sorted_by_In. }
  destruct (scan_total store zs 1 0 d0) as
    (slots & count & d & Hrun & Hs & Hkeys & Hl & Hg & _ & Hvis); try lia.
  - intros z Hz. apply ld_lookup_key, Hzs, Hz.
  - intros z b n Hb Hn. exfalso.
    assert (forall d', (forall k b', In (k, b') d' -> b_slots b' = None) ->
              forall z' b', ld_lookup z' d' = Some b' -> b_slots b' = None) as Hnone.
    { clear. induction d' as [|[k b0] d' IH]; simpl; intros H z' b'; [discriminate|].
      destruct (Qeq_bool k z').
      - intros [= <-]. eapply H. left. reflexivity.
      - apply IH. intros. eapply H. right. eassumption. }
    enough (b_slots b = None) by congruence.
    eapply Hnone; [|exact Hb].
    unfold d0. clear. induction store as [|x store IH] using rev_ind.
    + intros k b' [].
    + rewrite group_layers_snoc. unfold group_layer.
      set (d := group_layers store) in *.
      assert (forall d', (forall k b', In (k, b') d' -> b_slots b' = None) ->
                forall k b', In (k, b') (ld_alter
                  (fun b => Bucket (b_layers b ++ [length store]) (b_slots b))
                  (Layer.z x) d') -> b_slots b' = None) as Halt.
      { clear. induction d' as [|[k0 b0] d' IH]; simpl; intros H k b'; [tauto|].
        destruct (Qeq_bool k0 (Layer.z x)); simpl.
        - intros [[= <- <-]|Hin]; simpl; eauto.
        - intros [[= <- <-]|Hin]; eauto. }
      apply Halt. destruct (ld_lookup (Layer.z x) d); [exact IH|].
      intros k b' Hin. apply in_app_or in Hin. destruct Hin as [Hin|[[= <- <-]|[]]]; eauto.
  - exists zs, slots, d. rewrite Hrun. simpl. split_and!; auto.
    + intros k Hk. apply Hzs. now rewrite <- Hkeys.
    + intros i l Hi. destruct (group_layers_covers store i l Hi) as (b & Hb & Hin).
      fold d0 in Hb. specialize (Hl (Layer.z l)). rewrite Hb in Hl.
      destruct (ld_lookup (Layer.z l) d) as [b'|]; [|discriminate].
      injection Hl as Hl. exists b'. split; [reflexivity|]. now rewrite Hl.
Qed.

(** ** The tagging of one bucket *)

Lemma tag_switch_lookup (slots : Z) (store : list Layer.t) (filled : Z) (i j : nat) :
  fst (tag_switch is_tool_change slots (store, filled) i) !! j =
  if decide (i = j) then switch_tag is_tool_change slots <$> store !! j else store !! j.
Proof.
  unfold tag_switch, has_tool_changes_at. rewrite list_lookup_alter_eq.
  destruct (decide (i = j)) as [<-|Hne].
  - destruct (store !! i) as [l|] eqn:E; simpl.
    + unfold switch_tag. change (has_tc (Layer.set_tower_slots l slots)) with (has_tc l).
      destruct (has_tc l); simpl; rewrite ?list_lookup_alter_eq, E; reflexivity.
    + rewrite list_lookup_alter_eq, E. reflexivity.
  - destruct (from_option has_tc false _); simpl;
      rewrite ?list_lookup_alter_ne by assumption; reflexivity.
Qed.

Lemma switch_tag_idem (slots : Z) (l : Layer.t) :
  switch_tag is_tool_change slots (switch_tag is_tool_change slots l) = switch_tag is_tool_change slots l.
Proof.
  unfold switch_tag. destruct (has_tc l) eqn:E.
  - change (has_tc (Layer.set_action (Layer.set_tower_slots l slots) ACT_SWITCH))
      with (has_tc l). rewrite E. reflexivity.
  - change (has_tc (Layer.set_tower_slots l slots)) with (has_tc l).
    rewrite E. reflexivity.
Qed.

Lemma has_tc_switch_tag (slots : Z) (l : Layer.t) :
  has_tc (switch_tag is_tool_change slots l) = has_tc l.
Proof. unfold switch_tag. destruct (has_tc l) eqn:E; exact E. Qed.

Lemma fold_tag_switch (slots : Z) (refs : list nat) :
  forall store filled j,
    fst (fold_left (tag_switch is_tool_change slots) refs (store, filled)) !! j =
    if in_dec Nat.eq_dec j refs then switch_tag is_tool_change slots <$> store !! j else store !! j.
Proof.
  induction refs as [|i refs IH]; intros store filled j; [reflexivity|].
  cbn [fold_left].
  pose proof (tag_switch_lookup slots store filled i j) as H1.
  destruct (tag_switch is_tool_change slots (store, filled) i) as [store1 filled1].
  simpl in H1. rewrite IH, H1.
  destruct (in_dec Nat.eq_dec j (i :: refs)) as [Hin|Hnin];
    destruct (in_dec Nat.eq_dec j refs) as [Hin'|Hnin'];
    destruct (decide (i = j)) as [->|Hne]; simpl in *; try tauto.
  destruct (store !! j); simpl; [|reflexivity]. now rewrite switch_tag_idem.
Qed.

Lemma tag_other_lookup (slots : Z) (store : list Layer.t) (filled : Z) (i : nat) :
  exists a, (a = ACT_INFILL \/ a = ACT_PASS) /\
    forall j, fst (tag_other is_tool_change slots (store, filled) i) !! j =
              if decide (i = j) then other_tag is_tool_change a <$> store !! j else store !! j.
Proof.
  unfold tag_other, has_tool_changes_at.
  destruct (store !! i) as [l|] eqn:E; simpl.
  - destruct (has_tc l) eqn:Etc.
    + exists ACT_PASS. split; [auto|]. intros j. simpl.
      destruct (decide (i = j)) as [<-|]; [|reflexivity].
      rewrite E. simpl. unfold other_tag. now rewrite Etc.
    + exists (if filled <? slots then ACT_INFILL else ACT_PASS).
      split; [destruct (filled <? slots); auto|]. intros j.
      destruct (filled <? slots); simpl;
        (destruct (decide (i = j)) as [<-|Hne];
         [rewrite list_lookup_alter_eq, E; simpl; unfold other_tag; now rewrite Etc
         |now rewrite list_lookup_alter_ne by assumption]).
  - exists ACT_PASS. split; [auto|]. intros j.
    destruct (filled <? slots); simpl;
      (destruct (decide (i = j)) as [<-|Hne];
       [rewrite list_lookup_alter_eq, E; reflexivity
       |now rewrite list_lookup_alter_ne by assumption]).
Qed.

Lemma fold_tag_other (slots : Z) (refs : list nat) :
  forall store filled j l',
    fst (fold_left (tag_other is_tool_change slots) refs (store, filled)) !! j = Some l' ->
    exists l, store !! j = Some l /\
      ((~ In j refs \/ has_tc l = true) /\ l' = l \/
       In j refs /\ has_tc l = false /\
       exists a, (a = ACT_INFILL \/ a = ACT_PASS) /\ l' = Layer.set_action l a).
Proof.
  induction refs as [|i refs IH]; intros store filled j l' H.
  - simpl in H. exists l'. split; [assumption|]. left. split; [left; tauto|reflexivity].
  - cbn [fold_left] in H.
    destruct (tag_other_lookup slots store filled i) as (a & Ha & H1).
    destruct (tag_other is_tool_change slots (store, filled) i) as [store1 filled1].
    simpl in H1. destruct (IH _ _ _ _ H) as (l1 & Hl1 & Hcase).
    rewrite H1 in Hl1.
    destruct (decide (i = j)) as [->|Hne].
    + destruct (store !! j) as [l|] eqn:E; [|discriminate].
      simpl in Hl1. injection Hl1 as <-. exists l. split; [reflexivity|].
      unfold other_tag in *. destruct (has_tc l) eqn:Etc.
      * left. split; [now right|].
        destruct Hcase as [[_ ->]|(_ & Hf & _)]; [reflexivity|congruence].
      * right. split; [now left|]. split; [reflexivity|].
        destruct Hcase as [[_ ->]|(_ & _ & a' & Ha' & ->)]; eauto.
    + exists l1. split; [assumption|].
      destruct Hcase as [[[Hn|Htc] ->]|(Hin & Hf & Hex)].
      * left. split; [left; simpl; tauto|reflexivity].
      * left. split; [now right|reflexivity].
      * right. split; [now right|]. split; assumption.
Qed.

(** one height of the tagging loop: the layers of the bucket come out
    tagged, the others are not touched *)
Lemma tag_height_spec (d : layer_data) (store : list Layer.t) (z : Q)
    (b : bucket) (n : Z) :
  ld_lookup z d = Some b -> b_slots b = Some n -> 1 <= n ->
  exists store',
    tag_height is_tool_change d store z = Ok store' /\
    length store' = length store /\
    forall j l', store' !! j = Some l' ->
      exists l, store !! j = Some l /\
                Layer.lines l' = Layer.lines l /\
                Layer.z l' = Layer.z l /\
                Layer.num l' = Layer.num l /\
                (In j (b_layers b) -> tagged is_tool_change l' /\ Layer.tower_slots l' = n) /\
                (~ In j (b_layers b) -> l' = l).
Proof.
  intros Hb Hn Hpos. unfold tag_height, ld_get. rewrite Hb. simpl. rewrite Hn.
  destruct (n =? 0) eqn:E0; [apply Z.eqb_eq in E0; lia|].
  eexists. split; [reflexivity|]. split.
  - assert (Hlen1 : forall refs st,
              length (fst (fold_left (tag_switch is_tool_change n) refs st))
              = length (fst st)).
    { induction refs as [|i refs IH]; intros [s f]; [reflexivity|].
      cbn [fold_left]. rewrite IH. unfold tag_switch.
      destruct (has_tool_changes_at _ _ _); simpl; now rewrite ?length_alter. }
    assert (Hlen2 : forall refs st,
              length (fst (fold_left (tag_other is_tool_change n) refs st))
              = length (fst st)).
    { induction refs as [|i refs IH]; intros [s f]; [reflexivity|].
      cbn [fold_left]. rewrite IH. unfold tag_other.
      destruct (has_tool_changes_at _ _ _); [reflexivity|].
      destruct (f <? n); simpl; now rewrite ?length_alter. }
    now rewrite Hlen2, Hlen1.
  - intros j l' Hl'.
    pose proof (fold_tag_switch n (b_layers b) store 0 j) as H1.
    destruct (fold_left (tag_switch is_tool_change n) (b_layers b) (store, 0))
      as [store1 filled1]. simpl in H1.
    destruct (fold_tag_other n (b_layers b) store1 filled1 j l' Hl')
      as (l1 & Hl1 & Hcase).
    rewrite H1 in Hl1.
    destruct (in_dec Nat.eq_dec j (b_layers b)) as [Hin|Hnin].
    + destruct (store !! j) as [l|] eqn:E; [|discriminate].
      simpl in Hl1. injection Hl1 as <-. exists l. split; [reflexivity|].
      rewrite has_tc_switch_tag in Hcase.
      destruct Hcase as [[[Hnot|Htc] ->]|(_ & Hf & a & Ha & ->)]; [tauto| |].
      * unfold tagged. rewrite has_tc_switch_tag, Htc.
        unfold switch_tag. rewrite Htc. simpl. split_and!; auto; tauto.
      * unfold tagged.
        change (has_tc (Layer.set_action (switch_tag is_tool_change n l) a))
          with (has_tc (switch_tag is_tool_change n l)).
        rewrite has_tc_switch_tag, Hf. unfold switch_tag. rewrite Hf. simpl.
        destruct Ha as [-> | ->]; split_and!; auto; tauto.
    + exists l1. split; [assumption|].
      destruct Hcase as [[_ ->]|(Hin & _)]; [|tauto]. split_and!; auto; tauto.
Qed.

(** ** The tagging loop and [filter_layers] as a whole *)

Lemma tagged_same_lines (l l' : Layer.t) :
  Layer.lines l' = Layer.lines l ->
  Layer.tower_slots l' = Layer.tower_slots l ->
  Layer.action l' = Layer.action l ->
  tagged is_tool_change l -> tagged is_tool_change l'.
Proof.
  unfold tagged, has_tool_changes. intros -> -> ->. exact id.
Qed.

Lemma tag_loop (d : layer_data) (ks : list Q) :
  forall store,
    (forall z, In z ks -> exists b n,
         ld_lookup z d = Some b /\ b_slots b = Some n /\ 1 <= n) ->
    exists store',
      foldR (tag_height is_tool_change d) ks store = Ok store' /\
      length store' = length store /\
      forall j l', store' !! j = Some l' ->
        exists l, store !! j = Some l /\
                  Layer.lines l' = Layer.lines l /\
                  Layer.z l' = Layer.z l /\
                  Layer.num l' = Layer.num l /\
                  (tagged is_tool_change l -> tagged is_tool_change l') /\
                  (forall z b, In z ks -> ld_lookup z d = Some b ->
                               In j (b_layers b) -> tagged is_tool_change l').
Proof.
  induction ks as [|z ks IH]; intros store Hks.
  - exists store. split; [reflexivity|]. split; [reflexivity|].
    intros j l' Hl'. exists l'. split_and!; auto. intros z b [].
  - destruct (Hks z (or_introl eq_refl)) as (b & n & Hb & Hn & Hpos).
    destruct (tag_height_spec d store z b n Hb Hn Hpos) as (store1 & Hrun1 & Hlen1 & H1).
    destruct (IH store1) as (store' & Hrun & Hlen & H').
    { intros z' Hz'. apply Hks. now right. }
    exists store'. simpl. rewrite Hrun1. simpl. split; [exact Hrun|].
    split; [congruence|].
    intros j l' Hl'.
    destruct (H' j l' Hl') as (l1 & Hl1 & Hlines' & Hz' & Hnum' & Hkeep' & Hin').
    destruct (H1 j l1 Hl1) as (l & Hl & Hlines & Hz & Hnum & Hin & Hout).
    assert (Hkeep1 : tagged is_tool_change l -> tagged is_tool_change l1).
    { destruct (in_dec Nat.eq_dec j (b_layers b)) as [Hj|Hj].
      - intros _. now apply Hin.
      - now rewrite (Hout Hj). }
    exists l. split_and!; try congruence; auto.
    intros z0 b0 [<-|Hz0] Hb0 Hj.
    + apply Hkeep'. assert (b0 = b) as -> by congruence. now apply Hin.
    + eapply Hin'; eassumption.
Qed.

Lemma pack_loop (d : layer_data) (ks : list Q) :
  forall acc, (forall z, In z ks -> is_Some (ld_lookup z d)) ->
              exists refs, foldR (pack d) ks acc = Ok refs.
Proof.
  induction ks as [|z ks IH]; intros acc Hks; simpl; [eauto|].
  unfold pack at 1, ld_get. destruct (Hks z (or_introl eq_refl)) as [b ->]. simpl.
  apply IH. intros z' Hz'. apply Hks. now right.
Qed.

(** [filter_layers] never raises; it records at least one slot as
    [max_slots]; every layer is in the bucket of its height, which has
    at least one slot; and every layer comes out tagged *)
Lemma filter_layers_on_spec (s : GCodeFile.t) :
  exists zs slots d s',
    allocate_slots is_tool_change (GCodeFile.layers s) = Ok (zs, slots, d) /\
    filter_layers_on is_tool_change s = Ok s' /\
    1 <= slots /\
    GCodeFile.max_slots s' = Some slots /\
    GCodeFile.tools s' = GCodeFile.tools s /\
    GCodeFile.outer_perimeter_speed s' = GCodeFile.outer_perimeter_speed s /\
    length (GCodeFile.layers s') = length (GCodeFile.layers s) /\
    forall i l', GCodeFile.layers s' !! i = Some l' ->
      tagged is_tool_change l' /\
      exists l b n,
        GCodeFile.layers s !! i = Some l /\
        Layer.lines l' = Layer.lines l /\
        Layer.z l' = Layer.z l /\
        Layer.num l' = Layer.num l /\
        ld_lookup (Layer.z l') d = Some b /\ In i (b_layers b) /\
        b_slots b = Some n /\ 1 <= n.
Proof.
  destruct (allocate_slots_total (GCodeFile.layers s))
    as (zs & slots & d & Halloc & Hs & Hgood & Hvis & Hkeys & Hcover).
  assert (Hzs : forall z, In z (rev zs) -> exists b n,
                  ld_lookup z d = Some b /\ b_slots b = Some n /\ 1 <= n).
  { intros z Hz. apply in_rev in Hz. destruct (Hvis z Hz) as (b & n & Hb & Hn).
    exists b, n. split_and!; auto. eapply Hgood; eassumption. }
  destruct (tag_loop d (rev zs) (GCodeFile.layers s) Hzs) as (store' & Hrun & Hlen & Htag).
  destruct (pack_loop d (rev zs) []) as (refs & Hpack).
  { intros z Hz. destruct (Hzs z Hz) as (b & _ & -> & _). eauto. }
  unfold filter_layers_on. rewrite Halloc. simpl. rewrite Hrun. simpl.
  rewrite Hpack. simpl.
  eexists zs, slots, d, _. split; [reflexivity|]. split; [reflexivity|].
  simpl. split_and!; auto.
  intros i l' Hl'.
  destruct (Htag i l' Hl') as (l & Hl & Hlines & Hz & Hnum & _ & Hin).
  destruct (Hcover i l Hl) as (b & Hb & Hi).
  destruct (ld_lookup_has_key _ _ _ Hb) as (k & Hk & Hkz).
  assert (Hbk : ld_lookup k d = Some b).
  { rewrite <- Hb. now apply ld_lookup_proper. }
  assert (Hkzs : In k (rev zs)) by (apply in_rev; rewrite rev_involutive; auto).
  destruct (Hzs k Hkzs) as (b' & n & Hb' & Hn & Hpos).
  assert (b' = b) as -> by congruence.
  split.
  - eapply Hin; eassumption.
  - exists l, b, n. split_and!; auto.
    rewrite <- Hb. apply ld_lookup_proper. now rewrite Hz.
Qed.

(** ** The scan as a trace *)

Lemma last_default {A} (l : list A) (a d d' : A) :
  List.last (a :: l) d = List.last (a :: l) d'.
Proof.
  revert a. induction l as [|b l IH]; intros a; [reflexivity|].
  change (List.last (b :: l) d = List.last (b :: l) d'). apply IH.
Qed.

Lemma slot_trace_last (reqs : list Z) :
  forall sc, List.last (map v_after (slot_trace sc reqs)) (fst sc)
             = fst (fold_left slot_step reqs sc).
Proof.
  induction reqs as [|lrs reqs IH]; intros sc; [reflexivity|].
  cbn [slot_trace map fold_left]. rewrite <- IH.
  destruct (slot_trace (slot_step sc lrs) reqs) as [|v l]; [reflexivity|].
  cbn [map].
  change (List.last (v_after v :: map v_after l) (fst sc)
          = List.last (v_after v :: map v_after l) (fst (slot_step sc lrs))).
  apply last_default.
Qed.

Lemma scan_projects (store : list Layer.t) (d0 : layer_data) (zs : list Q) :
  forall slots count d slots' count' d',
    (forall z, b_layers <$> ld_lookup z d = b_layers <$> ld_lookup z d0) ->
    foldR (scan_height is_tool_change store) zs (slots, count, d)
      = Ok (slots', count', d') ->
    fold_left slot_step
      (map (fun z => count_tool_changes is_tool_change store
                       (from_option b_layers [] (ld_lookup z d0))) zs)
      (slots, count) = (slots', count').
Proof.
  induction zs as [|z zs IH]; intros slots count d slots' count' d' Hl Hrun.
  - simpl in *. congruence.
  - cbn [foldR map fold_left] in *. unfold scan_height at 1, ld_get in Hrun.
    pose proof (Hl z) as Hz.
    destruct (ld_lookup z d) as [b|]; [|discriminate]. simpl in Hrun.
    destruct (ld_lookup z d0) as [b0|]; [|discriminate]. injection Hz as Hz.
    simpl. rewrite <- Hz.
    destruct (slot_step (slots, count) _) as [slots1 count1].
    eapply IH; [|exact Hrun].
    intros z'. rewrite ld_lookup_alter, <- Hl.
    destruct (Qeq_bool z z'); [|reflexivity]. destruct (ld_lookup z' d); reflexivity.
Qed.

Lemma slot_trace_stalls (reqs : list Z) :
  forall slots count pre v post,
    0 <= count <= 2 ->
    slot_trace (slots, count) reqs = pre ++ v :: post ->
    (raised v = true <-> deficit v = true /\ stalls_from count pre = 2) /\
    (raised v = true -> v_after v = v_required v).
Proof.
  induction reqs as [|lrs reqs IH]; intros slots count pre v post Hc Htr.
  - destruct pre; discriminate.
  - cbn [slot_trace] in Htr.
    assert (Hstep : exists s1 c1, slot_step (slots, count) lrs = (s1, c1) /\
              0 <= c1 <= 2 /\
              (negb (s1 =? slots) = true <-> (slots <? lrs) = true /\ count = 2) /\
              (negb (s1 =? slots) = true -> s1 = lrs) /\
              c1 = (if negb (s1 =? slots) then 0
                    else if slots <? lrs then count + 1 else count)).
    { unfold slot_step.
      destruct (slots <? lrs) eqn:E1; [apply Z.ltb_lt in E1|apply Z.ltb_ge in E1];
        match goal with
        | |- context [3 <=? ?c] =>
            destruct (3 <=? c) eqn:E2; [apply Z.leb_le in E2|apply Z.leb_gt in E2]
        end;
        eexists _, _; (split; [reflexivity|]);
        match goal with
        | |- context [?a =? ?b] => destruct (Z.eqb_spec a b)
        end; cbn [negb];
        repeat split; intros; try lia; try discriminate;
        try (intuition (discriminate || lia)). }
    destruct Hstep as (s1 & c1 & Hstep & Hc1 & Hraise & Hval & Hcount).
    rewrite Hstep in Htr. simpl fst in Htr.
    destruct pre as [|v0 pre].
    + simpl in Htr. injection Htr as <- _.
      unfold raised, deficit. simpl. split; [|exact Hval]. exact Hraise.
    + simpl in Htr. injection Htr as <- Htr.
      replace (stalls_from count (Visit lrs slots s1 :: pre))
        with (stalls_from c1 pre) by (rewrite Hcount; reflexivity).
      eapply IH; eassumption.
Qed.

(** ** The keys of [layer_data] are pairwise different heights *)

Lemma distinct_snoc (ks : list Q) (k : Q) :
  distinct (ks ++ [k]) <-> distinct ks /\ forall k', In k' ks -> ~ (k' == k)%Q.
Proof.
  induction ks as [|a ks IH]; simpl.
  - intuition.
  - rewrite IH. split.
    + intros [Ha [Hd Hk]]. split_and!; auto.
      * intros k' Hk'. apply Ha, in_or_app. now left.
      * intros k' [<-|Hk']; [apply Ha, in_or_app; right; now left|auto].
    + intros [[Ha Hd] Hk]. split_and!; auto.
      intros k' Hk'. apply in_app_or in Hk'. destruct Hk' as [Hk'|[<-|[]]]; auto.
Qed.

Lemma distinct_rev (ks : list Q) : distinct ks -> distinct (rev ks).
Proof.
  induction ks as [|a ks IH]; simpl; [auto|].
  intros [Ha Hd]. apply distinct_snoc. split; [auto|].
  intros k' Hk' E. apply in_rev in Hk'. apply (Ha k' Hk'). now symmetry.
Qed.

Lemma distinct_insert_by (le : Q -> Q -> bool) (x : Q) (l : list Q) :
  distinct l -> (forall y, In y l -> ~ (x == y)%Q) -> distinct (insert_by le x l).
Proof.
  induction l as [|a l IH]; simpl; intros Hd Hx.
  - auto.
  - destruct (le x a); simpl.
    + auto.
    + destruct Hd as [Ha Hd]. split.
      * intros k' Hk'. apply insert_by_In in Hk'. destruct Hk' as [->|Hk']; auto.
        intros E. apply (Hx a); [now left|now symmetry].
      * apply IH; auto.
Qed.

Lemma distinct_sorted_by (le : Q -> Q -> bool) (l : list Q) :
  distinct l -> distinct (sorted_by le l).
Proof.
  induction l as [|a l IH]; simpl; [auto|].
  intros [Ha Hd]. apply distinct_insert_by; [auto|].
  intros y Hy. apply Ha. now apply sorted_by_In in Hy.
Qed.

Lemma ld_lookup_None (z : Q) (d : layer_data) :
  ld_lookup z d = None -> forall k, In k (map fst d) -> ~ (k == z)%Q.
Proof.
  induction d as [|[k' b] d IH]; simpl; [tauto|].
  destruct (Qeq_bool k' z) eqn:E; [discriminate|].
  intros H k [<-|Hk]; [now apply Qeq_bool_false|auto].
Qed.

Lemma group_layers_distinct (store : list Layer.t) :
  distinct (map fst (group_layers store)).
Proof.
  induction store as [|x store IH] using rev_ind; [exact I|].
  rewrite group_layers_snoc. unfold group_layer. rewrite ld_alter_keys.
  destruct (ld_lookup (Layer.z x) (group_layers store)) eqn:E; [exact IH|].
  rewrite map_app. simpl. apply distinct_snoc. split; [exact IH|].
  now apply ld_lookup_None.
Qed.

(** the scan leaves the bucket of a height it does not visit alone *)
Lemma scan_frame (store : list Layer.t) (z : Q) (zs : list Q) :
  forall slots count d slots' count' d',
    (forall z', In z' zs -> ~ (z == z')%Q) ->
    foldR (scan_height is_tool_change store) zs (slots, count, d)
      = Ok (slots', count', d') ->
    ld_lookup z d' = ld_lookup z d.
Proof.
  induction zs as [|z0 zs IH]; intros slots count d slots' count' d' Hz Hrun.
  - simpl in Hrun. congruence.
  - cbn [foldR] in Hrun. unfold scan_height at 1, ld_get in Hrun.
    destruct (ld_lookup z0 d) as [b|]; [|discriminate]. simpl in Hrun.
    destruct (slot_step (slots, count) _) as [slots1 count1].
    rewrite (IH _ _ _ _ _ _ (fun z' H => Hz z' (or_intror H)) Hrun).
    rewrite ld_lookup_alter.
    destruct (Qeq_bool z0 z) eqn:E; [|reflexivity].
    exfalso. apply (Hz z0); [now left|]. apply Qeq_bool_true in E. now symmetry.
Qed.

(** the slots recorded for a height are the value of [slots] as the
    scan leaves that height *)
Lemma scan_records (store : list Layer.t) (d0 : layer_data) (zs : list Q) :
  forall slots count d slots' count' d' k z v,
    distinct zs ->
    (forall z, b_layers <$> ld_lookup z d = b_layers <$> ld_lookup z d0) ->
    foldR (scan_height is_tool_change store) zs (slots, count, d)
      = Ok (slots', count', d') ->
    zs !! k = Some z ->
    slot_trace (slots, count)
      (map (fun z => count_tool_changes is_tool_change store
                       (from_option b_layers [] (ld_lookup z d0))) zs) !! k = Some v ->
    exists b, ld_lookup z d' = Some b /\ b_slots b = Some (v_after v).
Proof.
  induction zs as [|z0 zs IH];
    intros slots count d slots' count' d' k z v Hd Hl Hrun Hz Hv; [discriminate|].
  cbn [foldR map slot_trace] in *. unfold scan_height at 1, ld_get in Hrun.
  pose proof (Hl z0) as Hz0.
  destruct (ld_lookup z0 d) as [b|] eqn:Eb; [|discriminate]. simpl in Hrun.
  destruct (ld_lookup z0 d0) as [b0|]; [|discriminate]. injection Hz0 as Hz0.
  simpl in Hv. rewrite <- Hz0 in Hv.
  destruct (slot_step (slots, count) _) as [slots1 count1] eqn:Estep.
  destruct Hd as [Hz0' Hd].
  destruct k as [|k].
  - injection Hz as <-. injection Hv as <-. simpl.
    rewrite (scan_frame _ _ _ _ _ _ _ _ _ Hz0' Hrun).
    rewrite ld_lookup_alter, Qeq_bool_refl, Eb. simpl. eauto.
  - simpl in Hz, Hv. eapply IH; [exact Hd| |exact Hrun|exact Hz|exact Hv].
    intros z'. rewrite ld_lookup_alter, <- Hl.
    destruct (Qeq_bool z0 z'); [|reflexivity]. destruct (ld_lookup z' d); reflexivity.
Qed.

Lemma slot_trace_length (reqs : list Z) :
  forall sc, length (slot_trace sc reqs) = length reqs.
Proof. induction reqs as [|lrs reqs IH]; intros sc; simpl; [reflexivity|]. now rewrite IH. Qed.

(** [slots] as a height finds it is [slots] as the height before left it *)
Lemma slot_trace_chain (reqs : list Z) :
  forall sc k v,
    slot_trace sc reqs !! k = Some v ->
    v_before v = match k with
                 | O => fst sc
                 | S k' => from_option v_after 0 (slot_trace sc reqs !! k')
                 end.
Proof.
  induction reqs as [|lrs reqs IH]; intros sc k v H; [destruct k; discriminate|].
  cbn [slot_trace] in *. destruct k as [|k].
  - injection H as <-. reflexivity.
  - simpl in H. rewrite (IH _ _ _ H). destruct k as [|k]; simpl.
    + destruct reqs; [discriminate|]. reflexivity.
    + reflexivity.
Qed.

(** no bucket has slots before the scan *)
Lemma group_layers_fresh (store : list Layer.t) : slots_good (group_layers store).
Proof.
  intros z b n Hb Hn. exfalso.
  assert (forall b, In b (map snd (group_layers store)) -> b_slots b = None) as H.
  { clear. induction store as [|x store IH] using rev_ind; [intros b []|].
    rewrite group_layers_snoc. unfold group_layer.
    set (d := group_layers store) in *.
    assert (forall d', (forall b, In b (map snd d') -> b_slots b = None) ->
              forall b, In b (map snd (ld_alter
                (fun b => Bucket (b_layers b ++ [length store]) (b_slots b))
                (Layer.z x) d')) -> b_slots b = None) as Halt.
    { clear. induction d' as [|[k0 b0] d' IH]; simpl; intros H b; [tauto|].
      destruct (Qeq_bool k0 (Layer.z x)); simpl.
      - intros [<-|Hin]; simpl; eauto.
      - intros [<-|Hin]; eauto. }
    apply Halt. destruct (ld_lookup (Layer.z x) d); [exact IH|].
    intros b Hin. rewrite map_app in Hin. apply in_app_or in Hin.
    destruct Hin as [Hin|[<-|[]]]; eauto. }
  assert (In b (map snd (group_layers store))) as Hin.
  { clear -Hb. induction (group_layers store) as [|[k b0] d IH]; simpl in *;
      [discriminate|]. destruct (Qeq_bool k z); [left; congruence|right; auto]. }
  rewrite (H b Hin) in Hn. discriminate.
Qed.

(** ** What the allocator guarantees *)

(** C1 (amended). In the descending scan of [filter_layers], [slots]
    changes at a height exactly when that height is in deficit (its
    tool-change count exceeds the current [slots]) and two heights
    visited since the last change (or since the start) were in deficit
    too, whether or not they were visited in a row: a height that is
    not in deficit does not reset the count. The new value is the
    tool-change count of that height, it is the value recorded for the
    bucket, and the last value is the final [slots]. *)
Theorem slots_change_on_third_deficit (store : list Layer.t) :
  exists zs slots d,
    allocate_slots is_tool_change store = Ok (zs, slots, d) /\
    length (scan_trace is_tool_change store) = length zs /\
    slots = List.last (map v_after (scan_trace is_tool_change store)) 1 /\
    forall k z v,
      zs !! k = Some z -> scan_trace is_tool_change store !! k = Some v ->
      (exists b, ld_lookup z d = Some b /\
                 b_slots b = Some (v_after v) /\
                 v_required v = count_tool_changes is_tool_change store (b_layers b)) /\
      v_before v = match k with
                   | O => 1
                   | S k' => from_option v_after 0
                               (scan_trace is_tool_change store !! k')
                   end /\
      (raised v = true <->
       deficit v = true /\ stalls (take k (scan_trace is_tool_change store)) = 2) /\
      (raised v = true -> v_after v = v_required v).
Proof.
  unfold scan_trace, required_counts, allocate_slots.
  set (d0 := group_layers store).
  set (zs := rev (sorted_by Qle_bool (map fst d0))).
  set (reqs := map _ zs).
  destruct (scan_total store zs 1 0 d0) as
    (slots & count & d & Hrun & _ & _ & Hl & _ & _ & _); try lia.
  { intros z Hz. apply ld_lookup_key. unfold zs in Hz.
    apply in_rev in Hz. now apply sorted_by_In in Hz. }
  { apply group_layers_fresh. }
  exists zs, slots, d. rewrite Hrun. simpl. split; [reflexivity|].
  pose proof (scan_projects store d0 zs 1 0 d0 slots count d (fun _ => eq_refl) Hrun)
    as Hproj.
  fold reqs in Hproj. split; [|split].
  - rewrite slot_trace_length. unfold reqs. now rewrite length_map.
  - pose proof (slot_trace_last reqs (1, 0)) as Hlast. simpl fst in Hlast at 1.
    rewrite Hlast, Hproj. reflexivity.
  - intros k z v Hz Hv.
    assert (Hdist : distinct zs).
    { apply distinct_rev, distinct_sorted_by, group_layers_distinct. }
    destruct (scan_records store d0 zs 1 0 d0 slots count d k z v Hdist
                (fun _ => eq_refl) Hrun Hz Hv) as (b & Hb & Hslots).
    split.
    + exists b. split_and!; auto.
      assert (Hreq : reqs !! k = Some (v_required v)).
      { clear -Hv. revert Hv. generalize (1, 0). revert k.
        induction reqs as [|r reqs IH]; intros k sc Hv; [destruct k; discriminate|].
        destruct k as [|k]; simpl in *; [injection Hv as <-; reflexivity|eauto]. }
      unfold reqs in Hreq. rewrite list_lookup_fmap, Hz in Hreq. simpl in Hreq.
      injection Hreq as <-. specialize (Hl z). rewrite Hb in Hl.
      destruct (ld_lookup z d0); [|discriminate]. injection Hl as Hl.
      simpl. now rewrite Hl.
    + split; [exact (slot_trace_chain reqs (1, 0) k v Hv)|].
      apply (slot_trace_stalls reqs 1 0 (take k (slot_trace (1, 0) reqs)) v
               (drop (S k) (slot_trace (1, 0) reqs))); [lia|].
      symmetry. now apply take_drop_middle.
Qed.

(** C3. Slot priority. After [filter_layers], in every bucket of
    [layer_data]: a layer tagged [ACT_SWITCH] has tool changes, and if
    a layer of the bucket is tagged [ACT_INFILL] then every layer of the
    bucket that has tool changes is tagged [ACT_SWITCH]. *)
Theorem slot_priority (s : GCodeFile.t) :
  exists zs slots d s',
    allocate_slots is_tool_change (GCodeFile.layers s) = Ok (zs, slots, d) /\
    filter_layers is_tool_change s = (Ok tt, s') /\
    forall z b, ld_lookup z d = Some b ->
      forall i l, In i (b_layers b) -> GCodeFile.layers s' !! i = Some l ->
        (Layer.action l = ACT_SWITCH -> has_tc l = true) /\
        (Layer.action l = ACT_INFILL ->
         forall j l', In j (b_layers b) -> GCodeFile.layers s' !! j = Some l' ->
                      has_tc l' = true -> Layer.action l' = ACT_SWITCH).
Proof.
  destruct (filter_layers_on_spec s)
    as (zs & slots & d & s' & Halloc & Hrun & _ & _ & _ & _ & _ & Htag).
  exists zs, slots, d, s'. split; [exact Halloc|]. split.
  - unfold filter_layers. now rewrite Hrun.
  - intros z b _ i l _ Hl. split.
    + intros Ha. destruct (Htag i l Hl) as [[_ Ht] _].
      destruct (has_tc l); [reflexivity|]. destruct Ht; congruence.
    + intros _ j l' _ Hl' Htc. destruct (Htag j l' Hl') as [[_ Ht] _].
      now rewrite Htc in Ht.
Qed.

(** C9. Action coverage. After [filter_layers] every layer carries one
    of the three actions, given by the allocator ([ACT_SWITCH] iff it
    has tool changes), and it belongs to the bucket of its height,
    whose recorded slot count is at least one. *)
Theorem action_coverage (s : GCodeFile.t) :
  exists zs slots d s',
    allocate_slots is_tool_change (GCodeFile.layers s) = Ok (zs, slots, d) /\
    filter_layers is_tool_change s = (Ok tt, s') /\
    length (GCodeFile.layers s') = length (GCodeFile.layers s) /\
    forall i l, GCodeFile.layers s' !! i = Some l ->
      (Layer.action l = ACT_SWITCH /\ has_tc l = true \/
       (Layer.action l = ACT_INFILL \/ Layer.action l = ACT_PASS) /\ has_tc l = false) /\
      exists b n, ld_lookup (Layer.z l) d = Some b /\ In i (b_layers b) /\
                  b_slots b = Some n /\ 1 <= n.
Proof.
  destruct (filter_layers_on_spec s)
    as (zs & slots & d & s' & Halloc & Hrun & _ & _ & _ & _ & Hlen & Htag).
  exists zs, slots, d, s'. split; [exact Halloc|]. split; [|split; [exact Hlen|]].
  - unfold filter_layers. now rewrite Hrun.
  - intros i l Hl.
    destruct (Htag i l Hl) as [[_ Ht] (l0 & b & n & _ & _ & _ & _ & Hb & Hi & Hn & Hpos)].
    split; [|eauto 6].
    destruct (has_tc l); [left|right]; auto.
Qed.

End Allocator.

(** ** Methods that leave the layers alone *)

Lemma same_layers_refl (s : GCodeFile.t) : same_layers s s.
Proof. unfold same_layers. auto. Qed.

Lemma same_layers_trans (s1 s2 s3 : GCodeFile.t) :
  same_layers s1 s2 -> same_layers s2 s3 -> same_layers s1 s3.
Proof. unfold same_layers. intuition congruence. Qed.

Lemma preserves_mret {A} (a : A) : preserves (mret a).
Proof. intros s r s' [= <- <-]. apply same_layers_refl. Qed.

Lemma preserves_mraise {A} (e : exn) : preserves (@mraise A e).
Proof. intros s r s' [= <- <-]. apply same_layers_refl. Qed.

Lemma preserves_lift {A} (x : res A) : preserves (lift x).
Proof. intros s r s' [= <- <-]. apply same_layers_refl. Qed.

Lemma preserves_mget : preserves mget.
Proof. intros s r s' [= <- <-]. apply same_layers_refl. Qed.

Lemma preserves_mbind {A B} (m : M A) (k : A -> M B) :
  preserves m -> (forall a, preserves (k a)) -> preserves (mbind m k).
Proof.
  intros Hm Hk s r s'. unfold mbind. destruct (m s) as [[a|e] s1] eqn:E.
  - intros H. eapply same_layers_trans; [eapply Hm; eassumption|eapply Hk; eassumption].
  - intros [= <- <-]. eapply Hm; eassumption.
Qed.

Lemma preserves_modify (f : GCodeFile.t -> GCodeFile.t) :
  (forall s, same_layers s (f s)) -> preserves (modify f).
Proof. intros H s r s' [= <- <-]. apply H. Qed.

Lemma preserves_foldM {A B} (f : A -> B -> M A) (l : list B) :
  (forall a x, preserves (f a x)) -> forall a, preserves (foldM f l a).
Proof.
  intros Hf. induction l as [|x l IH]; intros a; simpl.
  - apply preserves_mret.
  - apply preserves_mbind; auto.
Qed.

(** walks through a method built from the monad's operations *)
Ltac preserve :=
  repeat first
    [ apply preserves_mret | apply preserves_mraise | apply preserves_lift
    | apply preserves_mget
    | apply preserves_modify; intros; unfold same_layers; split_and!; reflexivity
    | apply preserves_mbind; [|intros ?]
    | match goal with
      | |- preserves (match ?x with _ => _ end) => destruct x
      | |- preserves (if ?x then _ else _) => destruct x
      end ].

Lemma preserves_set_extruder_field (ct : option Z) (f : Extruder.t -> Extruder.t) :
  preserves (set_extruder_field ct f).
Proof. unfold set_extruder_field. preserve. Qed.

Lemma preserves_header_comment (loc : pyfloat * option Z) (c : bytes) :
  preserves (header_comment loc c).
Proof.
  unfold header_comment, parse_version. destruct loc as [z_offset current_tool].
  pose proof preserves_set_extruder_field. preserve; auto.
Qed.

Lemma preserves_header_line (loc : pyfloat * option Z) (ln : gline) :
  preserves (header_line loc ln).
Proof.
  unfold header_line. destruct ln as [cmd comment].
  pose proof preserves_header_comment. preserve; auto.
Qed.

Lemma preserves_parse_header : preserves parse_header.
Proof.
  unfold parse_header. preserve.
  - apply preserves_foldM. intros. apply preserves_foldM. apply preserves_header_line.
Qed.

(** ** A line that raises aborts the pass *)

Lemma foldM_raises {A B} (f : A -> B -> M A) (l : list B) (x : B) :
  In x l -> (forall a s, raises (fst (f a x s))) ->
  forall a s, raises (fst (foldM f l a s)).
Proof.
  intros Hin Hx. induction l as [|y l IH]; intros a s; [destruct Hin|].
  simpl. unfold mbind. destruct Hin as [->|Hin].
  - destruct (Hx a s) as [e He]. destruct (f a x s) as [[a'|e'] s']; simpl in He.
    + discriminate.
    + exists e'. reflexivity.
  - destruct (f a y s) as [[a'|e'] s'].
    + now apply IH.
    + exists e'. reflexivity.
Qed.

Lemma parse_header_raises (s : GCodeFile.t) (layer : Layer.t) (ln : gline) :
  In layer (GCodeFile.layers s) -> In ln (Layer.lines layer) ->
  (forall loc s1, raises (fst (header_line loc ln s1))) ->
  exists e s', parse_header s = (Raise e, s') /\ same_layers s s'.
Proof.
  intros Hlayer Hln Hraise.
  destruct (parse_header s) as [r s'] eqn:E.
  pose proof (preserves_parse_header s r s' E) as Hsame.
  unfold parse_header, mbind, mget in E.
  pose proof (foldM_raises
                (fun loc layer => foldM header_line (Layer.lines layer) loc)
                (GCodeFile.layers s) layer Hlayer
                (fun a s1 => foldM_raises header_line (Layer.lines layer) ln Hln Hraise a s1)
                (Fin 0, None) s) as [e He].
  destruct (foldM _ (GCodeFile.layers s) (Fin 0, None) s) as [[a|e'] s1]; simpl in He.
  - discriminate.
  - injection E as <- <-. eauto.
Qed.

(** a line taken as the firmware flag with another value than "1", or
    with none, raises whatever the locals and the state *)
Lemma firmware_line_raises (cmd : option bytes) (c : bytes) :
  truthy cmd = false -> is_firmware_flag c = true -> value c <> Ok "1"%string ->
  forall loc s, raises (fst (header_line loc (cmd, Some c) s)).
Proof.
  intros Hcmd Hflag Hval [z_offset current_tool] s.
  unfold header_line. rewrite Hcmd.
  unfold is_firmware_flag, keys_before_firmware in Hflag. cbn [forallb] in Hflag.
  rewrite !andb_true_iff, !negb_true_iff in Hflag. destruct_and!.
  unfold header_comment.
  repeat match goal with H : contains _ c = _ |- _ => rewrite H; clear H end.
  rewrite !andb_false_r. unfold mbind, lift.
  destruct (value c) as [v|e] eqn:Ev; [|eexists; reflexivity].
  destruct (String.eqb v "1") eqn:E; [|eexists; reflexivity].
  apply String.eqb_eq in E. subst v. exfalso. now apply Hval.
Qed.

(** a line taken as a global float setting whose value [float] rejects
    raises, and leaves the state as it was *)
Lemma float_line_raises (cmd : option bytes) (c : bytes) (e : exn) :
  truthy cmd = false -> is_float_setting c = true -> float_value c = Raise e ->
  forall loc s, header_line loc (cmd, Some c) s = (Raise e, s).
Proof.
  intros Hcmd Hset Hval [z_offset current_tool] s.
  unfold header_line. rewrite Hcmd.
  unfold is_float_setting, float_keys in Hset. cbn [existsb] in Hset.
  rewrite !andb_true_iff, !negb_true_iff in Hset. destruct Hset as [[[Hv Hr] Hn] Hk].
  unfold header_comment. rewrite Hv, Hr, Hn. unfold mbind, lift. rewrite Hval.
  repeat match goal with
         | |- context [contains ?k c] =>
             destruct (contains k c) eqn:?; [reflexivity|]
         end.
  discriminate.
Qed.

(** ** The segmenter *)

(** [int] rejects every text with a decimal point *)
Lemma lstrip_keeps (c : ascii) (l : list ascii) :
  is_space c = false -> In c l -> In c (lstrip l).
Proof.
  intros Hc. induction l as [|x l IH]; simpl; [tauto|].
  destruct (is_space x) eqn:E; [|auto].
  intros [->|H]; [congruence|auto].
Qed.

Lemma strip_keeps (c : ascii) (l : list ascii) :
  is_space c = false -> In c l -> In c (strip l).
Proof.
  intros Hc H. unfold strip. apply in_rev. rewrite rev_involutive.
  apply lstrip_keeps; [assumption|]. apply -> in_rev. now apply lstrip_keeps.
Qed.

Lemma digitpart_from_dot (l : list ascii) :
  forall acc n after_us, In "."%char l -> digitpart_from acc n after_us l = None.
Proof.
  induction l as [|c l IH]; intros acc n after_us; simpl; [tauto|].
  intros [->|H]; [reflexivity|].
  destruct (is_digit c); [auto|]. destruct (Ascii.eqb c "_" && negb after_us); auto.
Qed.

Lemma py_int_decimal (s : bytes) :
  In "."%char (chars s) -> py_int s = Raise ValueError.
Proof.
  intros H. unfold py_int.
  apply (strip_keeps "."%char) in H; [|reflexivity].
  destruct (strip (chars s)) as [|c l]; [destruct H|].
  assert (Hbody : In "."%char (snd (signed (c :: l)))).
  { unfold signed. destruct (Ascii.eqb c "-") eqn:E1; simpl.
    - apply Ascii.eqb_eq in E1. subst c. destruct H as [H|H]; [discriminate|assumption].
    - destruct (Ascii.eqb c "+") eqn:E2; simpl; [|assumption].
      apply Ascii.eqb_eq in E2. subst c. destruct H as [H|H]; [discriminate|assumption]. }
  destruct (signed (c :: l)) as [neg body]. simpl in Hbody.
  unfold digitpart. destruct body as [|d body]; [reflexivity|].
  destruct (is_digit d); [|reflexivity].
  now rewrite digitpart_from_dot.
Qed.

Lemma py_int_raise (s : bytes) (e : exn) : py_int s = Raise e -> e = ValueError.
Proof.
  unfold py_int. destruct (signed _) as [neg body].
  destruct (digitpart body) as [[v k]|]; congruence.
Qed.

Lemma py_float_raise (s : bytes) (e : exn) : py_float s = Raise e -> e = ValueError.
Proof.
  unfold py_float. destruct (signed _) as [neg body].
  destruct (_ || _); [discriminate|]. destruct (String.eqb _ _); [discriminate|].
  destruct (float_number body); congruence.
Qed.

Lemma check_layer_change_raise (line : bytes) (current_layer : option (Z * pyfloat))
    (e : exn) :
  check_layer_change line current_layer = Raise e -> e = ValueError.
Proof.
  unfold check_layer_change. destruct (LAYER_START_RE line) as [[g0 g1]|]; [|discriminate].
  destruct (py_int g0) eqn:E0; simpl.
  - destruct (py_float g1) eqn:E1; simpl; [discriminate|].
    intros [= <-]. eapply py_float_raise. eassumption.
  - intros [= <-]. eapply py_int_raise. eassumption.
Qed.

Lemma check_layer_change_raises_on_decimal
    (line g0 g1 : bytes) (current_layer : option (Z * pyfloat)) :
  LAYER_START_RE line = Some (g0, g1) -> In "."%char (chars g0) ->
  check_layer_change line current_layer = Raise ValueError.
Proof.
  intros Hm Hdot. unfold check_layer_change. rewrite Hm.
  now rewrite (py_int_decimal g0 Hdot).
Qed.

(** C2 (code bug). When the marker pattern matches and the height it
    captures has a decimal point, as in the marker of the source's own
    comment, [check_layer_change] returns no pair: it converts the
    height with [int], which raises [ValueError]. *)
Theorem check_layer_change_decimal_height
    (line g0 g1 : bytes) (current_layer : option (Z * pyfloat)) :
  LAYER_START_RE line = Some (g0, g1) -> In "."%char (chars g0) ->
  check_layer_change line current_layer = Raise ValueError.
Proof. apply check_layer_change_raises_on_decimal. Qed.

Lemma check_layer_change_decimal_height_witness :
  check_layer_change Examples.decimal_marker None = Raise ValueError.
Proof.
  apply (check_layer_change_decimal_height Examples.decimal_marker "0.294" "0.294" None).
  - vm_compute. reflexivity.
  - vm_compute. right. left. reflexivity.
Defined.

(** a height without a decimal point comes back as an integer, next to
    the thickness as a decimal *)
Lemma check_layer_change_integer_height :
  check_layer_change "BEGIN_LAYER_OBJECT z=2 z_thickness=0.294" None
  = Ok (Some (2, Fin (147 # 500))).
Proof. vm_compute. reflexivity. Qed.

Lemma foldM_raises_only {A B} (P : exn -> Prop) (f : A -> B -> M A)
    (l : list B) (x : B) :
  In x l -> (forall a s, raises (fst (f a x s))) ->
  (forall a y s e s', f a y s = (Raise e, s') -> P e) ->
  forall a s, exists e s', foldM f l a s = (Raise e, s') /\ P e.
Proof.
  intros Hin Hx HP. induction l as [|y l IH]; intros a s; [destruct Hin|].
  simpl. unfold mbind. destruct (f a y s) as [[a'|e'] s'] eqn:E.
  - destruct Hin as [->|Hin]; [|now apply IH].
    destruct (Hx a s) as [e He]. rewrite E in He. discriminate.
  - exists e', s'. split; [reflexivity|]. eapply HP. eassumption.
Qed.

(** C4 (code bug). If a line of the file is classified as a marker whose
    height has a decimal point, [parse_layers] raises [ValueError]: the
    segmenter produces no layers for that input. *)
Theorem parse_layers_aborts_on_decimal_height
    (read_gcode_line : bytes -> gline) (lines : list bytes) (line : bytes)
    (cmd : option bytes) (c g0 g1 : bytes) (s : GCodeFile.t) :
  In line lines -> read_gcode_line line = (cmd, Some c) ->
  LAYER_START_RE c = Some (g0, g1) -> In "."%char (chars g0) ->
  exists s', parse_layers read_gcode_line lines s = (Raise ValueError, s').
Proof.
  intros Hin Hline Hm Hdot.
  destruct (foldM_raises_only (fun e => e = ValueError)
              (parse_layers_line read_gcode_line) lines line Hin)
    with (a := (FirstLayer 1 (2 # 10) f0_2, 0)) (s := s) as (e & s' & Hrun & ->).
  - intros [cur n] s0. unfold parse_layers_line. rewrite Hline.
    destruct c as [|c0 c]; [discriminate|].
    unfold mbind, lift.
    rewrite (check_layer_change_raises_on_decimal _ _ _ None Hm Hdot).
    now exists ValueError.
  - intros [cur n] y s0 e s' H. unfold parse_layers_line in H.
    destruct (read_gcode_line y) as [cmd' [[|c0 c']|]]; unfold mbind, lift in H;
      try discriminate.
    destruct (check_layer_change (String c0 c') None) as [[[lz lh]|]|e0] eqn:E;
      simpl in H.
    + destruct ((Layer.num cur =? 1) && (n =? 0))%bool; discriminate.
    + discriminate.
    + injection H as <- _. eapply check_layer_change_raise. eassumption.
  - exists s'. unfold parse_layers, mbind. now rewrite Hrun.
Qed.

Lemma parse_layers_aborts_on_decimal_height_witness :
  exists s',
    parse_layers GCode.read_gcode_line
      ["G28"; "; BEGIN_LAYER_OBJECT z=1 z_thickness=0.3"; "T1";
       ";BEGIN_LAYER_OBJECT z=0.294 z_thickness=0.294"; "G1 X1"]%string
      (GCodeFile.init [])
    = (Raise ValueError, s').
Proof.
  apply (parse_layers_aborts_on_decimal_height GCode.read_gcode_line _
           ";BEGIN_LAYER_OBJECT z=0.294 z_thickness=0.294" None
           Examples.decimal_marker "0.294" "0.294").
  - do 3 right. left. reflexivity.
  - reflexivity.
  - vm_compute. reflexivity.
  - vm_compute. right. left. reflexivity.
Defined.

(** when the segmenter does return, the layers it has appended hold the
    classified lines of the input, each once and in order *)
Lemma parse_layers_complete (read_gcode_line : bytes -> gline)
    (lines : list bytes) (s s' : GCodeFile.t) :
  parse_layers read_gcode_line lines s = (Ok tt, s') ->
  exists new, GCodeFile.layers s' = GCodeFile.layers s ++ new /\
              new <> [] /\
              concat (map Layer.lines new) = map read_gcode_line lines.
Proof.
  unfold parse_layers.
  assert (Hloop : forall lines cur n s a s',
             foldM (parse_layers_line read_gcode_line) lines (cur, n) s = (Ok a, s') ->
             exists new, GCodeFile.layers s' = GCodeFile.layers s ++ new /\
                         concat (map Layer.lines new) ++ Layer.lines (fst a)
                         = Layer.lines cur ++ map read_gcode_line lines).
  { clear. induction lines as [|line lines IH]; intros cur n s a s' H.
    - injection H as <- <-. exists []. simpl. now rewrite !app_nil_r.
    - cbn [foldM] in H. unfold mbind at 1 in H.
      destruct (parse_layers_line read_gcode_line (cur, n) line s)
        as [[[cur1 n1]|e] s1] eqn:E; [|discriminate].
      assert (Hstep : exists new1, GCodeFile.layers s1 = GCodeFile.layers s ++ new1 /\
                        concat (map Layer.lines new1) ++ Layer.lines cur1
                        = Layer.lines cur ++ [read_gcode_line line]).
      { unfold parse_layers_line in E.
        destruct (read_gcode_line line) as [cmd comment]. unfold mbind in E.
        destruct comment as [[|c0 c]|].
        - injection E as <- <- <-. exists []. simpl. now rewrite app_nil_r.
        - unfold lift in E.
          destruct (check_layer_change (String c0 c) None) as [[[lz lh]|]|]; simpl in E.
          + destruct ((Layer.num cur =? 1) && (n =? 0))%bool; simpl in E.
            * injection E as <- <- <-. exists []. simpl. now rewrite app_nil_r.
            * injection E as <- <- <-. exists [cur]. simpl. now rewrite !app_nil_r.
          + injection E as <- <- <-. exists []. simpl. now rewrite app_nil_r.
          + discriminate.
        - injection E as <- <- <-. exists []. simpl. now rewrite app_nil_r. }
      destruct Hstep as (new1 & Hl1 & Hc1).
      destruct (IH _ _ _ _ _ H) as (new & Hl & Hc).
      exists (new1 ++ new). split.
      + now rewrite Hl, Hl1, app_assoc.
      + rewrite map_app, concat_app, <- app_assoc, Hc, app_assoc, Hc1, <- app_assoc.
        reflexivity. }
  unfold mbind.
  destruct (foldM _ lines _ s) as [[a|e] s1] eqn:E; [|discriminate].
  intros [= <-]. destruct (Hloop _ _ _ _ _ _ E) as (new & Hl & Hc).
  exists (new ++ [fst a]). simpl. split_and!.
  - now rewrite Hl, app_assoc.
  - destruct new; discriminate.
  - rewrite map_app, concat_app. simpl. now rewrite app_nil_r.
Qed.

(** a file with no marker gives one layer, the first layer with its
    provisional height, holding every line *)
Lemma parse_layers_no_marker (read_gcode_line : bytes -> gline)
    (lines : list bytes) (s : GCodeFile.t) :
  (forall line c, In line lines -> snd (read_gcode_line line) = Some c ->
                  LAYER_START_RE c = None) ->
  parse_layers read_gcode_line lines s =
  (Ok tt, GCodeFile.set_layers
            (GCodeFile.layers s ++
             [Layer.set_lines (FirstLayer 1 (2 # 10) f0_2) (map read_gcode_line lines)]) s).
Proof.
  intros Hno. unfold parse_layers.
  assert (Hloop : forall lines cur n s,
             (forall line c, In line lines -> snd (read_gcode_line line) = Some c ->
                             LAYER_START_RE c = None) ->
             foldM (parse_layers_line read_gcode_line) lines (cur, n) s
             = (Ok (Layer.set_lines cur (Layer.lines cur ++ map read_gcode_line lines), n), s)).
  { clear. induction lines as [|line lines IH]; intros cur n s Hno.
    - simpl. rewrite app_nil_r. destruct cur; reflexivity.
    - cbn [foldM]. unfold mbind at 1.
      assert (Hstep : parse_layers_line read_gcode_line (cur, n) line s
                      = (Ok (Layer.add_line cur (fst (read_gcode_line line))
                                            (snd (read_gcode_line line)), n), s)).
      { unfold parse_layers_line.
        pose proof (fun c => Hno line c (or_introl eq_refl)) as Hline.
        destruct (read_gcode_line line) as [cmd comment]. simpl in *.
        destruct comment as [[|c0 c]|]; try reflexivity.
        unfold mbind, lift, check_layer_change. now rewrite (Hline _ eq_refl). }
      rewrite Hstep, IH by (intros; eapply Hno; [right|]; eassumption).
      unfold Layer.add_line. simpl. rewrite <- app_assoc. simpl.
      destruct (read_gcode_line line). reflexivity. }
  unfold mbind. rewrite Hloop by assumption. reflexivity.
Qed.

(** ** The header pass *)

(** the version line is the one tolerant line: whatever follows
    " version", it does not raise *)
Lemma version_line_tolerated (loc : pyfloat * option Z) (c : bytes) (s : GCodeFile.t) :
  contains " version" c = true ->
  exists s', header_comment loc c s = (Ok loc, s') /\
             (s' = s \/ exists v, s' = GCodeFile.set_version (Some v) s).
Proof.
  intros Hv. unfold header_comment. destruct loc as [z_offset current_tool].
  rewrite Hv. unfold mbind, parse_version.
  destruct (VERSION_RE c) as [[a b]|]; [|eauto].
  destruct (py_int a); [|eauto]. destruct (py_int b); eauto.
Qed.

(** C7 (counterexample). The first annotation of the file gives the bed
    size the value "abc": the header pass raises [ValueError] there, and
    the line after it, with the bed size in y, is never read. *)
Lemma malformed_bed_size_aborts :
  exists s',
    parse_header (Examples.opened "malformed.gcode" [0]) = (Raise ValueError, s') /\
    GCodeFile.stroke_x s' = None /\ GCodeFile.stroke_y s' = None.
Proof. eexists. split_and!; vm_compute; reflexivity. Qed.

(** C7 (amended). An annotation-only line taken as one of the global
    decimal settings (bed size and offset, travel, first-layer and
    perimeter speed) whose value [float] rejects, or that has no value,
    raises at that line and leaves the object as it was, so the field
    keeps its previous value; the header pass aborts with an exception,
    the layers untouched, and no later line is read. *)
Theorem malformed_float_aborts (s : GCodeFile.t) (layer : Layer.t)
    (cmd : option bytes) (c : bytes) (e : exn) :
  In layer (GCodeFile.layers s) -> In (cmd, Some c) (Layer.lines layer) ->
  truthy cmd = false -> is_float_setting c = true -> float_value c = Raise e ->
  (forall loc s1, header_line loc (cmd, Some c) s1 = (Raise e, s1)) /\
  exists e' s', parse_header s = (Raise e', s') /\ same_layers s s'.
Proof.
  intros Hlayer Hln Hcmd Hset Hval. split.
  - intros loc s1. now apply float_line_raises.
  - apply (parse_header_raises s layer (cmd, Some c)); auto.
    intros loc s1. rewrite (float_line_raises cmd c e Hcmd Hset Hval). now exists e.
Qed.

Lemma malformed_float_aborts_witness :
  (forall loc s1, header_line loc (None, Some " bed_size_x_mm = abc"%string) s1
                  = (Raise ValueError, s1)) /\
  exists e' s', parse_header (Examples.opened "malformed.gcode" [0]) = (Raise e', s') /\
                same_layers (Examples.opened "malformed.gcode" [0]) s'.
Proof.
  apply (malformed_float_aborts (Examples.opened "malformed.gcode" [0])
           (hd (FirstLayer 1 0 f0_2) (GCodeFile.layers (Examples.opened "malformed.gcode" [0])))
           None).
  - vm_compute. left. reflexivity.
  - vm_compute. left. reflexivity.
  - reflexivity.
  - reflexivity.
  - reflexivity.
Defined.

(** C8 (code bug). With two extruders declared: the block boundary as
    KISSlicer writes it raises [AttributeError], the pattern being
    matched at the start of the comment; a boundary the pattern does
    match, for extruder 1, sets the tool index 0, which tests false, so
    the retract distance that follows is not applied to any extruder,
    while the same lines for extruder 2 apply it to tool 1. *)
Theorem material_block_of_first_extruder_ignored :
  fst (parse_header (Examples.opened "materials.gcode" [0])) = Raise AttributeError /\
  (let r := parse_header (Examples.opened "extruder1.gcode" [0]) in
   fst r = Ok tt /\
   Extruder.retract <$> (GCodeFile.extruders (snd r) !! 0) = Some None /\
   Extruder.retract <$> (GCodeFile.extruders (snd r) !! 1) = Some None) /\
  (let r := parse_header (Examples.opened "extruder2.gcode" [0]) in
   fst r = Ok tt /\
   Extruder.retract <$> (GCodeFile.extruders (snd r) !! 0) = Some None /\
   Extruder.retract <$> (GCodeFile.extruders (snd r) !! 1) = Some (Some (Fin 3))).
Proof. vm_compute. repeat split. Qed.

(** the per-tool settings are not applied while the tool index tests
    false, that is before any block boundary and after the boundary of
    extruder 1: a line that holds none of the global keys and no boundary
    leaves the object as it is *)
Lemma per_tool_setting_ignored_without_tool (z_offset : pyfloat)
    (current_tool : option Z) (c : bytes)
    (s : GCodeFile.t) (r : res (pyfloat * option Z)) (s' : GCodeFile.t) :
  tool_truthy current_tool = false ->
  forallb (fun k => negb (contains k c))
    [" version"; "bed_size_x_mm ="; "bed_size_y_mm ="; "bed_offset_x_mm =";
     "bed_offset_y_mm ="; "bed_offset_z_mm ="; "round_bed =";
     "travel_speed_mm_per_s ="; "num_extruders = "; "first_layer_speed_mm_per_s =";
     "Perimeter Speed ="; "*** Material Settings for Extruder"]%string = true ->
  header_comment (z_offset, current_tool) c s = (r, s') -> s' = s.
Proof.
  intros Htool Hkeys. cbn [forallb] in Hkeys.
  rewrite !andb_true_iff, !negb_true_iff in Hkeys. destruct_and!.
  unfold header_comment.
  repeat match goal with H : contains _ c = _ |- _ => rewrite H; clear H end.
  rewrite Htool. simpl. destruct (contains "firmware_type =" c).
  - unfold mbind, lift. destruct (value c) as [v|e]; [|congruence].
    destruct (String.eqb v "1"); unfold mret, mraise; congruence.
  - unfold mret. congruence.
Qed.

(** ** The orchestrator *)

Section Pipeline.

Variable is_tool_change : bytes -> option Z.
Variable base_parse_print_settings : M unit.
Variable open_file : bytes -> M unit.
Variable find_tower_position add_switch_raft add_tool_change_gcode : M unit.
Variable save_new_file : M bytes.

Local Abbreviation process' :=
  (process is_tool_change base_parse_print_settings open_file
           find_tower_position add_switch_raft add_tool_change_gcode save_new_file).

Lemma find_first_T0_spec (e : Z) (ls : list gline) :
  forall off,
    let found :=
      find_first_T0 is_tool_change (Some e)
        (imap (fun i '(cmd, comment) => (cmd, comment, Z.of_nat (off + i))) ls) in
    (exists i ln,
        found = Ok (Some (Z.of_nat (off + i))) /\ ls !! i = Some ln /\
        selects_T0 is_tool_change e (off + i) ln /\
        forall j ln', (j < i)%nat -> ls !! j = Some ln' ->
                      ~ selects_T0 is_tool_change e (off + j) ln') \/
    (found = Ok None /\
     forall j ln', ls !! j = Some ln' -> ~ selects_T0 is_tool_change e (off + j) ln').
Proof.
  induction ls as [|[cmd comment] ls IH]; intros off; cbn zeta.
  - right. split; [reflexivity|]. intros j ln' H. discriminate.
  - cbn [imap find_first_T0].
    rewrite (imap_ext _ (fun i '(cmd, comment) => (cmd, comment, Z.of_nat (S off + i))))
      by (intros i [c m] _; simpl; do 2 f_equal; lia).
    destruct ((e <? Z.of_nat (off + 0)) && truthy cmd &&
              bool_decide (is_tool_change (default ""%string cmd) = Some 0)) eqn:E.
    + left. exists O, (cmd, comment). split_and!; auto.
      * rewrite !andb_true_iff in E. destruct E as [[E1 E2] E3].
        apply Z.ltb_lt in E1. apply bool_decide_eq_true in E3.
        unfold selects_T0. auto.
      * intros j ln' Hj. lia.
    + assert (Hhead : ~ selects_T0 is_tool_change e (off + 0) (cmd, comment)).
      { intros (H1 & H2 & H3). simpl in H2, H3.
        apply Z.ltb_lt in H1. rewrite H1, H2 in E. simpl in E.
        apply bool_decide_eq_false in E. contradiction. }
      destruct (IH (S off)) as [(i & ln & Hf & Hi & Hsel & Hfirst)|[Hf Hnone]].
      * left. exists (S i), ln. rewrite Hf.
        replace (off + S i)%nat with (S off + i)%nat by lia.
        split_and!; auto.
        intros [|j] ln' Hj Hl.
        -- simpl in Hl. injection Hl as <-. exact Hhead.
        -- replace (off + S j)%nat with (S off + j)%nat by lia.
           apply (Hfirst j); [lia|exact Hl].
      * right. rewrite Hf. split; [reflexivity|].
        intros [|j] ln' Hl.
        -- simpl in Hl. injection Hl as <-. exact Hhead.
        -- replace (off + S j)%nat with (S off + j)%nat by lia.
           apply (Hnone j). exact Hl.
Qed.

(** C10. Once the base class has parsed the print settings and set the
    end of the start g-code of the first layer: if a line of that layer
    after that end holds a command that selects tool 0, the first such
    line, and no other, is deleted from the layer; if there is none,
    nothing changes. The other layers and the rest of the object are
    left as they are. *)
Theorem first_T0_removed (s : GCodeFile.t) (layer0 : Layer.t)
    (rest : list Layer.t) (e : Z) :
  GCodeFile.layers s = layer0 :: rest ->
  Layer.start_gcode_end layer0 = Some e ->
  (exists i ln,
      Layer.lines layer0 !! i = Some ln /\
      selects_T0 is_tool_change e i ln /\
      (forall j ln', (j < i)%nat -> Layer.lines layer0 !! j = Some ln' ->
                     ~ selects_T0 is_tool_change e j ln') /\
      remove_first_T0 is_tool_change s =
      (Ok tt,
       GCodeFile.set_layers
         (Layer.set_lines layer0
            (take i (Layer.lines layer0) ++ drop (S i) (Layer.lines layer0)) :: rest) s)) \/
  ((forall j ln', Layer.lines layer0 !! j = Some ln' ->
                  ~ selects_T0 is_tool_change e j ln') /\
   remove_first_T0 is_tool_change s = (Ok tt, s)).
Proof.
  intros Hlayers He. unfold remove_first_T0, mbind, mget, lift. rewrite Hlayers, He.
  unfold Layer.read_lines.
  destruct (find_first_T0_spec e (Layer.lines layer0) 0)
    as [(i & ln & Hf & Hi & Hsel & Hfirst)|[Hf Hnone]]; simpl in Hf; rewrite Hf.
  - left. exists i, ln. split_and!; auto.
    unfold modify, Layer.delete_line. rewrite Nat2Z.id, delete_take_drop. reflexivity.
  - right. split; [exact Hnone|reflexivity].
Qed.

(** C5. If, in the layers [open_file] has read, an annotation-only line
    is taken as the firmware flag (it holds "firmware_type =" and none
    of the keys tested before it) and its value is not "1", then
    [process] raises, and it does so in the header pass: the object at
    the raise has the layers as [open_file] left them, no action given,
    and no [max_slots] or [filtered_layers] from the allocator. *)
Theorem wrong_extrusion_mode_aborts (gcode_file : bytes) (s s1 : GCodeFile.t)
    (layer : Layer.t) (cmd : option bytes) (c : bytes) :
  open_file gcode_file s = (Ok tt, s1) ->
  In layer (GCodeFile.layers s1) -> In (cmd, Some c) (Layer.lines layer) ->
  truthy cmd = false -> is_firmware_flag c = true -> value c <> Ok "1"%string ->
  exists e s',
    parse_header s1 = (Raise e, s') /\
    process' gcode_file s = (Raise e, s') /\
    same_layers s1 s'.
Proof.
  intros Hopen Hlayer Hln Hcmd Hflag Hval.
  destruct (parse_header_raises s1 layer (cmd, Some c) Hlayer Hln
              (firmware_line_raises cmd c Hcmd Hflag Hval)) as (e & s' & Hrun & Hsame).
  exists e, s'. split_and!; auto.
  unfold process, mbind. now rewrite Hopen, Hrun.
Qed.

(** C6 (amended). With at most one tool configured, [process] still
    runs the allocator, on the object as the header pass and the
    print-settings pass left it: [filter_layers] returns, [max_slots]
    is computed and at least one, and every layer is tagged; what the
    run skips is the tower position, the raft and the tool-change
    g-code, going from the perimeter rates straight to
    [save_new_file]. *)
Theorem single_tool_run_is_allocated (gcode_file : bytes) (s s1 s2 s3 : GCodeFile.t) :
  open_file gcode_file s = (Ok tt, s1) ->
  parse_header s1 = (Ok tt, s2) ->
  parse_print_settings is_tool_change base_parse_print_settings s2 = (Ok tt, s3) ->
  (length (GCodeFile.tools s3) <= 1)%nat ->
  exists s4 n,
    filter_layers is_tool_change s3 = (Ok tt, s4) /\
    GCodeFile.max_slots s4 = Some n /\ 1 <= n /\
    length (GCodeFile.layers s4) = length (GCodeFile.layers s3) /\
    (forall i l, GCodeFile.layers s4 !! i = Some l -> tagged is_tool_change l) /\
    process' gcode_file s = save_new_file (snd (parse_perimeter_rates s4)).
Proof.
  intros Hopen Hheader Hsettings Htools.
  destruct (filter_layers_on_spec is_tool_change s3)
    as (zs & n & d & s4 & _ & Hrun & Hn & Hmax & Htools4 & _ & Hlen & Htag).
  assert (Hfilter : filter_layers is_tool_change s3 = (Ok tt, s4)).
  { unfold filter_layers. now rewrite Hrun. }
  exists s4, n. split_and!; auto.
  - intros i l Hl. now destruct (Htag i l Hl).
  - unfold process, mbind. rewrite Hopen, Hheader, Hsettings, Hfilter.
    unfold parse_perimeter_rates, modify, mget. simpl. rewrite Htools4.
    destruct (1 <? length (GCodeFile.tools s3))%nat eqn:E;
      [apply Nat.ltb_lt in E; lia|]. reflexivity.
Qed.

End Pipeline.

(** C1 (counterexample). In [spiky_print] the heights in deficit are the
    first, the third and the fifth of the scan, never two in a row, and
    [slots] goes from 1 to 2 at the fifth. *)
Lemma slots_change_without_three_in_a_row :
  ~ raised_only_after_three_in_a_row
      (scan_trace GCode.is_tool_change Examples.spiky_print).
Proof.
  intros H.
  destruct (H 4%nat (Visit 2 1 2) eq_refl eq_refl)
    as (v1 & v2 & _ & _ & H2 & _ & Hd & _).
  vm_compute in H2. injection H2 as <-. discriminate Hd.
Qed.

(** C6 (counterexample). A file of one line, run with one tool: when
    [process] returns, [max_slots] is 1 and the layer has the action
    [ACT_INFILL] and one tower slot. *)
Lemma single_tool_run_tags_layers :
  exists s',
    Examples.process "single.gcode" (GCodeFile.init [0]) = (Ok "out.gcode"%string, s') /\
    (length (GCodeFile.tools s') <= 1)%nat /\
    GCodeFile.max_slots s' = Some 1 /\
    map (fun l => (Layer.action l, Layer.tower_slots l)) (GCodeFile.layers s')
    = [(ACT_INFILL, 1)].
Proof. eexists. split_and!; vm_compute; reflexivity. Qed.

(** ** The theorems at work on the example files *)

(** the allocator on [spiky_print]: every layer with a tool change is a
    switch, the two others fill the one slot of their height, and the
    lowest height alone has two slots *)
Example spiky_print_allocated :
  exists s',
    filter_layers GCode.is_tool_change
      (GCodeFile.set_layers Examples.spiky_print (GCodeFile.init [0; 1])) = (Ok tt, s') /\
    GCodeFile.max_slots s' = Some 2 /\
    map (fun l => (Layer.action l, Layer.tower_slots l)) (GCodeFile.layers s')
    = [(ACT_SWITCH, 2); (ACT_SWITCH, 2); (ACT_INFILL, 1); (ACT_SWITCH, 1);
       (ACT_SWITCH, 1); (ACT_INFILL, 1); (ACT_SWITCH, 1); (ACT_SWITCH, 1)] /\
    GCodeFile.filtered_layers s' = [0; 1; 2; 3; 4; 5; 6; 7]%nat.
Proof. eexists. split_and!; vm_compute; reflexivity. Qed.

Lemma first_T0_removed_witness :
  let s := Examples.with_settings "start.gcode" [0] in
  let layer0 := Examples.first_layer s in
  (exists i ln,
      Layer.lines layer0 !! i = Some ln /\
      selects_T0 GCode.is_tool_change 0 i ln /\
      (forall j ln', (j < i)%nat -> Layer.lines layer0 !! j = Some ln' ->
                     ~ selects_T0 GCode.is_tool_change 0 j ln') /\
      remove_first_T0 GCode.is_tool_change s =
      (Ok tt,
       GCodeFile.set_layers
         (Layer.set_lines layer0
            (take i (Layer.lines layer0) ++ drop (S i) (Layer.lines layer0)) :: []) s)) \/
  ((forall j ln', Layer.lines layer0 !! j = Some ln' ->
                  ~ selects_T0 GCode.is_tool_change 0 j ln') /\
   remove_first_T0 GCode.is_tool_change s = (Ok tt, s)).
Proof.
  apply (first_T0_removed GCode.is_tool_change
           (Examples.with_settings "start.gcode" [0])
           (Examples.first_layer (Examples.with_settings "start.gcode" [0])) [] 0).
  - vm_compute. reflexivity.
  - vm_compute. reflexivity.
Defined.

Lemma wrong_extrusion_mode_aborts_witness :
  exists e s',
    parse_header (Examples.opened "absolute_e.gcode" [0]) = (Raise e, s') /\
    Examples.process "absolute_e.gcode" (GCodeFile.init [0]) = (Raise e, s') /\
    same_layers (Examples.opened "absolute_e.gcode" [0]) s'.
Proof.
  apply (wrong_extrusion_mode_aborts GCode.is_tool_change
           Examples.base_parse_print_settings Examples.open_file
           Examples.nothing Examples.nothing Examples.nothing Examples.save_new_file
           "absolute_e.gcode" (GCodeFile.init [0])
           (Examples.opened "absolute_e.gcode" [0])
           (Examples.first_layer (Examples.opened "absolute_e.gcode" [0]))
           None " firmware_type = 2").
  - vm_compute. reflexivity.
  - vm_compute. left. reflexivity.
  - vm_compute. left. reflexivity.
  - reflexivity.
  - reflexivity.
  - vm_compute. discriminate.
Defined.

Lemma single_tool_run_is_allocated_witness :
  exists s4 n,
    filter_layers GCode.is_tool_change (Examples.parsed "single.gcode" [0]) = (Ok tt, s4) /\
    GCodeFile.max_slots s4 = Some n /\ 1 <= n /\
    length (GCodeFile.layers s4)
    = length (GCodeFile.layers (Examples.parsed "single.gcode" [0])) /\
    (forall i l, GCodeFile.layers s4 !! i = Some l -> tagged GCode.is_tool_change l) /\
    Examples.process "single.gcode" (GCodeFile.init [0])
    = Examples.save_new_file (snd (parse_perimeter_rates s4)).
Proof.
  apply (single_tool_run_is_allocated GCode.is_tool_change
           Examples.base_parse_print_settings Examples.open_file
           Examples.nothing Examples.nothing Examples.nothing Examples.save_new_file
           "single.gcode" (GCodeFile.init [0])
           (Examples.opened "single.gcode" [0])
           (snd (parse_header (Examples.opened "single.gcode" [0])))
           (Examples.parsed "single.gcode" [0])).
  - vm_compute. reflexivity.
  - vm_compute. reflexivity.
  - vm_compute. reflexivity.
  - vm_compute. lia.
Defined.

(** * Further properties of the class *)

(** ** The buckets of [filter_layers] *)

Lemma layers_at_snoc (store : list Layer.t) (x : Layer.t) (z : Q) :
  layers_at (store ++ [x]) z =
  layers_at store z ++ (if Qeq_bool (Layer.z x) z then [length store] else []).
Proof.
  unfold layers_at. rewrite imap_app, List.filter_app, map_app. simpl.
  rewrite Nat.add_0_r. destruct (Qeq_bool (Layer.z x) z); reflexivity.
Qed.

Lemma layers_at_In (store : list Layer.t) (z : Q) (i : nat) :
  In i (layers_at store z) <->
  exists l, store !! i = Some l /\ (Layer.z l == z)%Q.
Proof.
  induction store as [|x store IH] using rev_ind.
  - simpl. split; [tauto|]. intros (l & H & _). discriminate.
  - rewrite layers_at_snoc, in_app_iff, IH. split.
    + intros [(l & Hl & Hz)|Hx].
      * exists l. split; [|assumption]. rewrite lookup_app_l; [assumption|].
        eapply lookup_lt_Some. eassumption.
      * destruct (Qeq_bool (Layer.z x) z) eqn:E; [|destruct Hx].
        destruct Hx as [<-|[]]. exists x. split; [|now apply Qeq_bool_true].
        now rewrite list_lookup_middle.
    + intros (l & Hl & Hz).
      destruct (decide (i < length store)%nat) as [Hlt|Hge].
      * left. exists l. split; [|assumption]. now rewrite lookup_app_l in Hl.
      * right. assert (i = length store) as ->.
        { apply lookup_lt_Some in Hl. rewrite length_app in Hl. simpl in Hl. lia. }
        rewrite list_lookup_middle in Hl by reflexivity. injection Hl as ->.
        apply Qeq_bool_true in Hz. rewrite Hz. now left.
Qed.

Lemma layers_at_bound (store : list Layer.t) (z : Q) (i : nat) :
  In i (layers_at store z) -> (i < length store)%nat.
Proof.
  intros H. apply layers_at_In in H. destruct H as (l & Hl & _).
  eapply lookup_lt_Some. eassumption.
Qed.

Lemma layers_at_NoDup (store : list Layer.t) (z : Q) : NoDup (layers_at store z).
Proof.
  induction store as [|x store IH] using rev_ind; [constructor|].
  rewrite layers_at_snoc. apply NoDup_app. split; [assumption|]. split.
  - intros i Hi Hx. apply list_elem_of_In, layers_at_bound in Hi.
    destruct (Qeq_bool (Layer.z x) z); [|inversion Hx].
    apply list_elem_of_In in Hx. destruct Hx as [<-|[]]. lia.
  - destruct (Qeq_bool (Layer.z x) z); repeat constructor. intros H. inversion H.
Qed.

(** step 1 puts in the bucket of a height the layers of that height, in
    the order of [self.layers], and makes a bucket only for a height
    some layer has *)
Lemma group_layers_bucket (store : list Layer.t) (z : Q) :
  b_layers <$> ld_lookup z (group_layers store) =
  match layers_at store z with
  | [] => None
  | refs => Some refs
  end.
Proof.
  induction store as [|x store IH] using rev_ind; [reflexivity|].
  rewrite group_layers_snoc, layers_at_snoc. unfold group_layer.
  set (d := group_layers store) in *.
  rewrite ld_lookup_alter.
  destruct (Qeq_bool (Layer.z x) z) eqn:E.
  - apply Qeq_bool_true in E.
    rewrite <- (ld_lookup_proper _ _ d E) in IH.
    destruct (ld_lookup (Layer.z x) d) as [b|] eqn:Ex.
    + rewrite <- (ld_lookup_proper _ _ d E), Ex. simpl in *.
      destruct (layers_at store z); [discriminate|]. injection IH as ->. reflexivity.
    + rewrite ld_lookup_snoc, <- (ld_lookup_proper _ _ d E), Ex.
      apply Qeq_bool_true in E. rewrite E. simpl in *.
      destruct (layers_at store z); [reflexivity|discriminate].
  - rewrite app_nil_r. destruct (ld_lookup (Layer.z x) d); [exact IH|].
    rewrite ld_lookup_snoc. destruct (ld_lookup z d); [exact IH|].
    rewrite E. exact IH.
Qed.

(** ** The order of the heights *)

Lemma insert_by_sorted {A} (le : A -> A -> bool) (x : A) (l : list A) :
  (forall a b, le a b = true \/ le b a = true) ->
  (forall a b c, le a b = true -> le b c = true -> le a c = true) ->
  StronglySorted (fun a b => le a b = true) l ->
  StronglySorted (fun a b => le a b = true) (insert_by le x l).
Proof.
  intros Htot Htrans. induction l as [|a l IH]; intros Hs; simpl.
  - repeat constructor.
  - inversion Hs as [|? ? Hl Ha]; subst. destruct (le x a) eqn:E.
    + constructor; [assumption|]. constructor; [assumption|].
      eapply Forall_impl; [exact Ha|]. intros b Hb. simpl in Hb. eauto.
    + constructor; [auto|]. apply Forall_forall. intros b Hb.
      apply list_elem_of_In, insert_by_In in Hb. destruct Hb as [->|Hb].
      * destruct (Htot a x) as [H|H]; [assumption|congruence].
      * rewrite Forall_forall in Ha. apply Ha. now apply list_elem_of_In.
Qed.

Lemma sorted_by_sorted {A} (le : A -> A -> bool) (l : list A) :
  (forall a b, le a b = true \/ le b a = true) ->
  (forall a b c, le a b = true -> le b c = true -> le a c = true) ->
  StronglySorted (fun a b => le a b = true) (sorted_by le l).
Proof.
  intros Htot Htrans. induction l as [|a l IH]; simpl; [constructor|].
  now apply insert_by_sorted.
Qed.

Lemma insert_by_Permutation {A} (le : A -> A -> bool) (x : A) (l : list A) :
  Permutation (insert_by le x l) (x :: l).
Proof.
  induction l as [|a l IH]; simpl; [reflexivity|].
  destruct (le x a); [reflexivity|].
  rewrite IH. apply perm_swap.
Qed.

Lemma sorted_by_Permutation {A} (le : A -> A -> bool) (l : list A) :
  Permutation (sorted_by le l) l.
Proof.
  induction l as [|a l IH]; simpl; [reflexivity|].
  rewrite insert_by_Permutation. now constructor.
Qed.

Lemma StronglySorted_snoc {A} (R : A -> A -> Prop) (l : list A) (a : A) :
  StronglySorted R l -> Forall (fun x => R x a) l -> StronglySorted R (l ++ [a]).
Proof.
  induction l as [|b l IH]; intros Hs Ha; simpl.
  - repeat constructor.
  - inversion Hs; subst. inversion Ha; subst. constructor; [auto|].
    apply Forall_app. split; [assumption|]. now constructor.
Qed.

Lemma StronglySorted_rev {A} (R : A -> A -> Prop) (l : list A) :
  StronglySorted R l -> StronglySorted (fun a b => R b a) (rev l).
Proof.
  induction l as [|a l IH]; intros Hs; simpl; [constructor|].
  inversion Hs; subst. apply StronglySorted_snoc; [auto|].
  apply Forall_forall. intros b Hb. apply list_elem_of_In, in_rev in Hb.
  rewrite Forall_forall in H2. apply H2. now apply list_elem_of_In.
Qed.

Lemma descending_strict (ks : list Q) :
  StronglySorted (fun a b => (b <= a)%Q) ks -> distinct ks ->
  StronglySorted (fun a b => (b < a)%Q) ks.
Proof.
  induction ks as [|a ks IH]; intros Hs Hd; [constructor|].
  inversion Hs as [|? ? Hl Ha]; subst. destruct Hd as [Hne Hd].
  constructor; [auto|]. apply Forall_forall. intros b Hb.
  rewrite Forall_forall in Ha. specialize (Ha b Hb).
  apply list_elem_of_In in Hb.
  destruct (Qle_lt_or_eq _ _ Ha) as [?|E]; [assumption|].
  exfalso. apply (Hne b Hb). now symmetry.
Qed.

Lemma heights_descending (ks : list Q) :
  distinct ks ->
  StronglySorted (fun a b => (b < a)%Q) (rev (sorted_by Qle_bool ks)).
Proof.
  intros Hd. apply descending_strict.
  - apply (StronglySorted_rev (fun a b => (a <= b)%Q)).
    eapply StronglySorted_ind with (P := fun l => StronglySorted (fun a b => (a <= b)%Q) l);
      [constructor| |apply (sorted_by_sorted Qle_bool ks)].
    + intros a l _ IH Ha. constructor; [assumption|].
      eapply Forall_impl; [exact Ha|]. intros b Hb. now apply Qle_bool_iff.
    + intros a b. destruct (Qlt_le_dec a b) as [H|H].
      * left. apply Qle_bool_iff. now apply Qlt_le_weak.
      * right. now apply Qle_bool_iff.
    + intros a b c Hab Hbc. apply Qle_bool_iff. apply Qle_bool_iff in Hab, Hbc.
      eapply Qle_trans; eassumption.
  - now apply distinct_rev, distinct_sorted_by.
Qed.

Section AllocatorMore.

Variable is_tool_change : bytes -> option Z.

Local Abbreviation has_tc := (has_tool_changes is_tool_change).
Local Arguments slot_step : simpl never.

(** steps 1 and 2, with all that the later arguments need *)
Lemma allocate_slots_spec (store : list Layer.t) :
  exists zs slots count d,
    allocate_slots is_tool_change store = Ok (zs, slots, d) /\
    zs = rev (sorted_by Qle_bool (map fst (group_layers store))) /\
    foldR (scan_height is_tool_change store) zs (1, 0, group_layers store)
      = Ok (slots, count, d) /\
    1 <= slots /\
    (forall z, b_layers <$> ld_lookup z d =
               match layers_at store z with [] => None | refs => Some refs end) /\
    slots_good d /\
    (forall z, In z zs -> visited d z) /\
    (forall z b, ld_lookup z d = Some b -> exists k, In k zs /\ (k == z)%Q) /\
    distinct zs /\
    (forall z, In z zs -> exists i l, store !! i = Some l /\ (Layer.z l == z)%Q) /\
    (forall i l, store !! i = Some l -> exists z, In z zs /\ (z == Layer.z l)%Q).
Proof.
  set (d0 := group_layers store).
  set (zs := rev (sorted_by Qle_bool (map fst d0))).
  assert (Hzs : forall z, In z zs <-> In z (map fst d0)).
  { intros z. unfold zs. rewrite <- in_rev. apply sorted_by_In. }
  destruct (scan_total is_tool_change store zs 1 0 d0) as
    (slots & count & d & Hrun & Hs & Hkeys & Hl & Hg & _ & Hvis); try lia.
  - intros z Hz. apply ld_lookup_key, Hzs, Hz.
  - apply group_layers_fresh.
  - exists zs, slots, count, d. unfold allocate_slots. fold d0 zs. rewrite Hrun. simpl.
    split_and!; auto.
    + intros z. rewrite Hl. apply group_layers_bucket.
    + intros z b Hz. destruct (ld_lookup_has_key _ _ _ Hz) as (k & Hk & Hkz).
      exists k. split; [|assumption]. apply Hzs. now rewrite <- Hkeys.
    + apply distinct_rev, distinct_sorted_by, group_layers_distinct.
    + intros z Hz. apply Hzs, ld_lookup_key in Hz. destruct Hz as [b Hb].
      pose proof (group_layers_bucket store z) as Hbk. fold d0 in Hbk. rewrite Hb in Hbk.
      destruct (layers_at store z) as [|i refs] eqn:E; [discriminate|].
      assert (Hi : In i (layers_at store z)) by (rewrite E; now left).
      apply layers_at_In in Hi. destruct Hi as (l & Hl' & Hz'). eauto.
    + intros i l Hi. destruct (group_layers_covers store i l Hi) as (b & Hb & _).
      fold d0 in Hb. destruct (ld_lookup_has_key _ _ _ Hb) as (k & Hk & Hkz).
      exists k. split; [now apply Hzs|assumption].
Qed.

(** X1. [filter_layers] scans the heights from the top down, each height
    once, and the bucket of a height lists the layers of that height,
    and no other, in the order of [self.layers]; two layers share a
    bucket exactly when their heights are equal as numbers. *)
Theorem buckets_partition_by_height (store : list Layer.t) :
  exists zs slots d,
    allocate_slots is_tool_change store = Ok (zs, slots, d) /\
    StronglySorted (fun a b => (b < a)%Q) zs /\
    (forall z, In z zs -> layers_at store z <> []) /\
    (forall i l, store !! i = Some l ->
       exists z b, In z zs /\ (z == Layer.z l)%Q /\
                   ld_lookup (Layer.z l) d = Some b /\
                   b_layers b = layers_at store (Layer.z l)) /\
    (forall z b, ld_lookup z d = Some b ->
       b_layers b = layers_at store z /\ NoDup (b_layers b) /\
       forall i, In i (b_layers b) <->
                 exists l, store !! i = Some l /\ (Layer.z l == z)%Q).
Proof.
  destruct (allocate_slots_spec store)
    as (zs & slots & count & d & Halloc & Hzs & _ & _ & Hb & _ & _ & _ & Hd & Hsome & Hall).
  exists zs, slots, d. split; [exact Halloc|].
  assert (Hbucket : forall z b, ld_lookup z d = Some b -> b_layers b = layers_at store z).
  { intros z b Hz. specialize (Hb z). rewrite Hz in Hb. simpl in Hb.
    destruct (layers_at store z); [discriminate|congruence]. }
  split_and!.
  - rewrite Hzs. apply heights_descending, group_layers_distinct.
  - intros z Hz E. destruct (Hsome z Hz) as (i & l & Hl & Hzl).
    assert (In i (layers_at store z)) as Hin by (apply layers_at_In; eauto).
    rewrite E in Hin. destruct Hin.
  - intros i l Hl. destruct (Hall i l Hl) as (z & Hz & Hzl).
    assert (In i (layers_at store (Layer.z l))) as Hin.
    { apply layers_at_In. exists l. split; [assumption|reflexivity]. }
    specialize (Hb (Layer.z l)).
    destruct (layers_at store (Layer.z l)) as [|j refs] eqn:E; [destruct Hin|].
    destruct (ld_lookup (Layer.z l) d) as [b|] eqn:Eb; [|discriminate].
    exists z, b. split_and!; auto. rewrite (Hbucket _ _ Eb). exact E.
  - intros z b Hz. rewrite (Hbucket z b Hz). split_and!; auto.
    + apply layers_at_NoDup.
    + intros i. apply layers_at_In.
Qed.

(** ** The tagging of a bucket, layer by layer *)

Lemma count_tool_changes_acc (store : list Layer.t) (refs : list nat) (a : Z) :
  fold_left (fun lrs i => lrs + (if has_tool_changes_at is_tool_change store i
                                 then 1 else 0)) refs a
  = a + count_tool_changes is_tool_change store refs.
Proof.
  unfold count_tool_changes. revert a. induction refs as [|i refs IH]; intros a; simpl.
  - lia.
  - rewrite IH, (IH (0 + _)). lia.
Qed.

Lemma count_tool_changes_cons (store : list Layer.t) (i : nat) (refs : list nat) :
  count_tool_changes is_tool_change store (i :: refs)
  = (if has_tool_changes_at is_tool_change store i then 1 else 0)
    + count_tool_changes is_tool_change store refs.
Proof. unfold count_tool_changes at 1. simpl. apply count_tool_changes_acc. Qed.

(** two stores whose layers hold the same lines *)
Lemma has_tool_changes_at_lines (store store' : list Layer.t) :
  (forall j, Layer.lines <$> store' !! j = Layer.lines <$> store !! j) ->
  forall j, has_tool_changes_at is_tool_change store' j
            = has_tool_changes_at is_tool_change store j.
Proof.
  intros H j. unfold has_tool_changes_at. specialize (H j).
  destruct (store' !! j) as [l'|], (store !! j) as [l|]; try discriminate; [|reflexivity].
  simpl in *. injection H as H. unfold has_tool_changes. now rewrite H.
Qed.

Lemma count_tool_changes_ext (store store' : list Layer.t) (refs : list nat) :
  (forall j, has_tool_changes_at is_tool_change store' j
             = has_tool_changes_at is_tool_change store j) ->
  count_tool_changes is_tool_change store' refs
  = count_tool_changes is_tool_change store refs.
Proof.
  intros H. induction refs as [|i refs IH]; [reflexivity|].
  now rewrite !count_tool_changes_cons, IH, H.
Qed.

Lemma plain_before_ext (store store' : list Layer.t) (refs : list nat) (i : nat) :
  (forall j, has_tool_changes_at is_tool_change store' j
             = has_tool_changes_at is_tool_change store j) ->
  plain_before is_tool_change store' refs i = plain_before is_tool_change store refs i.
Proof.
  intros H. induction refs as [|j refs IH]; [reflexivity|].
  simpl. now rewrite IH, H.
Qed.

Lemma plain_before_nonneg (store : list Layer.t) (refs : list nat) (i : nat) :
  0 <= plain_before is_tool_change store refs i.
Proof.
  induction refs as [|j refs IH]; simpl; [lia|].
  destruct (Nat.eqb j i); [lia|]. destruct (has_tool_changes_at _ _ _); lia.
Qed.

Lemma alter_keeps_tool_changes (f : Layer.t -> Layer.t) (i : nat) (store : list Layer.t) :
  (forall l, Layer.lines (f l) = Layer.lines l) ->
  forall k, has_tool_changes_at is_tool_change (alter f i store) k
            = has_tool_changes_at is_tool_change store k.
Proof.
  intros Hf. apply has_tool_changes_at_lines. intros k.
  destruct (decide (i = k)) as [<-|Hne].
  - rewrite list_lookup_alter_eq. destruct (store !! i); simpl; [|reflexivity].
    now rewrite Hf.
  - now rewrite list_lookup_alter_ne.
Qed.

Lemma tag_switch_filled (slots : Z) (store : list Layer.t) (filled : Z) (i : nat) :
  snd (tag_switch is_tool_change slots (store, filled) i)
  = filled + (if has_tool_changes_at is_tool_change store i then 1 else 0).
Proof.
  unfold tag_switch. rewrite alter_keeps_tool_changes by reflexivity.
  destruct (has_tool_changes_at is_tool_change store i); simpl; lia.
Qed.

Lemma tag_switch_keeps_tool_changes (slots : Z) (store : list Layer.t) (filled : Z)
    (i k : nat) :
  has_tool_changes_at is_tool_change
    (fst (tag_switch is_tool_change slots (store, filled) i)) k
  = has_tool_changes_at is_tool_change store k.
Proof.
  unfold tag_switch. destruct (has_tool_changes_at _ (alter _ _ _) _); simpl;
    now rewrite !alter_keeps_tool_changes by reflexivity.
Qed.

Lemma fold_tag_switch_filled (slots : Z) (refs : list nat) :
  forall store filled,
    snd (fold_left (tag_switch is_tool_change slots) refs (store, filled))
    = filled + count_tool_changes is_tool_change store refs.
Proof.
  induction refs as [|i refs IH]; intros store filled.
  - unfold count_tool_changes. simpl. lia.
  - cbn [fold_left].
    pose proof (tag_switch_filled slots store filled i) as Hf.
    pose proof (tag_switch_keeps_tool_changes slots store filled i) as Hl.
    destruct (tag_switch is_tool_change slots (store, filled) i) as [store1 filled1].
    simpl in Hf, Hl. rewrite IH, Hf, count_tool_changes_cons.
    rewrite (count_tool_changes_ext store store1 refs Hl). lia.
Qed.

Lemma tag_other_step (slots : Z) (store : list Layer.t) (filled : Z) (i : nat) :
  tag_other is_tool_change slots (store, filled) i =
  if has_tool_changes_at is_tool_change store i then (store, filled)
  else (alter (fun l => Layer.set_action l
                          (if filled <? slots then ACT_INFILL else ACT_PASS)) i store,
        if filled <? slots then filled + 1 else filled).
Proof.
  unfold tag_other. destruct (has_tool_changes_at _ _ _); [reflexivity|].
  destruct (filled <? slots); reflexivity.
Qed.

Lemma fold_tag_other_exact (slots : Z) (refs : list nat) :
  NoDup refs ->
  forall store filled j,
    fst (fold_left (tag_other is_tool_change slots) refs (store, filled)) !! j =
    if in_dec Nat.eq_dec j refs then
      (fun l => if has_tc l then l
                else Layer.set_action l
                       (if filled + plain_before is_tool_change store refs j <? slots
                        then ACT_INFILL else ACT_PASS)) <$> store !! j
    else store !! j.
Proof.
  induction 1 as [|i refs Hi Hnd IH]; intros store filled j; [reflexivity|].
  rewrite list_elem_of_In in Hi.
  cbn [fold_left]. rewrite tag_other_step.
  destruct (has_tool_changes_at is_tool_change store i) eqn:Etc.
  - rewrite IH. cbn [plain_before]. rewrite Etc.
    destruct (in_dec Nat.eq_dec j refs) as [Hin|Hnin];
      destruct (in_dec Nat.eq_dec j (i :: refs)) as [Hin'|Hnin']; simpl in *.
    + destruct (Nat.eqb_spec i j) as [->|Hne]; [tauto|]. reflexivity.
    + tauto.
    + destruct Hin' as [->|]; [|tauto].
      unfold has_tool_changes_at in Etc.
      destruct (store !! j) as [l|]; [|reflexivity]. simpl in *. now rewrite Etc.
    + reflexivity.
  - rewrite IH.
    rewrite (plain_before_ext store _ refs j
               (alter_keeps_tool_changes
                  (fun l => Layer.set_action l
                              (if filled <? slots then ACT_INFILL else ACT_PASS))
                  i store (fun _ => eq_refl))).
    cbn [plain_before]. rewrite Etc.
    destruct (in_dec Nat.eq_dec j refs) as [Hin|Hnin];
      destruct (in_dec Nat.eq_dec j (i :: refs)) as [Hin'|Hnin']; simpl in *;
      try tauto.
    + destruct (Nat.eqb_spec i j) as [->|Hne]; [tauto|].
      rewrite list_lookup_alter_ne by assumption.
      destruct (store !! j) as [l|]; [|reflexivity]. simpl.
      destruct (has_tc l); [reflexivity|]. do 2 f_equal.
      pose proof (plain_before_nonneg store refs j).
      destruct (Z.ltb_spec filled slots).
      * now rewrite <- Z.add_assoc.
      * destruct (Z.ltb_spec (filled + plain_before is_tool_change store refs j) slots),
          (Z.ltb_spec (filled + (1 + plain_before is_tool_change store refs j)) slots);
          try reflexivity; lia.
    + destruct Hin' as [->|]; [|tauto]. rewrite Nat.eqb_refl, list_lookup_alter_eq.
      unfold has_tool_changes_at in Etc.
      destruct (store !! j) as [l|]; [|reflexivity]. simpl in *. rewrite Etc.
      now rewrite Z.add_0_r.
    + rewrite list_lookup_alter_ne; [reflexivity|]. intros ->. apply Hnin'. now left.
Qed.

(** one height of the tagging loop, exactly *)
Lemma tag_height_exact (d : layer_data) (store : list Layer.t) (z : Q)
    (b : bucket) (n : Z) :
  ld_lookup z d = Some b -> b_slots b = Some n -> n <> 0 -> NoDup (b_layers b) ->
  exists store',
    tag_height is_tool_change d store z = Ok store' /\
    forall j,
      store' !! j =
      if in_dec Nat.eq_dec j (b_layers b) then
        (fun l => Layer.set_action (Layer.set_tower_slots l n)
                    (expected_action is_tool_change store (b_layers b) n j))
          <$> store !! j
      else store !! j.
Proof.
  intros Hb Hn Hn0 Hnd. unfold tag_height, ld_get. rewrite Hb. simpl. rewrite Hn.
  destruct (Z.eqb_spec n 0) as [|_]; [contradiction|].
  eexists. split; [reflexivity|]. intros j.
  pose proof (fun k => fold_tag_switch is_tool_change n (b_layers b) store 0 k) as H1.
  pose proof (fold_tag_switch_filled n (b_layers b) store 0) as Hf.
  destruct (fold_left (tag_switch is_tool_change n) (b_layers b) (store, 0))
    as [store1 filled1]. simpl in H1, Hf.
  rewrite (fold_tag_other_exact n (b_layers b) Hnd store1 filled1 j), H1.
  destruct (in_dec Nat.eq_dec j (b_layers b)) as [Hin|Hnin]; [|reflexivity].
  assert (Hsame : forall k, has_tool_changes_at is_tool_change store1 k
                            = has_tool_changes_at is_tool_change store k).
  { apply has_tool_changes_at_lines. intros k. rewrite H1.
    destruct (in_dec Nat.eq_dec k (b_layers b)); [|reflexivity].
    destruct (store !! k) as [l|]; [|reflexivity]. simpl.
    unfold switch_tag. destruct (has_tc l); reflexivity. }
  rewrite (plain_before_ext store store1 _ j Hsame), Hf.
  unfold expected_action, has_tool_changes_at.
  destruct (store !! j) as [l|]; [|reflexivity]. simpl.
  rewrite has_tc_switch_tag. unfold switch_tag.
  destruct (has_tc l); reflexivity.
Qed.

(** ** The tagging loop, exactly *)

Lemma layers_at_disjoint (store : list Layer.t) (z1 z2 : Q) (j : nat) :
  In j (layers_at store z1) -> In j (layers_at store z2) -> (z1 == z2)%Q.
Proof.
  rewrite !layers_at_In. intros (l1 & H1 & E1) (l2 & H2 & E2).
  assert (l1 = l2) as -> by congruence. now rewrite <- E1, <- E2.
Qed.

Lemma tag_loop_exact (store0 : list Layer.t) (d : layer_data) (ks : list Q) :
  forall store,
    distinct ks ->
    (forall z, In z ks -> exists b n,
         ld_lookup z d = Some b /\ b_slots b = Some n /\ n <> 0 /\
         b_layers b = layers_at store0 z) ->
    (forall k, has_tool_changes_at is_tool_change store k
               = has_tool_changes_at is_tool_change store0 k) ->
    exists store',
      foldR (tag_height is_tool_change d) ks store = Ok store' /\
      forall j l, store !! j = Some l ->
        (forall z b n, In z ks -> ld_lookup z d = Some b -> b_slots b = Some n ->
                       In j (b_layers b) ->
                       store' !! j =
                       Some (Layer.set_action (Layer.set_tower_slots l n)
                               (expected_action is_tool_change store0 (b_layers b) n j))) /\
        ((forall z b, In z ks -> ld_lookup z d = Some b -> ~ In j (b_layers b)) ->
         store' !! j = Some l).
Proof.
  induction ks as [|k0 ks IH]; intros store Hd Hks Htc.
  - exists store. split; [reflexivity|]. intros j l Hl. split; [intros z b n []|auto].
  - destruct Hd as [Hne Hd].
    destruct (Hks k0 (or_introl eq_refl)) as (b0 & n0 & Hb0 & Hn0 & Hnz & Hrefs0).
    destruct (tag_height_exact d store k0 b0 n0 Hb0 Hn0 Hnz) as (store1 & Hrun1 & H1).
    { rewrite Hrefs0. apply layers_at_NoDup. }
    assert (Htc1 : forall k, has_tool_changes_at is_tool_change store1 k
                             = has_tool_changes_at is_tool_change store0 k).
    { intros k. rewrite <- Htc. apply has_tool_changes_at_lines. intros k'. rewrite H1.
      destruct (in_dec Nat.eq_dec k' (b_layers b0)); [|reflexivity].
      destruct (store !! k'); reflexivity. }
    destruct (IH store1 Hd (fun z Hz => Hks z (or_intror Hz)) Htc1)
      as (store' & Hrun & H').
    exists store'. simpl. rewrite Hrun1. simpl. split; [exact Hrun|].
    intros j l Hl.
    assert (Hother : forall z b, In z ks -> ld_lookup z d = Some b ->
                                 In j (b_layers b) -> ~ In j (b_layers b0)).
    { intros z b Hz Hb Hj Hj0.
      destruct (Hks z (or_intror Hz)) as (b' & _ & Hb' & _ & _ & Hrefs).
      assert (b' = b) as -> by congruence.
      rewrite Hrefs in Hj. rewrite Hrefs0 in Hj0.
      apply (Hne z Hz). eapply layers_at_disjoint; eassumption. }
    split.
    + intros z b n [<-|Hz] Hb Hn Hj.
      * assert (b = b0) as -> by congruence. assert (n = n0) as -> by congruence.
        assert (Hl1 : store1 !! j =
                      Some (Layer.set_action (Layer.set_tower_slots l n0)
                              (expected_action is_tool_change store0 (b_layers b0) n0 j))).
        { rewrite H1, Hl. destruct (in_dec Nat.eq_dec j (b_layers b0)); [|contradiction].
          simpl. do 2 f_equal. unfold expected_action.
          rewrite (count_tool_changes_ext store0 store _ Htc),
            (plain_before_ext store0 store _ _ Htc), Htc. reflexivity. }
        destruct (H' j _ Hl1) as [_ Hkeep]. apply Hkeep.
        intros z' b' Hz' Hb' Hj'. exact (Hother z' b' Hz' Hb' Hj' Hj).
      * assert (Hl1 : store1 !! j = Some l).
        { rewrite H1, Hl. destruct (in_dec Nat.eq_dec j (b_layers b0)) as [Hj0|]; [|reflexivity].
          exfalso. exact (Hother z b Hz Hb Hj Hj0). }
        destruct (H' j l Hl1) as [Hset _]. eapply Hset; eassumption.
    + intros Hnone.
      assert (Hl1 : store1 !! j = Some l).
      { rewrite H1, Hl. destruct (in_dec Nat.eq_dec j (b_layers b0)) as [Hj0|]; [|reflexivity].
        exfalso. exact (Hnone k0 b0 (or_introl eq_refl) Hb0 Hj0). }
      destruct (H' j l Hl1) as [_ Hkeep]. apply Hkeep.
      intros z b Hz. apply Hnone. now right.
Qed.

Lemma pack_exact (store : list Layer.t) (d : layer_data) (ks : list Q) :
  forall acc,
    (forall z, In z ks -> exists b, ld_lookup z d = Some b /\
                                    b_layers b = layers_at store z) ->
    foldR (pack d) ks acc = Ok (acc ++ concat (map (layers_at store) ks)).
Proof.
  induction ks as [|z ks IH]; intros acc Hks; simpl.
  - now rewrite app_nil_r.
  - unfold pack at 1, ld_get. destruct (Hks z (or_introl eq_refl)) as (b & -> & Hb).
    simpl. rewrite IH by (intros; apply Hks; now right). now rewrite Hb, app_assoc.
Qed.

Lemma concat_layers_at_Permutation (store : list Layer.t) (ks : list Q) :
  distinct ks ->
  (forall i l, store !! i = Some l -> exists z, In z ks /\ (z == Layer.z l)%Q) ->
  Permutation (concat (map (layers_at store) ks)) (seq 0 (length store)).
Proof.
  intros Hd Hall. apply NoDup_Permutation.
  - clear Hall. induction ks as [|k ks IH]; simpl; [constructor|].
    destruct Hd as [Hne Hd]. apply NoDup_app. split; [apply layers_at_NoDup|].
    split; [|auto]. intros i Hi Hc. apply list_elem_of_In in Hi, Hc.
    apply in_concat in Hc. destruct Hc as (refs & Hrefs & Hi').
    apply in_map_iff in Hrefs. destruct Hrefs as (k' & <- & Hk').
    apply (Hne k' Hk'). eapply layers_at_disjoint; eassumption.
  - apply NoDup_seq.
  - intros i. rewrite !list_elem_of_In, in_seq. split.
    + intros Hc. apply in_concat in Hc. destruct Hc as (refs & Hrefs & Hi).
      apply in_map_iff in Hrefs. destruct Hrefs as (k & <- & _).
      apply layers_at_bound in Hi. lia.
    + intros [_ Hi]. simpl in Hi. apply lookup_lt_is_Some in Hi. destruct Hi as [l Hl].
      destruct (Hall i l Hl) as (z & Hz & Hzl).
      apply in_concat. exists (layers_at store z). split; [now apply in_map|].
      apply layers_at_In. exists l. split; [assumption|now symmetry].
Qed.

(** [filter_layers], with every loop said exactly *)
Lemma filter_layers_on_exact (s : GCodeFile.t) :
  exists zs slots d store',
    allocate_slots is_tool_change (GCodeFile.layers s) = Ok (zs, slots, d) /\
    filter_layers_on is_tool_change s =
    Ok (GCodeFile.set_filtered_layers
          (sorted_by (fun i j => num_at store' i <=? num_at store' j)
             (concat (map (layers_at (GCodeFile.layers s)) (rev zs))))
          (GCodeFile.set_layers store' (GCodeFile.set_max_slots (Some slots) s))) /\
    1 <= slots /\
    distinct zs /\
    (forall i l, GCodeFile.layers s !! i = Some l ->
       exists z, In z zs /\ (z == Layer.z l)%Q) /\
    length store' = length (GCodeFile.layers s) /\
    forall i l, GCodeFile.layers s !! i = Some l ->
      exists b n,
        ld_lookup (Layer.z l) d = Some b /\ b_slots b = Some n /\ 1 <= n /\
        b_layers b = layers_at (GCodeFile.layers s) (Layer.z l) /\
        store' !! i =
        Some (Layer.set_action (Layer.set_tower_slots l n)
                (expected_action is_tool_change (GCodeFile.layers s) (b_layers b) n i)).
Proof.
  destruct (allocate_slots_spec (GCodeFile.layers s))
    as (zs & slots & count & d & Halloc & _ & _ & Hs & Hb & Hgood & Hvis & _ & Hd & _ & Hall).
  assert (Hbucket : forall z b, ld_lookup z d = Some b ->
                                b_layers b = layers_at (GCodeFile.layers s) z).
  { intros z b Hz. specialize (Hb z). rewrite Hz in Hb. simpl in Hb.
    destruct (layers_at (GCodeFile.layers s) z); [discriminate|congruence]. }
  assert (Hks : forall z, In z (rev zs) -> exists b n,
                  ld_lookup z d = Some b /\ b_slots b = Some n /\ n <> 0 /\
                  b_layers b = layers_at (GCodeFile.layers s) z).
  { intros z Hz. apply in_rev in Hz. destruct (Hvis z Hz) as (b & n & Hz' & Hn).
    exists b, n. split_and!; auto. specialize (Hgood z b n Hz' Hn). lia. }
  destruct (tag_loop_exact (GCodeFile.layers s) d (rev zs) (GCodeFile.layers s))
    as (store' & Hrun & Htag); [now apply distinct_rev|exact Hks|reflexivity|].
  exists zs, slots, d, store'. split; [exact Halloc|].
  unfold filter_layers_on. rewrite Halloc. simpl. rewrite Hrun. simpl.
  rewrite (pack_exact (GCodeFile.layers s) d (rev zs) []).
  2:{ intros z Hz. destruct (Hks z Hz) as (b & _ & ? & _ & _ & ?). eauto. }
  simpl. split; [reflexivity|]. split_and!; auto.
  - destruct (tag_loop is_tool_change d (rev zs) (GCodeFile.layers s))
      as (store'' & Hrun' & Hlen & _).
    { intros z Hz. destruct (Hks z Hz) as (b & n & Hz' & Hn & Hn0 & _).
      exists b, n. split_and!; auto. apply in_rev in Hz.
      exact (Hgood z b n Hz' Hn). }
    congruence.
  - intros i l Hl. destruct (Hall i l Hl) as (z & Hz & Hzl).
    destruct (Hks z (proj1 (in_rev zs z) Hz)) as (b & n & Hz' & Hn & Hn0 & Hrefs).
    assert (Hbl : ld_lookup (Layer.z l) d = Some b).
    { rewrite <- Hz'. apply ld_lookup_proper. now symmetry. }
    exists b, n. split_and!; auto.
    + exact (Hgood z b n Hz' Hn).
    + destruct (Htag i l Hl) as [Hset _].
      apply (Hset z b n (proj1 (in_rev zs z) Hz) Hz' Hn).
      rewrite (Hbucket _ _ Hbl). apply layers_at_In. exists l. split; [assumption|reflexivity].
Qed.

(** ** The slots along the scan *)

Lemma slot_step_grows (slots count lrs : Z) :
  0 <= count <= 2 -> slots <= fst (slot_step (slots, count) lrs).
Proof.
  intros Hc. unfold slot_step.
  destruct (slots <? lrs) eqn:E1; [apply Z.ltb_lt in E1|apply Z.ltb_ge in E1];
    match goal with
    | |- context [3 <=? ?c] =>
        destruct (3 <=? c) eqn:E2; [apply Z.leb_le in E2|apply Z.leb_gt in E2]
    end; simpl; lia.
Qed.

Lemma slot_step_value (slots count lrs : Z) :
  fst (slot_step (slots, count) lrs) = slots \/
  fst (slot_step (slots, count) lrs) = lrs.
Proof.
  unfold slot_step.
  match goal with |- context [3 <=? ?c] => destruct (3 <=? c) end; simpl; auto.
Qed.

Lemma fold_slot_step_bounds (reqs : list Z) :
  forall slots count,
    1 <= slots -> 0 <= count <= 2 ->
    slots <= fst (fold_left slot_step reqs (slots, count)) /\
    (fst (fold_left slot_step reqs (slots, count)) = slots \/
     In (fst (fold_left slot_step reqs (slots, count))) reqs).
Proof.
  induction reqs as [|lrs reqs IH]; intros slots count Hs Hc; simpl.
  - split; [lia|now left].
  - pose proof (slot_step_bounds slots count lrs Hs Hc) as [Hs1 Hc1].
    pose proof (slot_step_grows slots count lrs Hc) as Hg.
    pose proof (slot_step_value slots count lrs) as Hv.
    destruct (slot_step (slots, count) lrs) as [slots1 count1]. simpl in *.
    destruct (IH slots1 count1 Hs1 Hc1) as [Hle Hin]. split; [lia|].
    destruct Hin as [->|Hin]; [|auto]. destruct Hv as [->| ->]; auto.
Qed.

Lemma slot_trace_monotone (reqs : list Z) :
  forall slots count k k' v v',
    1 <= slots -> 0 <= count <= 2 -> (k <= k')%nat ->
    slot_trace (slots, count) reqs !! k = Some v ->
    slot_trace (slots, count) reqs !! k' = Some v' ->
    slots <= v_after v /\ v_after v <= v_after v' /\
    v_after v' <= fst (fold_left slot_step reqs (slots, count)).
Proof.
  induction reqs as [|lrs reqs IH]; intros slots count k k' v v' Hs Hc Hk Hv Hv';
    [destruct k; discriminate|].
  cbn [slot_trace fold_left] in *.
  pose proof (slot_step_bounds slots count lrs Hs Hc) as [Hs1 Hc1].
  pose proof (slot_step_grows slots count lrs Hc) as Hg.
  destruct (slot_step (slots, count) lrs) as [slots1 count1] eqn:E. simpl in *.
  pose proof (fold_slot_step_bounds reqs slots1 count1 Hs1 Hc1) as [Hfin _].
  destruct k as [|k], k' as [|k']; simpl in *; try lia.
  - injection Hv as <-. injection Hv' as <-. simpl. lia.
  - injection Hv as <-. simpl.
    destruct (IH slots1 count1 k' k' v' v' Hs1 Hc1 (le_n _) Hv' Hv') as (H1 & _ & H3).
    lia.
  - destruct (IH slots1 count1 k k' v v' Hs1 Hc1 ltac:(lia) Hv Hv') as (H1 & H2 & H3).
    lia.
Qed.

Lemma StronglySorted_lookup {A} (R : A -> A -> Prop) (l : list A) :
  StronglySorted R l ->
  forall i j a b, (i < j)%nat -> l !! i = Some a -> l !! j = Some b -> R a b.
Proof.
  induction 1 as [|x l Hs IH Hx]; intros i j a b Hij Ha Hb; [destruct i; discriminate|].
  destruct j as [|j]; [lia|]. simpl in Hb. destruct i as [|i].
  - injection Ha as <-. rewrite Forall_forall in Hx. apply Hx.
    eapply list_elem_of_lookup_2. eassumption.
  - simpl in Ha. apply (IH i j); [lia|assumption|assumption].
Qed.

Lemma fold_slot_step_calm (reqs : list Z) :
  forall count,
    0 <= count ->
    count + Z.of_nat (length (List.filter (fun r => 1 <? r) reqs)) < 3 ->
    fst (fold_left slot_step reqs (1, count)) = 1.
Proof.
  induction reqs as [|lrs reqs IH]; intros count Hc Hn; [reflexivity|].
  cbn [fold_left List.filter] in *. unfold slot_step at 2.
  destruct (1 <? lrs) eqn:E; simpl length in Hn.
  - destruct (Z.leb_spec 3 (count + 1)); [lia|]. apply IH; lia.
  - destruct (Z.leb_spec 3 count); [lia|]. apply IH; lia.
Qed.

Lemma required_counts_layers_at (store : list Layer.t) :
  required_counts is_tool_change store =
  map (fun z => count_tool_changes is_tool_change store (layers_at store z))
      (rev (sorted_by Qle_bool (map fst (group_layers store)))).
Proof.
  unfold required_counts. apply map_ext. intros z. f_equal.
  pose proof (group_layers_bucket store z) as H.
  destruct (ld_lookup z (group_layers store)) as [b|]; simpl in *.
  - destruct (layers_at store z); [discriminate|congruence].
  - destruct (layers_at store z); [reflexivity|discriminate].
Qed.

(** the slots recorded for a height are those of its visit in the trace *)
Lemma allocate_slots_recorded (store : list Layer.t) :
  exists zs slots d,
    allocate_slots is_tool_change store = Ok (zs, slots, d) /\
    StronglySorted (fun a b => (b < a)%Q) zs /\
    slots = fst (fold_left slot_step (required_counts is_tool_change store) (1, 0)) /\
    required_counts is_tool_change store =
    map (fun z => count_tool_changes is_tool_change store (layers_at store z)) zs /\
    forall z b n, ld_lookup z d = Some b -> b_slots b = Some n ->
      exists k zk v,
        zs !! k = Some zk /\ (zk == z)%Q /\
        scan_trace is_tool_change store !! k = Some v /\ n = v_after v.
Proof.
  destruct (allocate_slots_spec store)
    as (zs & slots & count & d & Halloc & Hzs & Hrun & _ & _ & _ & _ & Hkey & Hd & _ & _).
  exists zs, slots, d. split; [exact Halloc|]. split_and!.
  - rewrite Hzs. apply heights_descending, group_layers_distinct.
  - pose proof (scan_projects is_tool_change store (group_layers store) zs 1 0
                  (group_layers store) slots count d (fun _ => eq_refl) Hrun) as Hp.
    unfold required_counts. rewrite <- Hzs, Hp. reflexivity.
  - rewrite required_counts_layers_at, <- Hzs. reflexivity.
  - intros z b n Hz Hn. destruct (Hkey z b Hz) as (zk & Hin & Hzk).
    apply list_elem_of_In, list_elem_of_lookup_1 in Hin. destruct Hin as [k Hk].
    assert (Hlen : (k < length (scan_trace is_tool_change store))%nat).
    { unfold scan_trace, required_counts. rewrite slot_trace_length, length_map, <- Hzs.
      eapply lookup_lt_Some. eassumption. }
    apply lookup_lt_is_Some in Hlen. destruct Hlen as [v Hv].
    exists k, zk, v. split_and!; auto.
    unfold scan_trace, required_counts in Hv. rewrite <- Hzs in Hv.
    destruct (scan_records is_tool_change store (group_layers store) zs 1 0
                (group_layers store) slots count d k zk v Hd (fun _ => eq_refl)
                Hrun Hk Hv) as (b' & Hb' & Hn').
    rewrite (ld_lookup_proper zk z d Hzk) in Hb'. congruence.
Qed.

(** X2. The slots recorded for the heights never shrink on the way
    down: of two heights, the lower has at least the slots of the
    higher; every height has at least one slot and none has more than
    [max_slots], the last value of the scan. *)
Theorem slots_grow_downwards (store : list Layer.t) :
  exists zs slots d,
    allocate_slots is_tool_change store = Ok (zs, slots, d) /\
    forall z1 z2 b1 b2 n1 n2,
      ld_lookup z1 d = Some b1 -> b_slots b1 = Some n1 ->
      ld_lookup z2 d = Some b2 -> b_slots b2 = Some n2 ->
      (z1 <= z2)%Q -> 1 <= n2 /\ n2 <= n1 /\ n1 <= slots.
Proof.
  destruct (allocate_slots_recorded store)
    as (zs & slots & d & Halloc & Hsorted & Hslots & _ & Hrec).
  exists zs, slots, d. split; [exact Halloc|].
  intros z1 z2 b1 b2 n1 n2 Hb1 Hn1 Hb2 Hn2 Hle.
  destruct (Hrec z1 b1 n1 Hb1 Hn1) as (k1 & zk1 & v1 & Hk1 & E1 & Hv1 & ->).
  destruct (Hrec z2 b2 n2 Hb2 Hn2) as (k2 & zk2 & v2 & Hk2 & E2 & Hv2 & ->).
  assert (Hk : (k2 <= k1)%nat).
  { destruct (le_lt_dec k2 k1) as [|Hlt]; [assumption|]. exfalso.
    pose proof (StronglySorted_lookup _ zs Hsorted k1 k2 zk1 zk2 Hlt Hk1 Hk2) as H.
    simpl in H. rewrite E1, E2 in H. exact (Qlt_not_le _ _ H Hle). }
  unfold scan_trace in *.
  destruct (slot_trace_monotone _ 1 0 k2 k1 v2 v1 ltac:(lia) ltac:(lia) Hk Hv2 Hv1)
    as (H1 & H2 & H3).
  rewrite Hslots. auto.
Qed.

(** X3. [max_slots] is never a number of the allocator's own making: it
    is 1, or the number of tool-change layers of some height, and then
    that height has more than one. *)
Theorem max_slots_is_a_count (s : GCodeFile.t) :
  exists s' slots,
    filter_layers is_tool_change s = (Ok tt, s') /\
    GCodeFile.max_slots s' = Some slots /\
    (slots = 1 \/
     1 < slots /\
     exists i l, GCodeFile.layers s !! i = Some l /\
                 slots = count_tool_changes is_tool_change (GCodeFile.layers s)
                           (layers_at (GCodeFile.layers s) (Layer.z l))).
Proof.
  destruct (filter_layers_on_exact s)
    as (zs & slots & d & store' & Halloc & Hrun & Hs & _).
  destruct (allocate_slots_recorded (GCodeFile.layers s))
    as (zs' & slots' & d' & Halloc' & _ & Hslots & Hreqs & _).
  rewrite Halloc in Halloc'. injection Halloc' as <- <- <-.
  destruct (allocate_slots_spec (GCodeFile.layers s))
    as (zs' & ? & ? & ? & Halloc' & _ & _ & _ & _ & _ & _ & _ & _ & Hsome & _).
  rewrite Halloc in Halloc'. injection Halloc' as <- <- <-.
  eexists _, slots. unfold filter_layers. rewrite Hrun. split; [reflexivity|].
  split; [reflexivity|].
  destruct (fold_slot_step_bounds (required_counts is_tool_change (GCodeFile.layers s))
              1 0 ltac:(lia) ltac:(lia)) as [_ [H|H]]; rewrite <- Hslots in H.
  - now left.
  - destruct (Z.eq_dec slots 1) as [|Hne]; [now left|]. right. split; [lia|].
    rewrite Hreqs in H. apply in_map_iff in H. destruct H as (z & Hz & Hin).
    destruct (Hsome z Hin) as (i & l & Hl & Hzl). exists i, l. split; [assumption|].
    rewrite <- Hz. f_equal.
    clear -Hzl. unfold layers_at. f_equal. apply List.filter_ext. intros [j l'].
    simpl. destruct (Qeq_bool (Layer.z l') z) eqn:E1, (Qeq_bool (Layer.z l') (Layer.z l)) eqn:E2;
      auto; qeq.
Qed.

(** X4. The hysteresis needs three heights: when fewer than three
    heights have more than one tool-change layer, every height is given
    one slot and [max_slots] is 1. *)
Theorem few_crowded_heights_one_slot (store : list Layer.t) :
  (length (List.filter (fun r => (1 <? r)%Z) (required_counts is_tool_change store))
   < 3)%nat ->
  exists zs d,
    allocate_slots is_tool_change store = Ok (zs, 1, d) /\
    forall z b n, ld_lookup z d = Some b -> b_slots b = Some n -> n = 1.
Proof.
  intros Hfew.
  destruct (allocate_slots_recorded store)
    as (zs & slots & d & Halloc & _ & Hslots & _ & Hrec).
  rewrite fold_slot_step_calm in Hslots by lia. subst slots.
  exists zs, d. split; [exact Halloc|].
  intros z b n Hb Hn.
  destruct (Hrec z b n Hb Hn) as (k & zk & v & Hk & _ & Hv & ->).
  unfold scan_trace in Hv.
  destruct (slot_trace_monotone _ 1 0 k k v v ltac:(lia) ltac:(lia) (le_n _) Hv Hv)
    as (H1 & _ & H3).
  rewrite fold_slot_step_calm in H3 by lia. simpl in H3. lia.
Qed.

(** X5. [filter_layers] never raises, and what it does to the object is
    this and no more: it sets [max_slots] and [filtered_layers], and it
    gives each layer the slots of the bucket of its height as
    [tower_slots] and an action: a layer with tool changes is a switch,
    whatever the slots; a layer without is infill while the tool-change
    layers of the bucket and the plain layers listed before it leave a
    slot free, and passes otherwise. Lines, heights and numbers stay. *)
Theorem filter_layers_rule (s : GCodeFile.t) :
  exists zs slots d s',
    allocate_slots is_tool_change (GCodeFile.layers s) = Ok (zs, slots, d) /\
    filter_layers is_tool_change s = (Ok tt, s') /\
    s' = GCodeFile.set_filtered_layers (GCodeFile.filtered_layers s')
           (GCodeFile.set_layers (GCodeFile.layers s')
              (GCodeFile.set_max_slots (Some slots) s)) /\
    length (GCodeFile.layers s') = length (GCodeFile.layers s) /\
    forall i l, GCodeFile.layers s !! i = Some l ->
      exists b n,
        ld_lookup (Layer.z l) d = Some b /\ b_slots b = Some n /\
        b_layers b = layers_at (GCodeFile.layers s) (Layer.z l) /\
        GCodeFile.layers s' !! i =
        Some (Layer.set_action (Layer.set_tower_slots l n)
                (expected_action is_tool_change (GCodeFile.layers s) (b_layers b) n i)).
Proof.
  destruct (filter_layers_on_exact s)
    as (zs & slots & d & store' & Halloc & Hrun & _ & _ & _ & Hlen & Hrule).
  eexists zs, slots, d, _. split; [exact Halloc|]. split.
  { unfold filter_layers. rewrite Hrun. reflexivity. }
  split; [reflexivity|]. split; [exact Hlen|].
  intros i l Hl. destruct (Hrule i l Hl) as (b & n & Hb & Hn & _ & Hrefs & Hi).
  exists b, n. split_and!; auto.
Qed.

(** X6. [filter_layers] leaves no layer out: [filtered_layers] lists
    every layer of [self.layers] exactly once, in ascending order of
    layer number. *)
Theorem filtered_layers_all_in_order (s : GCodeFile.t) :
  exists s',
    filter_layers is_tool_change s = (Ok tt, s') /\
    Permutation (GCodeFile.filtered_layers s') (seq 0 (length (GCodeFile.layers s))) /\
    StronglySorted
      (fun i j => num_at (GCodeFile.layers s) i <= num_at (GCodeFile.layers s) j)
      (GCodeFile.filtered_layers s').
Proof.
  destruct (filter_layers_on_exact s)
    as (zs & slots & d & store' & Halloc & Hrun & _ & Hd & Hall & Hlen & Hrule).
  eexists. split.
  { unfold filter_layers. rewrite Hrun. reflexivity. }
  simpl.
  assert (Hnum : forall i, num_at store' i = num_at (GCodeFile.layers s) i).
  { intros i. unfold num_at.
    destruct (GCodeFile.layers s !! i) as [l|] eqn:E.
    - destruct (Hrule i l E) as (b & n & _ & _ & _ & _ & ->). reflexivity.
    - apply lookup_ge_None in E. rewrite <- Hlen in E.
      apply lookup_ge_None in E. now rewrite E. }
  split.
  - rewrite sorted_by_Permutation. apply concat_layers_at_Permutation.
    + now apply distinct_rev.
    + intros i l Hl. destruct (Hall i l Hl) as (z & Hz & Hzl).
      exists z. split; [now apply -> in_rev|assumption].
  - eapply StronglySorted_ind
      with (P := fun l => StronglySorted
                            (fun i j => num_at (GCodeFile.layers s) i
                                        <= num_at (GCodeFile.layers s) j) l);
      [constructor| |apply (sorted_by_sorted
                             (fun i j => num_at store' i <=? num_at store' j))].
    + intros a l _ IH Ha. constructor; [assumption|].
      eapply Forall_impl; [exact Ha|]. intros b Hb. simpl in Hb.
      apply Z.leb_le in Hb. now rewrite <- !Hnum.
    + intros a b. destruct (Z.le_ge_cases (num_at store' a) (num_at store' b));
        [left|right]; now apply Z.leb_le.
    + intros a b c Hab Hbc. apply Z.leb_le. apply Z.leb_le in Hab, Hbc. lia.
Qed.

End AllocatorMore.

Lemma few_crowded_heights_one_slot_witness :
  exists zs d,
    allocate_slots GCode.is_tool_change Examples.two_spikes = Ok (zs, 1, d) /\
    forall z b n, ld_lookup z d = Some b -> b_slots b = Some n -> n = 1.
Proof.
  apply few_crowded_heights_one_slot. vm_compute. lia.
Defined.

(** ** The segmenter, layer by layer *)

Lemma set_layers_same (s : GCodeFile.t) (l : list Layer.t) :
  l = GCodeFile.layers s -> GCodeFile.set_layers l s = s.
Proof. intros ->. now destruct s. Qed.

Lemma foldM_snoc {A B} (f : A -> B -> M A) (l : list B) (x : B) (a : A)
    (s : GCodeFile.t) :
  foldM f (l ++ [x]) a s =
  match foldM f l a s with
  | (Ok a', s') => f a' x s'
  | (Raise e, s') => (Raise e, s')
  end.
Proof.
  revert a s. induction l as [|y l IH]; intros a s.
  - simpl. unfold mbind, mret. now destruct (f a x s) as [[?|?] ?].
  - cbn [foldM app]. unfold mbind. destruct (f a y s) as [[a1|e] s1]; [apply IH|reflexivity].
Qed.

Lemma parse_layers_line_step (rgl : bytes -> gline) (cur : Layer.t) (n : Z)
    (line : bytes) (s : GCodeFile.t) :
  converts (rgl line) = true ->
  parse_layers_line rgl (cur, n) line s =
  match marker_values (rgl line) with
  | None => (Ok (Layer.add_line cur (rgl line).1 (rgl line).2, n), s)
  | Some v =>
      if (Layer.num cur =? 1) && (n =? 0) then
        (Ok (Layer.add_line
               (Layer.set_height (Layer.set_z cur (inject_Z v.1)) v.2)
               (rgl line).1 (rgl line).2, n + 1), s)
      else
        (Ok (Layer.add_line (Layer (n + 1) (inject_Z v.1) v.2)
               (rgl line).1 (rgl line).2, n + 1),
         GCodeFile.set_layers (GCodeFile.layers s ++ [cur]) s)
  end.
Proof.
  unfold parse_layers_line, converts, marker_values.
  destruct (rgl line) as [cmd [[|c0 c]|]]; simpl; try reflexivity.
  unfold mbind, lift.
  destruct (check_layer_change (String c0 c) None) as [[[z h]|]|e]; simpl;
    try discriminate; try reflexivity.
  intros _. destruct ((Layer.num cur =? 1) && (n =? 0))%bool; reflexivity.
Qed.

Lemma map_snoc_same {A B} (f : A -> B) (l : list A) (x y : A) :
  f x = f y -> map f (l ++ [x]) = map f (l ++ [y]).
Proof. intros H. now rewrite !map_app; simpl; rewrite H. Qed.

Lemma parse_layers_loop (rgl : bytes -> gline) (lines : list bytes)
    (s : GCodeFile.t) :
  forallb converts (map rgl lines) = true ->
  exists done cur n,
    foldM (parse_layers_line rgl) lines (FirstLayer 1 (2 # 10) f0_2, 0) s
    = (Ok (cur, n), GCodeFile.set_layers (GCodeFile.layers s ++ done) s) /\
    concat (map Layer.lines (done ++ [cur])) = map rgl lines /\
    n = Z.of_nat (length (List.filter is_marker (map rgl lines))) /\
    length done = Nat.pred (length (List.filter is_marker (map rgl lines))) /\
    map Layer.num (done ++ [cur]) = map Z.of_nat (seq 1 (S (length done))) /\
    map Layer.first (done ++ [cur]) = true :: repeat false (length done) /\
    Forall (fun l => Layer.action l = ACT_PASS /\ Layer.tower_slots l = 0)
           (done ++ [cur]) /\
    forall k l, (done ++ [cur]) !! k = Some l ->
      match List.filter is_marker (map rgl lines) !! k with
      | Some ln =>
          exists v, marker_values ln = Some v /\
                    Layer.z l = inject_Z v.1 /\ Layer.height l = v.2 /\
                    (k <> 0%nat -> exists rest, Layer.lines l = ln :: rest)
      | None => k = 0%nat /\ Layer.z l = 2 # 10 /\ Layer.height l = f0_2
      end.
Proof.
  induction lines as [|line lines IH] using rev_ind; intros Hc.
  - exists [], (FirstLayer 1 (2 # 10) f0_2), 0. simpl. split_and!; try reflexivity.
    + unfold mret. f_equal. symmetry. apply set_layers_same. now rewrite app_nil_r.
    + repeat constructor.
    + intros [|k] l H; [|discriminate]. injection H as <-. now split_and!.
  - rewrite map_app, forallb_app in Hc. simpl in Hc.
    apply andb_true_iff in Hc as [Hc1 Hc2]. rewrite andb_true_r in Hc2.
    destruct (IH Hc1) as (done & cur & n & Hrun & Hcat & Hn & Hlen & Hnum & Hfirst
                          & Hfresh & Hmark).
    clear IH. rewrite foldM_snoc, Hrun, parse_layers_line_step by assumption.
    rewrite !map_app, List.filter_app. cbn [map List.filter].
    set (markers := List.filter is_marker (map rgl lines)) in *.
    destruct (marker_values (rgl line)) as [v|] eqn:Ev;
      [assert (Hi : is_marker (rgl line) = true) by (unfold is_marker; now rewrite Ev)
      |assert (Hi : is_marker (rgl line) = false) by (unfold is_marker; now rewrite Ev)];
      rewrite Hi.
    + destruct (Z.eq_dec n 0) as [Hz|Hz].
      * (* the first marker: the first layer takes its values *)
        assert (Hm : markers = []).
        { destruct markers; [reflexivity|simpl in Hn; lia]. }
        rewrite Hm in *. simpl in Hlen. destruct done; [|discriminate].
        injection Hnum as Hnum. simpl in Hcat. rewrite app_nil_r in Hcat.
        subst n. rewrite Hnum. simpl.
        eexists [], _, _. split; [reflexivity|]. simpl.
        injection Hfirst as Hfirst. rewrite Hnum, Hfirst, app_nil_r, Hcat.
        apply Forall_inv in Hfresh.
        split_and!; try reflexivity.
        -- now destruct (rgl line).
        -- constructor; [exact Hfresh|constructor].
        -- intros [|k] l H; [|discriminate]. injection H as <-.
           exists v. simpl. split_and!; try reflexivity; [exact Ev|]. now intros [].
      * (* a later marker: the layer is stored and a new one begins *)
        assert (Hm : length markers = S (length done)).
        { destruct markers; [simpl in Hn; lia|simpl in *; lia]. }
        replace ((Layer.num cur =? 1) && (n =? 0))%bool with false
          by (symmetry; apply andb_false_iff; right; now apply Z.eqb_neq).
        eexists (done ++ [cur]), _, _. split.
        { simpl. now rewrite <- app_assoc. }
        rewrite !length_app. cbn [length].
        replace (length done + 1)%nat with (S (length done)) by lia.
        replace (length markers + 1)%nat with (S (length markers)) by lia.
        rewrite !map_app, concat_app, Hm.
        split_and!.
        -- rewrite <- map_app, Hcat. simpl. now destruct (rgl line).
        -- lia.
        -- reflexivity.
        -- rewrite <- map_app, Hnum, (seq_S (S (length done))), map_app. simpl.
           do 3 f_equal. lia.
        -- rewrite <- map_app, Hfirst. simpl. f_equal. now rewrite <- repeat_cons.
        -- apply Forall_app. split; [exact Hfresh|].
           now repeat constructor.
        -- intros k l Hk.
           destruct (decide (k < S (length done))%nat) as [Hlt|Hge].
           ++ rewrite lookup_app_l in Hk by (rewrite length_app; simpl; lia).
              rewrite lookup_app_l by lia.
              exact (Hmark k l Hk).
           ++ rewrite lookup_app_r in Hk by (rewrite length_app; simpl; lia).
              rewrite length_app in Hk. simpl in Hk.
              destruct (k - (length done + 1))%nat as [|k'] eqn:Ek; [|discriminate].
              injection Hk as <-.
              assert (k = length markers) as -> by lia.
              rewrite lookup_app_r, Nat.sub_diag by lia. simpl.
              exists v. split_and!; try reflexivity; [exact Ev|].
              intros _. exists []. now destruct (rgl line).
    + (* an ordinary line: it joins the current layer *)
      rewrite !app_nil_r.
      eexists done, _, n. split; [reflexivity|].
      rewrite (map_snoc_same Layer.num done _ cur) by reflexivity.
      rewrite (map_snoc_same Layer.first done _ cur) by reflexivity.
      split_and!; try assumption.
      * rewrite map_app, concat_app in *. simpl in *. rewrite app_nil_r in *.
        rewrite app_assoc, Hcat. now destruct (rgl line).
      * apply Forall_app in Hfresh as [H1 H2]. apply Forall_app. split; [exact H1|].
        apply Forall_inv in H2. now repeat constructor.
      * intros k l Hk.
        destruct (decide (k < length done)%nat) as [Hlt|Hge].
        -- rewrite lookup_app_l in Hk by lia.
           apply (Hmark k l). now rewrite lookup_app_l by lia.
        -- rewrite lookup_app_r in Hk by lia.
           destruct (k - length done)%nat as [|k'] eqn:Ek; [|discriminate].
           injection Hk as <-.
           assert (Hcur : (done ++ [cur]) !! k = Some cur).
           { rewrite lookup_app_r by lia. now rewrite Ek. }
           specialize (Hmark k cur Hcur).
           destruct (markers !! k) as [ln|].
           ++ destruct Hmark as (v & Hv & Hz & Hh & Hl). exists v.
              split_and!; try assumption.
              intros Hk0. destruct (Hl Hk0) as (rest & Hr).
              exists (rest ++ [((rgl line).1, (rgl line).2)]). simpl. now rewrite Hr.
           ++ exact Hmark.
Qed.

Lemma foldM_app {A B} (f : A -> B -> M A) (l1 l2 : list B) (a : A)
    (s : GCodeFile.t) :
  foldM f (l1 ++ l2) a s =
  match foldM f l1 a s with
  | (Ok a', s') => foldM f l2 a' s'
  | (Raise e, s') => (Raise e, s')
  end.
Proof.
  revert a s. induction l1 as [|y l1 IH]; intros a s; [reflexivity|].
  cbn [foldM app]. unfold mbind. destruct (f a y s) as [[a1|e] s1]; [apply IH|reflexivity].
Qed.

Lemma first_failure {A} (p : A -> bool) (l : list A) :
  forallb p l = false ->
  exists l1 x l2, l = l1 ++ x :: l2 /\ forallb p l1 = true /\ p x = false.
Proof.
  induction l as [|a l IH]; [discriminate|]. simpl.
  destruct (p a) eqn:E; simpl.
  - intros H. destruct (IH H) as (l1 & x & l2 & -> & H1 & H2).
    exists (a :: l1), x, l2. simpl. now rewrite E, H1.
  - intros _. now exists [], a, l.
Qed.

Lemma parse_layers_line_raises (rgl : bytes -> gline) (cur : Layer.t) (n : Z)
    (line : bytes) (s : GCodeFile.t) :
  converts (rgl line) = false ->
  parse_layers_line rgl (cur, n) line s = (Raise ValueError, s).
Proof.
  unfold parse_layers_line, converts.
  destruct (rgl line) as [cmd [[|c0 c]|]]; simpl; try discriminate.
  unfold mbind, lift.
  destruct (check_layer_change (String c0 c) None) as [r|e] eqn:E; [discriminate|].
  now rewrite (check_layer_change_raise _ _ _ E).
Qed.

(** X7. [parse_layers] has two outcomes. If every layer-start comment
    of the file has values that convert, it returns and has only
    appended layers. Otherwise it raises [ValueError] and nothing else,
    and the object keeps the layers stored before the failing line. *)
Theorem parse_layers_outcome (read_gcode_line : bytes -> gline)
    (lines : list bytes) (s : GCodeFile.t) :
  if forallb converts (map read_gcode_line lines)
  then exists new,
      new <> [] /\
      parse_layers read_gcode_line lines s
      = (Ok tt, GCodeFile.set_layers (GCodeFile.layers s ++ new) s)
  else exists stored,
      parse_layers read_gcode_line lines s
      = (Raise ValueError, GCodeFile.set_layers (GCodeFile.layers s ++ stored) s).
Proof.
  destruct (forallb converts (map read_gcode_line lines)) eqn:E.
  - destruct (parse_layers_loop _ _ s E) as (done & cur & n & Hrun & _).
    exists (done ++ [cur]). split; [now destruct done|].
    unfold parse_layers, mbind, modify. rewrite Hrun. simpl. now rewrite <- app_assoc.
  - destruct (first_failure _ _ E) as (l1 & x & l2 & Hl & H1 & Hx).
    apply map_eq_app in Hl as (k1 & k2 & -> & <- & Hl).
    destruct k2 as [|line k2]; [discriminate|]. injection Hl as <- <-.
    destruct (parse_layers_loop _ _ s H1) as (done & cur & n & Hrun & _).
    exists done. unfold parse_layers, mbind at 1. rewrite foldM_app, Hrun.
    cbn [foldM]. unfold mbind. now rewrite parse_layers_line_raises.
Qed.

(** X8. When every layer-start comment converts, [parse_layers] stores
    one layer per layer-start line, and one layer when there is none;
    read one after the other, the lines of the new layers are the lines
    of the file, classified, none lost, repeated or moved. *)
Theorem parse_layers_keeps_every_line (read_gcode_line : bytes -> gline)
    (lines : list bytes) (s : GCodeFile.t) :
  forallb converts (map read_gcode_line lines) = true ->
  exists new,
    parse_layers read_gcode_line lines s
    = (Ok tt, GCodeFile.set_layers (GCodeFile.layers s ++ new) s) /\
    length new
    = Nat.max 1 (length (List.filter is_marker (map read_gcode_line lines))) /\
    concat (map Layer.lines new) = map read_gcode_line lines.
Proof.
  intros E.
  destruct (parse_layers_loop _ _ s E) as (done & cur & n & Hrun & Hcat & _ & Hlen & _).
  exists (done ++ [cur]). split_and!.
  - unfold parse_layers, mbind, modify. rewrite Hrun. simpl. now rewrite <- app_assoc.
  - rewrite length_app, Hlen. simpl. lia.
  - exact Hcat.
Qed.

(** X9. The layers [parse_layers] stores are numbered 1, 2, 3, ... in
    the order of the file; the first is the one [FirstLayer], all others
    are plain layers; and each starts untagged, with action [ACT_PASS]
    and no tower slots. *)
Theorem parse_layers_numbers_layers (read_gcode_line : bytes -> gline)
    (lines : list bytes) (s : GCodeFile.t) :
  forallb converts (map read_gcode_line lines) = true ->
  exists new,
    parse_layers read_gcode_line lines s
    = (Ok tt, GCodeFile.set_layers (GCodeFile.layers s ++ new) s) /\
    map Layer.num new = map Z.of_nat (seq 1 (length new)) /\
    map Layer.first new = true :: repeat false (length new - 1) /\
    Forall (fun l => Layer.action l = ACT_PASS /\ Layer.tower_slots l = 0) new.
Proof.
  intros E.
  destruct (parse_layers_loop _ _ s E)
    as (done & cur & n & Hrun & _ & _ & _ & Hnum & Hfirst & Hfresh & _).
  exists (done ++ [cur]). split_and!.
  - unfold parse_layers, mbind, modify. rewrite Hrun. simpl. now rewrite <- app_assoc.
  - rewrite length_app. cbn [length].
    replace (length done + 1)%nat with (S (length done)) by lia. exact Hnum.
  - rewrite length_app. cbn [length].
    replace (length done + 1 - 1)%nat with (length done) by lia. exact Hfirst.
  - exact Hfresh.
Qed.

(** X10. The k-th layer takes its height and thickness from the k-th
    layer-start line of the file, counted from zero; every layer but the
    first begins with that line. Without any layer-start line the one
    layer keeps the height and thickness 0.2 of its construction. So the
    lines before the first layer-start line belong to the first layer,
    together with those up to the second. *)
Theorem parse_layers_follows_markers (read_gcode_line : bytes -> gline)
    (lines : list bytes) (s : GCodeFile.t) :
  forallb converts (map read_gcode_line lines) = true ->
  exists new,
    parse_layers read_gcode_line lines s
    = (Ok tt, GCodeFile.set_layers (GCodeFile.layers s ++ new) s) /\
    forall k l, new !! k = Some l ->
      match List.filter is_marker (map read_gcode_line lines) !! k with
      | Some ln =>
          exists v, marker_values ln = Some v /\
                    Layer.z l = inject_Z v.1 /\ Layer.height l = v.2 /\
                    (k <> 0%nat -> exists rest, Layer.lines l = ln :: rest)
      | None => k = 0%nat /\ Layer.z l = 2 # 10 /\ Layer.height l = f0_2
      end.
Proof.
  intros E.
  destruct (parse_layers_loop _ _ s E)
    as (done & cur & n & Hrun & _ & _ & _ & _ & _ & _ & Hmark).
  exists (done ++ [cur]). split.
  - unfold parse_layers, mbind, modify. rewrite Hrun. simpl. now rewrite <- app_assoc.
  - exact Hmark.
Qed.

Lemma parse_layers_keeps_every_line_witness :
  exists new,
    parse_layers GCode.read_gcode_line Examples.two_layers
      (GCodeFile.init [0; 1])
    = (Ok tt, GCodeFile.set_layers (GCodeFile.layers (GCodeFile.init [0; 1]) ++ new)
                (GCodeFile.init [0; 1])) /\
    length new
    = Nat.max 1 (length (List.filter is_marker
                           (map GCode.read_gcode_line Examples.two_layers))) /\
    concat (map Layer.lines new)
    = map GCode.read_gcode_line Examples.two_layers.
Proof.
  apply (parse_layers_keeps_every_line GCode.read_gcode_line
           Examples.two_layers (GCodeFile.init [0; 1])).
  vm_compute. reflexivity.
Defined.

Lemma parse_layers_numbers_layers_witness :
  exists new,
    parse_layers GCode.read_gcode_line Examples.two_layers (GCodeFile.init [0; 1])
    = (Ok tt, GCodeFile.set_layers (GCodeFile.layers (GCodeFile.init [0; 1]) ++ new)
                (GCodeFile.init [0; 1])) /\
    map Layer.num new = map Z.of_nat (seq 1 (length new)) /\
    map Layer.first new = true :: repeat false (length new - 1) /\
    Forall (fun l => Layer.action l = ACT_PASS /\ Layer.tower_slots l = 0) new.
Proof.
  apply (parse_layers_numbers_layers GCode.read_gcode_line Examples.two_layers
           (GCodeFile.init [0; 1])).
  vm_compute. reflexivity.
Defined.

Lemma parse_layers_follows_markers_witness :
  exists new,
    parse_layers GCode.read_gcode_line Examples.two_layers (GCodeFile.init [0; 1])
    = (Ok tt, GCodeFile.set_layers (GCodeFile.layers (GCodeFile.init [0; 1]) ++ new)
                (GCodeFile.init [0; 1])) /\
    forall k l, new !! k = Some l ->
      match List.filter is_marker (map GCode.read_gcode_line Examples.two_layers) !! k with
      | Some ln =>
          exists v, marker_values ln = Some v /\
                    Layer.z l = inject_Z v.1 /\ Layer.height l = v.2 /\
                    (k <> 0%nat -> exists rest, Layer.lines l = ln :: rest)
      | None => k = 0%nat /\ Layer.z l = 2 # 10 /\ Layer.height l = f0_2
      end.
Proof.
  apply (parse_layers_follows_markers GCode.read_gcode_line Examples.two_layers
           (GCodeFile.init [0; 1])).
  vm_compute. reflexivity.
Defined.

(** ** Patterns are anchored *)

Lemma strip_prefix_anchored (p l : bytes) :
  String.prefix p l = false -> strip_prefix (chars p) (chars l) = None.
Proof.
  revert l. induction p as [|a p IH]; intros l; [destruct l; discriminate|].
  destruct l as [|b l]; [reflexivity|]. simpl.
  destruct (ascii_dec a b) as [->|Hne].
  - rewrite Ascii.eqb_refl. apply IH.
  - intros _. apply Ascii.eqb_neq in Hne. unfold chars. simpl. now rewrite Hne.
Qed.

(** X11. The layer-start pattern is matched at the first byte of the
    comment only. A comment that does not begin with the text
    "BEGIN_LAYER_OBJECT z=", for instance because a space comes first,
    is no layer start: [check_layer_change] hands back the value it was
    given and does not raise. *)
Theorem check_layer_change_anchored (line : bytes)
    (current_layer : option (Z * pyfloat)) :
  String.prefix "BEGIN_LAYER_OBJECT z=" line = false ->
  check_layer_change line current_layer = Ok current_layer.
Proof.
  intros H. unfold check_layer_change, LAYER_START_RE.
  now rewrite (strip_prefix_anchored _ _ H).
Qed.

Lemma check_layer_change_anchored_witness :
  check_layer_change " BEGIN_LAYER_OBJECT z=1 z_thickness=0.3" None = Ok None.
Proof.
  apply (check_layer_change_anchored " BEGIN_LAYER_OBJECT z=1 z_thickness=0.3" None).
  reflexivity.
Defined.

(** ** The header pass, line by line *)

(** X12. A material-block line is recognised by containment, but its
    extruder number is read by a pattern matched at the first byte. A
    comment that contains "*** Material Settings for Extruder" and does
    not begin with "Material Settings for Extruder " therefore raises
    [AttributeError], and the object is left as it was. *)
Theorem material_line_not_at_start_raises (z_offset : pyfloat)
    (current_tool : option Z) (c : bytes) (s : GCodeFile.t) :
  forallb (fun k => negb (contains k c))
    [" version"; "bed_size_x_mm ="; "bed_size_y_mm ="; "bed_offset_x_mm =";
     "bed_offset_y_mm ="; "bed_offset_z_mm ="; "round_bed =";
     "travel_speed_mm_per_s ="; "num_extruders = "; "first_layer_speed_mm_per_s =";
     "Perimeter Speed ="] = true ->
  contains "*** Material Settings for Extruder" c = true ->
  String.prefix "Material Settings for Extruder " c = false ->
  header_comment (z_offset, current_tool) c s = (Raise AttributeError, s).
Proof.
  intros Hkeys Hc Hp. cbn [forallb] in Hkeys.
  rewrite !andb_true_iff, !negb_true_iff in Hkeys. destruct_and!.
  unfold header_comment.
  repeat match goal with H : contains _ c = _ |- _ => rewrite H; clear H end.
  unfold ext_re. now rewrite (strip_prefix_anchored _ _ Hp).
Qed.

Lemma material_line_not_at_start_raises_witness :
  header_comment (Fin 0, None) " *** Material Settings for Extruder 2 ***"
    (GCodeFile.init [0; 1])
  = (Raise AttributeError, GCodeFile.init [0; 1]).
Proof.
  apply (material_line_not_at_start_raises (Fin 0) None
           " *** Material Settings for Extruder 2 ***" (GCodeFile.init [0; 1]));
    reflexivity.
Defined.

(** [s.split(sep)] has one piece when [sep] does not occur *)
Lemma split_aux_no_sep (sep : bytes) (s : bytes) (cur : list ascii) :
  contains sep s = false -> exists x, split_aux sep 0 cur s = [x].
Proof.
  revert cur. induction s as [|c s IH]; intros cur H; [eexists; reflexivity|].
  cbn [contains] in H. apply orb_false_iff in H as [H1 H2].
  cbn [split_aux]. rewrite H1. now apply IH.
Qed.

Lemma value_no_separator (c : bytes) :
  contains " = " c = false -> value c = Raise IndexError.
Proof.
  intros H. unfold value, split.
  destruct (split_aux_no_sep " = " c [] H) as [x ->]. reflexivity.
Qed.

(** X13. The value of a setting is what follows " = ", with a space on
    both sides. A line that names a float setting and has no such
    separator, as in "bed_size_x_mm =145", raises [IndexError] and leaves
    the object as it was. *)
Theorem setting_without_separator_raises (cmd : option bytes) (c : bytes)
    (loc : pyfloat * option Z) (s : GCodeFile.t) :
  truthy cmd = false -> is_float_setting c = true -> contains " = " c = false ->
  header_line loc (cmd, Some c) s = (Raise IndexError, s).
Proof.
  intros Hcmd Hset Hsep. apply float_line_raises; try assumption.
  unfold float_value. now rewrite (value_no_separator c Hsep).
Qed.

Lemma setting_without_separator_raises_witness :
  header_line (Fin 0, None) (None, Some " bed_size_x_mm =145") (GCodeFile.init [0])
  = (Raise IndexError, GCodeFile.init [0]).
Proof.
  apply (setting_without_separator_raises None " bed_size_x_mm =145" (Fin 0, None)
           (GCodeFile.init [0])); reflexivity.
Defined.

(** X14. A line with neither command nor comment makes the header pass
    raise [TypeError] at that line, the containment test being made on
    [None]; a file with such a line in any layer does not get through
    the pass, and its layers are left as they were. *)
Theorem line_without_comment_aborts (s : GCodeFile.t) (layer : Layer.t)
    (cmd : option bytes) :
  In layer (GCodeFile.layers s) -> In (cmd, None) (Layer.lines layer) ->
  truthy cmd = false ->
  (forall loc s1, header_line loc (cmd, None) s1 = (Raise TypeError, s1)) /\
  exists e s', parse_header s = (Raise e, s') /\ same_layers s s'.
Proof.
  intros Hlayer Hln Hcmd.
  assert (Hline : forall loc s1, header_line loc (cmd, None) s1 = (Raise TypeError, s1)).
  { intros loc s1. unfold header_line. now rewrite Hcmd. }
  split; [exact Hline|].
  apply (parse_header_raises s layer (cmd, None) Hlayer Hln).
  intros loc s1. rewrite Hline. now exists TypeError.
Qed.

Lemma line_without_comment_aborts_witness :
  (forall loc s1, header_line loc (None, None) s1 = (Raise TypeError, s1)) /\
  exists e s',
    parse_header (GCodeFile.set_layers
                    [Layer.set_lines (FirstLayer 1 (2 # 10) f0_2)
                       [(None, Some " bed_size_x_mm = 145"); (None, None)]]
                    (GCodeFile.init [0]))
    = (Raise e, s') /\
    same_layers (GCodeFile.set_layers
                   [Layer.set_lines (FirstLayer 1 (2 # 10) f0_2)
                      [(None, Some " bed_size_x_mm = 145"); (None, None)]]
                   (GCodeFile.init [0])) s'.
Proof.
  apply (line_without_comment_aborts _
           (Layer.set_lines (FirstLayer 1 (2 # 10) f0_2)
              [(None, Some " bed_size_x_mm = 145"); (None, None)]) None).
  - left. reflexivity.
  - right. left. reflexivity.
  - reflexivity.
Defined.

(** X15. The header pass writes neither the layers nor what the
    allocator computes nor the tools, whether it returns or raises. *)
Theorem parse_header_leaves_layers (s : GCodeFile.t) :
  same_layers s (parse_header s).2.
Proof.
  destruct (parse_header s) as [r s'] eqn:E.
  exact (preserves_parse_header s r s' E).
Qed.

(** ** The extruders of the header pass *)

Lemma add_extruders_fold (l : list Z) (m : gmap Z Extruder.t) (t : Z) :
  fold_left (fun m t => match m !! t with
                        | Some _ => m
                        | None => <[t := Extruder.new t]> m
                        end) l m !! t
  = match m !! t with
    | Some e => Some e
    | None => if bool_decide (t ∈ l) then Some (Extruder.new t) else None
    end.
Proof.
  revert m. induction l as [|a l IH]; intros m.
  - cbn [fold_left]. destruct (m !! t); [reflexivity|].
    case_bool_decide as H; [now apply elem_of_nil in H|reflexivity].
  - cbn [fold_left]. rewrite IH. destruct (m !! a) as [ea|] eqn:Ea.
    + destruct (m !! t) as [e|] eqn:Et; [reflexivity|].
      assert (t <> a) by congruence.
      destruct (decide (t ∈ l)) as [Hin|Hnin].
      * rewrite !bool_decide_eq_true_2; [reflexivity| |assumption]. now right.
      * rewrite !bool_decide_eq_false_2; [reflexivity| |assumption].
        intros [?|?]%elem_of_cons; congruence.
    + destruct (decide (t = a)) as [->|Hne].
      * rewrite lookup_insert_eq, Ea. rewrite bool_decide_eq_true_2 by now left. reflexivity.
      * rewrite lookup_insert_ne by congruence.
        destruct (m !! t) as [e|]; [reflexivity|].
        destruct (decide (t ∈ l)) as [Hin|Hnin].
        -- rewrite !bool_decide_eq_true_2; [reflexivity| |assumption]. now right.
        -- rewrite !bool_decide_eq_false_2; [reflexivity| |assumption].
           intros [?|?]%elem_of_cons; congruence.
Qed.

Lemma add_extruders_lookup (n : Z) (m : gmap Z Extruder.t) (t : Z) :
  add_extruders n m !! t
  = match m !! t with
    | Some e => Some e
    | None => if bool_decide (0 <= t < n) then Some (Extruder.new t) else None
    end.
Proof.
  unfold add_extruders. rewrite add_extruders_fold.
  destruct (m !! t); [reflexivity|].
  apply (f_equal (fun b : bool => if b then Some (Extruder.new t) else None)).
  apply bool_decide_ext. rewrite elem_of_seqZ. lia.
Qed.

(** X16. A line "num_extruders = n" creates the extruders 0 to n-1 that
    are not there yet, each with its own number and no setting; an
    extruder that exists keeps its record, so a second declaration
    resets nothing; no extruder is made for a count of zero or less.
    The tool of the block and the z offset stay as they are. *)
Theorem num_extruders_line (z_offset : pyfloat) (current_tool : option Z)
    (c : bytes) (n : Z) (s : GCodeFile.t) :
  forallb (fun k => negb (contains k c))
    [" version"; "bed_size_x_mm ="; "bed_size_y_mm ="; "bed_offset_x_mm =";
     "bed_offset_y_mm ="; "bed_offset_z_mm ="; "round_bed =";
     "travel_speed_mm_per_s ="] = true ->
  contains "num_extruders = " c = true ->
  int_value c = Ok n ->
  exists m,
    header_comment (z_offset, current_tool) c s
    = (Ok (z_offset, current_tool), GCodeFile.set_extruders m s) /\
    forall t, m !! t = match GCodeFile.extruders s !! t with
                       | Some e => Some e
                       | None => if bool_decide (0 <= t < n)
                                 then Some (Extruder.new t) else None
                       end.
Proof.
  intros Hkeys Hc Hn. cbn [forallb] in Hkeys.
  rewrite !andb_true_iff, !negb_true_iff in Hkeys. destruct_and!.
  exists (add_extruders n (GCodeFile.extruders s)). split.
  - unfold header_comment.
    repeat match goal with H : contains _ c = _ |- _ => rewrite H; clear H end.
    unfold mbind, lift. rewrite Hn. reflexivity.
  - apply add_extruders_lookup.
Qed.

Lemma num_extruders_line_witness :
  exists m,
    header_comment (Fin 0, None) " num_extruders = 2"
      (GCodeFile.set_extruders
         (<[1 := Extruder.set_retract (Some (Fin 3)) (Extruder.new 1)]> ∅)
         (GCodeFile.init [0; 1]))
    = (Ok (Fin 0, None),
       GCodeFile.set_extruders m
         (GCodeFile.set_extruders
            (<[1 := Extruder.set_retract (Some (Fin 3)) (Extruder.new 1)]> ∅)
            (GCodeFile.init [0; 1]))) /\
    forall t, m !! t =
      match GCodeFile.extruders
              (GCodeFile.set_extruders
                 (<[1 := Extruder.set_retract (Some (Fin 3)) (Extruder.new 1)]> ∅)
                 (GCodeFile.init [0; 1])) !! t with
      | Some e => Some e
      | None => if bool_decide (0 <= t < 2) then Some (Extruder.new t) else None
      end.
Proof.
  apply (num_extruders_line (Fin 0) None " num_extruders = 2" 2); reflexivity.
Defined.

(** X17. A per-tool setting needs its extruder. When the tool of the
    block is set and not zero, and no extruder of that number has been
    declared, a line that holds one of the six per-tool keys (and none
    of the keys tested before them) with a value that converts raises
    [KeyError], and the object is left as it was. *)
Theorem setting_of_undeclared_extruder_raises (z_offset : pyfloat) (n : Z)
    (c : bytes) (v : pyfloat) (s : GCodeFile.t) :
  forallb (fun k => negb (contains k c))
    [" version"; "bed_size_x_mm ="; "bed_size_y_mm ="; "bed_offset_x_mm =";
     "bed_offset_y_mm ="; "bed_offset_z_mm ="; "round_bed =";
     "travel_speed_mm_per_s ="; "num_extruders = "; "first_layer_speed_mm_per_s =";
     "Perimeter Speed ="; "*** Material Settings for Extruder"] = true ->
  existsb (fun k => contains k c)
    ["destring_length ="; "destring_speed_mm_per_s ="; "Z_lift_mm ="; "wipe_mm =";
     "flowrate_tweak ="; "g_code_matl ="] = true ->
  n <> 0 -> GCodeFile.extruders s !! n = None ->
  float_value c = Ok v ->
  header_comment (z_offset, Some n) c s = (Raise KeyError, s).
Proof.
  intros Hkeys Hone Hn Hext Hv. cbn [forallb] in Hkeys.
  rewrite !andb_true_iff, !negb_true_iff in Hkeys. destruct_and!.
  unfold header_comment.
  repeat match goal with H : contains _ c = _ |- _ => rewrite H; clear H end.
  assert (Ht : tool_truthy (Some n) = true).
  { simpl. apply negb_true_iff. now apply Z.eqb_neq. }
  rewrite Ht. cbn [andb existsb] in *.
  assert (Hval : exists w, value c = Ok w).
  { unfold float_value in Hv. destruct (value c); [eauto|discriminate]. }
  destruct Hval as [w Hw].
  repeat match goal with
         | |- context [contains ?k c] =>
             destruct (contains k c) eqn:?;
             [unfold mbind, lift, set_extruder_field, mget, mraise;
              rewrite ?Hv, ?Hw; cbn; rewrite Hext; reflexivity|]
         end.
  discriminate.
Qed.

Lemma setting_of_undeclared_extruder_raises_witness :
  header_comment (Fin 0, Some 1) " destring_length = 3" (GCodeFile.init [0; 1])
  = (Raise KeyError, GCodeFile.init [0; 1]).
Proof.
  apply (setting_of_undeclared_extruder_raises (Fin 0) 1 " destring_length = 3"
           (Fin 3) (GCodeFile.init [0; 1])); try reflexivity.
  lia.
Defined.

(** ** No extruder is lost *)

Lemma extruders_kept_refl (s : GCodeFile.t) : extruders_kept s s.
Proof. intros t e H. now exists e. Qed.

Lemma extruders_kept_trans (s1 s2 s3 : GCodeFile.t) :
  extruders_kept s1 s2 -> extruders_kept s2 s3 -> extruders_kept s1 s3.
Proof.
  intros H1 H2 t e H. destruct (H1 t e H) as (e' & He' & Ht').
  destruct (H2 t e' He') as (e'' & He'' & Ht''). exists e''. split; congruence.
Qed.

Lemma kept_mret {A} (a : A) : keeps extruders_kept (mret a).
Proof. intros s r s' [= <- <-]. apply extruders_kept_refl. Qed.

Lemma kept_mraise {A} (e : exn) : keeps extruders_kept (@mraise A e).
Proof. intros s r s' [= <- <-]. apply extruders_kept_refl. Qed.

Lemma kept_lift {A} (x : res A) : keeps extruders_kept (lift x).
Proof. intros s r s' [= <- <-]. apply extruders_kept_refl. Qed.

Lemma kept_mget : keeps extruders_kept mget.
Proof. intros s r s' [= <- <-]. apply extruders_kept_refl. Qed.

Lemma kept_mbind {A B} (m : M A) (k : A -> M B) :
  keeps extruders_kept m -> (forall a, keeps extruders_kept (k a)) ->
  keeps extruders_kept (mbind m k).
Proof.
  intros Hm Hk s r s'. unfold mbind. destruct (m s) as [[a|e] s1] eqn:E.
  - intros H. eapply extruders_kept_trans; [eapply Hm; eassumption|eapply Hk; eassumption].
  - intros [= <- <-]. eapply Hm; eassumption.
Qed.

Lemma kept_modify (f : GCodeFile.t -> GCodeFile.t) :
  (forall s, extruders_kept s (f s)) -> keeps extruders_kept (modify f).
Proof. intros H s r s' [= <- <-]. apply H. Qed.

Lemma kept_foldM {A B} (f : A -> B -> M A) (l : list B) :
  (forall a x, keeps extruders_kept (f a x)) ->
  forall a, keeps extruders_kept (foldM f l a).
Proof.
  intros Hf. induction l as [|x l IH]; intros a; simpl.
  - apply kept_mret.
  - apply kept_mbind; auto.
Qed.

Lemma kept_set_extruder_field (ct : option Z) (f : Extruder.t -> Extruder.t) :
  (forall e, Extruder.tool (f e) = Extruder.tool e) ->
  keeps extruders_kept (set_extruder_field ct f).
Proof.
  intros Hf s r s'. unfold set_extruder_field, mbind, mget.
  destruct ct as [n|]; [|intros [= <- <-]; apply extruders_kept_refl].
  destruct (GCodeFile.extruders s !! n) as [e|] eqn:E;
    [|intros [= <- <-]; apply extruders_kept_refl].
  intros [= <- <-] t e0 H. simpl.
  destruct (decide (t = n)) as [->|Hne].
  - rewrite lookup_insert_eq. exists (f e). split; [reflexivity|]. rewrite Hf. congruence.
  - rewrite lookup_insert_ne by congruence. now exists e0.
Qed.

Lemma kept_add_extruders (n : Z) :
  keeps extruders_kept
    (modify (fun s => GCodeFile.set_extruders
                        (add_extruders n (GCodeFile.extruders s)) s)).
Proof.
  apply kept_modify. intros s t e H. exists e. split; [|reflexivity].
  simpl. now rewrite add_extruders_lookup, H.
Qed.

(** walks through a method built from the monad's operations *)
Ltac keep :=
  repeat first
    [ apply kept_mret | apply kept_mraise | apply kept_lift | apply kept_mget
    | apply kept_add_extruders
    | apply kept_set_extruder_field; intros; reflexivity
    | apply kept_modify; intros ? ? ? ?; eexists; split; [eassumption|reflexivity]
    | apply kept_mbind; [|intros ?]
    | match goal with
      | |- keeps _ (match ?x with _ => _ end) => destruct x
      | |- keeps _ (if ?x then _ else _) => destruct x
      end ].

Lemma kept_header_line (loc : pyfloat * option Z) (ln : gline) :
  keeps extruders_kept (header_line loc ln).
Proof.
  unfold header_line, header_comment, parse_version.
  destruct ln as [cmd comment], loc as [z_offset current_tool]. keep.
Qed.

(** X18. The header pass never drops an extruder and never changes the
    number an extruder carries, whether it returns or raises: a record
    that is in [self.extruders] before the pass is there afterwards. *)
Theorem parse_header_keeps_extruders (s : GCodeFile.t) :
  extruders_kept s (parse_header s).2.
Proof.
  destruct (parse_header s) as [r s'] eqn:E. simpl.
  revert s r s' E. change (keeps extruders_kept parse_header).
  unfold parse_header. keep.
  - apply kept_foldM. intros. apply kept_foldM. apply kept_header_line.
  - apply kept_modify. intros s t e H. simpl. rewrite lookup_fmap, H. simpl.
    eexists. split; reflexivity.
Qed.

(** ** The z offset *)

Lemma header_comment_z_offset (z_offset : pyfloat) (current_tool : option Z)
    (c : bytes) (s : GCodeFile.t) (z' : pyfloat) (t' : option Z) (s' : GCodeFile.t) :
  header_comment (z_offset, current_tool) c s = (Ok (z', t'), s') ->
  z' = z_offset \/
  (contains "bed_offset_z_mm =" c = true /\ float_value c = Ok z').
Proof.
  unfold header_comment, parse_version, set_extruder_field, mbind, lift, mret, mraise,
    modify, mget.
  destruct (tool_truthy current_tool); cbn [andb];
  repeat match goal with
         | |- context [contains ?k c] => destruct (contains k c) eqn:?
         | |- context [float_value c] => destruct (float_value c) eqn:?
         | |- context [int_value c] => destruct (int_value c) eqn:?
         | |- context [value c] => destruct (value c) eqn:?
         | |- context [VERSION_RE c] => destruct (VERSION_RE c) as [[? ?]|]
         | |- context [ext_re c] => destruct (ext_re c)
         | |- context [py_int ?x] => destruct (py_int x)
         | |- context [String.eqb ?x ?y] => destruct (String.eqb x y)
         | |- context [GCodeFile.extruders s !! ?n] => destruct (GCodeFile.extruders s !! n)
         | |- context [match current_tool with _ => _ end] => destruct current_tool
         end;
  intros H; try discriminate; injection H as <- <- <-; auto.
Qed.

Lemma foldM_invariant {A B} (f : A -> B -> M A) (I : A -> Prop) (l : list B) :
  (forall a x s a' s', In x l -> I a -> f a x s = (Ok a', s') -> I a') ->
  forall a s a' s', I a -> foldM f l a s = (Ok a', s') -> I a'.
Proof.
  induction l as [|x l IH]; intros Hf a s a' s' Ha.
  - now intros [= <- <-].
  - cbn [foldM]. unfold mbind. destruct (f a x s) as [[a1|e] s1] eqn:E; [|discriminate].
    apply IH.
    + intros a0 y s0 a0' s0' Hy. apply Hf. now right.
    + eapply Hf; [now left|exact Ha|exact E].
Qed.

(** X19. When the header pass returns, all extruders carry one and the
    same z offset, those declared after the offset line as well. The
    offset is 0, or the value of a line of the file that holds
    "bed_offset_z_mm =". *)
Theorem z_offset_is_shared (s s' : GCodeFile.t) :
  parse_header s = (Ok tt, s') ->
  exists z_offset,
    (forall t e, GCodeFile.extruders s' !! t = Some e ->
                 Extruder.z_offset e = Some z_offset) /\
    (z_offset = Fin 0 \/
     exists layer cmd c,
       In layer (GCodeFile.layers s) /\ In (cmd, Some c) (Layer.lines layer) /\
       contains "bed_offset_z_mm =" c = true /\ float_value c = Ok z_offset).
Proof.
  unfold parse_header, mbind at 1, mget. unfold mbind.
  destruct (foldM _ (GCodeFile.layers s) (Fin 0, None) s) as [[[zo ct]|e] s1] eqn:E;
    [|discriminate].
  intros [= <-]. exists zo. split.
  - intros t e. simpl. rewrite lookup_fmap.
    destruct (GCodeFile.extruders s1 !! t); [|discriminate]. now intros [= <-].
  - set (I := fun loc : pyfloat * option Z =>
                loc.1 = Fin 0 \/
                exists layer cmd c,
                  In layer (GCodeFile.layers s) /\ In (cmd, Some c) (Layer.lines layer) /\
                  contains "bed_offset_z_mm =" c = true /\ float_value c = Ok loc.1).
    change (I (zo, ct)).
    refine (foldM_invariant _ I _ _ _ _ _ _ _ E); [|now left].
    intros a layer s0 a' s0' Hlayer Ha.
    apply foldM_invariant; [|exact Ha].
    intros [z0 t0] [cmd comment] s2 [z1 t1] s2' Hln Hz Hstep.
    unfold header_line in Hstep. destruct (truthy cmd).
    + injection Hstep as <- <- <-. exact Hz.
    + destruct comment as [c|]; [|discriminate].
      destruct (header_comment_z_offset _ _ _ _ _ _ _ Hstep) as [->|[Hk Hv]];
        [exact Hz|].
      right. now exists layer, cmd, c.
Qed.

Lemma z_offset_is_shared_witness :
  exists z_offset,
    (forall t e,
        GCodeFile.extruders (parse_header Examples.offset_print).2 !! t = Some e ->
        Extruder.z_offset e = Some z_offset) /\
    (z_offset = Fin 0 \/
     exists layer cmd c,
       In layer (GCodeFile.layers Examples.offset_print) /\
       In (cmd, Some c) (Layer.lines layer) /\
       contains "bed_offset_z_mm =" c = true /\ float_value c = Ok z_offset).
Proof.
  apply (z_offset_is_shared Examples.offset_print (parse_header Examples.offset_print).2).
  vm_compute. reflexivity.
Defined.

(** ** The run with several tools *)

Section PipelineMore.

Variable is_tool_change : bytes -> option Z.
Variable base_parse_print_settings : M unit.
Variable open_file : bytes -> M unit.
Variable find_tower_position add_switch_raft add_tool_change_gcode : M unit.
Variable save_new_file : M bytes.

(** X20. With more than one tool configured, and the file opened, its
    header and its print settings read without a raise, [process] cannot
    fail before the tower position is searched: the allocator and the
    perimeter pass both return. The later phases start from an object in
    which every layer is tagged and carries the perimeter speed of the
    header and the feed rate 0.05, and they run in the order tower
    position, raft, tool-change g-code, save. *)
Theorem multi_tool_run_reaches_tower (gcode_file : bytes) (s s1 s2 s3 : GCodeFile.t) :
  open_file gcode_file s = (Ok tt, s1) ->
  parse_header s1 = (Ok tt, s2) ->
  parse_print_settings is_tool_change base_parse_print_settings s2 = (Ok tt, s3) ->
  (1 < length (GCodeFile.tools s3))%nat ->
  exists s4 s5,
    filter_layers is_tool_change s3 = (Ok tt, s4) /\
    parse_perimeter_rates s4 = (Ok tt, s5) /\
    length (GCodeFile.layers s5) = length (GCodeFile.layers s3) /\
    (forall i l, GCodeFile.layers s5 !! i = Some l ->
       tagged is_tool_change l /\
       Layer.outer_perimeter_speed l = GCodeFile.outer_perimeter_speed s3 /\
       Layer.outer_perimeter_feedrate l = Some (Fin (5 # 100))) /\
    process is_tool_change base_parse_print_settings open_file
      find_tower_position add_switch_raft add_tool_change_gcode save_new_file
      gcode_file s
    = (run find_tower_position; run add_switch_raft; run add_tool_change_gcode;
       save_new_file) s5.
Proof.
  intros Hopen Hheader Hsettings Htools.
  destruct (filter_layers_on_spec is_tool_change s3)
    as (zs & n & d & s4 & _ & Hrun & Hn & Hmax & Htools4 & Hspeed & Hlen & Htag).
  assert (Hfilter : filter_layers is_tool_change s3 = (Ok tt, s4)).
  { unfold filter_layers. now rewrite Hrun. }
  eexists s4, _. split_and!; [exact Hfilter|reflexivity| | |].
  - simpl. now rewrite length_map.
  - intros i l. simpl. rewrite list_lookup_fmap.
    destruct (GCodeFile.layers s4 !! i) as [l4|] eqn:E; [|discriminate].
    intros [= <-]. destruct (Htag i l4 E) as [Ht _]. split_and!.
    + exact Ht.
    + simpl. exact Hspeed.
    + reflexivity.
  - unfold process, mbind. rewrite Hopen, Hheader, Hsettings, Hfilter.
    unfold parse_perimeter_rates, modify, mget. simpl. rewrite Htools4.
    apply Nat.ltb_lt in Htools. rewrite Htools.
    destruct (find_tower_position _) as [[[]|e5] s6]; [|reflexivity].
    destruct (add_switch_raft s6) as [[[]|e6] s7]; [|reflexivity].
    destruct (add_tool_change_gcode s7) as [[[]|e7] s8]; reflexivity.
Qed.

End PipelineMore.

Lemma multi_tool_run_reaches_tower_witness :
  exists s4 s5,
    filter_layers GCode.is_tool_change (Examples.parsed "single.gcode" [0; 1])
    = (Ok tt, s4) /\
    parse_perimeter_rates s4 = (Ok tt, s5) /\
    length (GCodeFile.layers s5)
    = length (GCodeFile.layers (Examples.parsed "single.gcode" [0; 1])) /\
    (forall i l, GCodeFile.layers s5 !! i = Some l ->
       tagged GCode.is_tool_change l /\
       Layer.outer_perimeter_speed l
       = GCodeFile.outer_perimeter_speed (Examples.parsed "single.gcode" [0; 1]) /\
       Layer.outer_perimeter_feedrate l = Some (Fin (5 # 100))) /\
    Examples.process "single.gcode" (GCodeFile.init [0; 1])
    = (run Examples.nothing; run Examples.nothing; run Examples.nothing;
       Examples.save_new_file) s5.
Proof.
  apply (multi_tool_run_reaches_tower GCode.is_tool_change
           Examples.base_parse_print_settings Examples.open_file
           Examples.nothing Examples.nothing Examples.nothing Examples.save_new_file
           "single.gcode" (GCodeFile.init [0; 1])
           (Examples.opened "single.gcode" [0; 1])
           (snd (parse_header (Examples.opened "single.gcode" [0; 1])))
           (Examples.parsed "single.gcode" [0; 1])).
  - vm_compute. reflexivity.
  - vm_compute. reflexivity.
  - vm_compute. reflexivity.
  - vm_compute. lia.
Defined.

(** ** The allocator reads heights and lines only *)

Lemma group_layers_heights (store store' : list Layer.t) :
  map Layer.z store' = map Layer.z store -> group_layers store' = group_layers store.
Proof.
  revert store'. induction store as [|x store IH] using rev_ind; intros store' H.
  - destruct store'; [reflexivity|discriminate].
  - rewrite map_app in H. apply map_eq_app in H as (st' & l2 & -> & H1 & H2).
    destruct l2 as [|x' [|? ?]]; try discriminate. injection H2 as Hx.
    rewrite !group_layers_snoc, (IH st' H1).
    assert (Hlen : length st' = length store).
    { rewrite <- (length_map Layer.z st'), H1. apply length_map. }
    unfold group_layer. now rewrite Hlen, Hx.
Qed.

Lemma layers_at_heights (store store' : list Layer.t) (z : Q) :
  map Layer.z store' = map Layer.z store -> layers_at store' z = layers_at store z.
Proof.
  revert store'. induction store as [|x store IH] using rev_ind; intros store' H.
  - destruct store'; [reflexivity|discriminate].
  - rewrite map_app in H. apply map_eq_app in H as (st' & l2 & -> & H1 & H2).
    destruct l2 as [|x' [|? ?]]; try discriminate. injection H2 as Hx.
    rewrite !layers_at_snoc, (IH st' H1).
    assert (Hlen : length st' = length store).
    { rewrite <- (length_map Layer.z st'), H1. apply length_map. }
    now rewrite Hlen, Hx.
Qed.

Lemma insert_by_ext {A} (le le' : A -> A -> bool) (x : A) (l : list A) :
  (forall a b, le a b = le' a b) -> insert_by le x l = insert_by le' x l.
Proof. intros H. induction l as [|y l IH]; simpl; [reflexivity|]. now rewrite H, IH. Qed.

Lemma sorted_by_ext {A} (le le' : A -> A -> bool) (l : list A) :
  (forall a b, le a b = le' a b) -> sorted_by le l = sorted_by le' l.
Proof.
  intros H. induction l as [|y l IH]; simpl; [reflexivity|].
  rewrite IH. now apply insert_by_ext.
Qed.

Section AllocatorAgain.

Variable is_tool_change : bytes -> option Z.

Lemma scan_tool_changes (store store' : list Layer.t) (zs : list Q)
    (st : Z * Z * layer_data) :
  (forall j, has_tool_changes_at is_tool_change store' j
             = has_tool_changes_at is_tool_change store j) ->
  foldR (scan_height is_tool_change store') zs st
  = foldR (scan_height is_tool_change store) zs st.
Proof.
  intros H. revert st. induction zs as [|z zs IH]; intros [[slots count] d]; [reflexivity|].
  cbn [foldR]. unfold scan_height at 1 3.
  destruct (ld_get d z) as [b|e]; [|reflexivity]. cbn [rbind].
  rewrite (count_tool_changes_ext is_tool_change store store' (b_layers b) H).
  destruct (slot_step _ _) as [s1 c1]. cbn [rbind]. apply IH.
Qed.

Lemma allocate_slots_reads (store store' : list Layer.t) :
  map Layer.z store' = map Layer.z store ->
  (forall j, has_tool_changes_at is_tool_change store' j
             = has_tool_changes_at is_tool_change store j) ->
  allocate_slots is_tool_change store' = allocate_slots is_tool_change store.
Proof.
  intros Hz Htc. unfold allocate_slots.
  now rewrite (group_layers_heights _ _ Hz), (scan_tool_changes _ _ _ _ Htc).
Qed.

Lemma expected_action_reads (store store' : list Layer.t) (refs : list nat)
    (slots : Z) (i : nat) :
  (forall j, has_tool_changes_at is_tool_change store' j
             = has_tool_changes_at is_tool_change store j) ->
  expected_action is_tool_change store' refs slots i
  = expected_action is_tool_change store refs slots i.
Proof.
  intros H. unfold expected_action.
  now rewrite H, (count_tool_changes_ext is_tool_change _ _ _ H),
    (plain_before_ext is_tool_change _ _ _ _ H).
Qed.

(** X21. [filter_layers] reads the heights and the lines of the layers
    and nothing of what an earlier run has written: run on its own
    result it returns and gives the same object again, the same slots,
    actions and filtered list. *)
Theorem filter_layers_twice (s : GCodeFile.t) :
  exists s',
    filter_layers is_tool_change s = (Ok tt, s') /\
    filter_layers is_tool_change s' = (Ok tt, s').
Proof.
  destruct (filter_layers_on_exact is_tool_change s)
    as (zs & slots & d & store' & Halloc & Hrun & _ & _ & _ & Hlen & Hrule).
  eexists. split; [unfold filter_layers; rewrite Hrun; reflexivity|].
  match goal with |- filter_layers _ ?x = _ => set (s' := x) end.
  destruct (filter_layers_on_exact is_tool_change s')
    as (zs2 & slots2 & d2 & store2 & Halloc2 & Hrun2 & _ & _ & _ & Hlen2 & Hrule2).
  change (GCodeFile.layers s') with store' in *.
  assert (Hsame : forall i,
             Layer.z <$> store' !! i = Layer.z <$> GCodeFile.layers s !! i /\
             Layer.lines <$> store' !! i = Layer.lines <$> GCodeFile.layers s !! i /\
             Layer.num <$> store' !! i = Layer.num <$> GCodeFile.layers s !! i).
  { intros i. destruct (GCodeFile.layers s !! i) as [l|] eqn:E.
    - destruct (Hrule i l E) as (b & n & _ & _ & _ & _ & ->). now split_and!.
    - apply lookup_ge_None in E. rewrite <- Hlen in E. apply lookup_ge_None in E.
      rewrite E. now split_and!. }
  assert (Hz : map Layer.z store' = map Layer.z (GCodeFile.layers s)).
  { apply list_eq. intros i. rewrite !list_lookup_fmap. apply Hsame. }
  assert (Htc : forall j, has_tool_changes_at is_tool_change store' j
                          = has_tool_changes_at is_tool_change (GCodeFile.layers s) j).
  { apply has_tool_changes_at_lines. intros j. apply Hsame. }
  rewrite (allocate_slots_reads _ _ Hz Htc), Halloc in Halloc2.
  injection Halloc2 as <- <- <-.
  assert (Hstore : store2 = store').
  { apply list_eq. intros i. destruct (GCodeFile.layers s !! i) as [l|] eqn:E.
    - destruct (Hrule i l E) as (b & n & Hb & Hn & _ & Hrefs & Hi).
      destruct (Hrule2 i _ Hi) as (b2 & n2 & Hb2 & Hn2 & _ & _ & Hi2).
      simpl in Hb2. rewrite Hb in Hb2. injection Hb2 as <-.
      rewrite Hn in Hn2. injection Hn2 as <-.
      rewrite Hi2, Hi, (expected_action_reads _ _ _ _ _ Htc). reflexivity.
    - apply lookup_ge_None in E. rewrite <- Hlen in E.
      transitivity (@None Layer.t); [|symmetry]; apply lookup_ge_None; lia. }
  subst store2. unfold filter_layers. rewrite Hrun2. f_equal.
  unfold s'. cbn [GCodeFile.layers GCodeFile.set_filtered_layers GCodeFile.set_layers
                    GCodeFile.set_max_slots].
  rewrite (map_ext (layers_at store') (layers_at (GCodeFile.layers s)))
    by (intros z; now apply layers_at_heights).
  reflexivity.
Qed.

End AllocatorAgain.
